(** * Insurance policy approval: the service layer over its database

    A shallow embedding of [src/services/policyService.ts], of the types of
    [src/lib/supabase.ts], of the schema and row-level-security (RLS)
    policies of the SQL migration that accompanies them, and of the action
    handlers of the policy detail view.

    Conventions of the embedding:
    - [uuid] and [text] columns are strings.  A string is a sequence of
      characters below 256, each standing for one code unit of the
      JavaScript string.
    - [number] / [numeric] values are finite rationals ([Q]); [NaN] and
      the infinities are not represented.  A premium is stored as
      [numeric(10, 2)]: rounded to two decimals, and refused when it needs
      more than eight digits before the point.
    - The columns [created_at] and [updated_at], and the [id] of an audit
      row, are filled in by column defaults and triggers and are never read
      by the service; they are left out of the rows.  The audit table is the
      list of its rows in insertion order.
    - A table with a [uuid] primary key is a finite map from the key to the
      row.
    - Every request reaches the database: the only failures are the
      refusals of the database itself (and, for the policy-number
      procedure, the failure branch the code handles on its own).
    - Of the console the lines of [notify] are kept, each by its type and
      message, and the line of the fraud check, by its label and
      result. *)

From Stdlib Require Import QArith Qround DecimalString Ascii.
From Stdlib Require Decimal DecimalFacts DecimalPos DecimalN.
From stdpp Require Import base option list strings gmap.

Open Scope string_scope.
Open Scope list_scope.

Abbreviation uuid := string (only parsing).

(** ** Types of [lib/supabase.ts] *)

Module UserRole.
Inductive t := creator | underwriter | manager.

#[global] Instance eq_dec : EqDecision t.
Proof. solve_decision. Defined.

(** The literal a role is written as, in TypeScript and in SQL. *)
Definition literal (r : t) : string :=
  match r with
  | creator => "creator"
  | underwriter => "underwriter"
  | manager => "manager"
  end.
End UserRole.

Module PolicyStatus.
Inductive t :=
| draft | pending_underwriter | pending_manager | approved | rejected.

#[global] Instance eq_dec : EqDecision t.
Proof. solve_decision. Defined.
End PolicyStatus.

Module ApprovalAction.
Inductive t := submitted | approved | rejected.

#[global] Instance eq_dec : EqDecision t.
Proof. solve_decision. Defined.
End ApprovalAction.

(** The type ['approved' | 'rejected'] of the [action] parameter of
    [processApproval]. *)
Module Decision.
Inductive t := approved | rejected.

#[global] Instance eq_dec : EqDecision t.
Proof. solve_decision. Defined.

Definition action (d : t) : ApprovalAction.t :=
  match d with
  | approved => ApprovalAction.approved
  | rejected => ApprovalAction.rejected
  end.
End Decision.

Module UserProfile.
Record t := make {
  id : uuid;
  email : string;
  full_name : string;
  role : UserRole.t;
}.
End UserProfile.

Module Policy.
Record t := make {
  id : uuid;
  policy_number : string;
  customer_name : string;
  premium_amount : Q;
  product_type : string;
  status : PolicyStatus.t;
  fraud_check_passed : bool;
  fraud_check_reason : string;
  creator_id : uuid;
}.
End Policy.

Module ApprovalLog.
Record t := make {
  policy_id : uuid;
  approver_id : uuid;
  action : ApprovalAction.t;
  role : string;
  comments : string;
  previous_status : PolicyStatus.t;
  new_status : PolicyStatus.t;
}.
End ApprovalLog.

(** ** Payloads of the requests the service sends *)

(** The object given to [from('policies').insert]. *)
Module PolicyInsert.
Record t := make {
  policy_number : string;
  customer_name : string;
  premium_amount : Q;
  product_type : string;
  creator_id : uuid;
  fraud_check_passed : bool;
  fraud_check_reason : string;
  status : PolicyStatus.t;
}.

(** The row stored for a payload, under the key the database draws. *)
Definition row (key : uuid) (p : t) : Policy.t :=
  {| Policy.id := key;
     Policy.policy_number := policy_number p;
     Policy.customer_name := customer_name p;
     Policy.premium_amount := premium_amount p;
     Policy.product_type := product_type p;
     Policy.status := status p;
     Policy.fraud_check_passed := fraud_check_passed p;
     Policy.fraud_check_reason := fraud_check_reason p;
     Policy.creator_id := creator_id p |}.
End PolicyInsert.

(** The object given to [from('policies').update]: the columns that are
    present are assigned, the others keep their value.  [updatePolicy]
    sends the first three, [submitPolicy] and [processApproval] the last. *)
Module PolicyPatch.
Record t := make {
  customer_name : option string;
  premium_amount : option Q;
  product_type : option string;
  status : option PolicyStatus.t;
}.

Definition only_status (s : PolicyStatus.t) : t :=
  {| customer_name := None; premium_amount := None;
     product_type := None; status := Some s |}.

(** No column is present: the object is [{}] once it is serialized. *)
Definition is_empty (u : t) : bool :=
  match customer_name u, premium_amount u, product_type u, status u with
  | None, None, None, None => true
  | _, _, _, _ => false
  end.

Definition apply (u : t) (p : Policy.t) : Policy.t :=
  {| Policy.id := Policy.id p;
     Policy.policy_number := Policy.policy_number p;
     Policy.customer_name := default (Policy.customer_name p) (customer_name u);
     Policy.premium_amount := default (Policy.premium_amount p) (premium_amount u);
     Policy.product_type := default (Policy.product_type p) (product_type u);
     Policy.status := default (Policy.status p) (status u);
     Policy.fraud_check_passed := Policy.fraud_check_passed p;
     Policy.fraud_check_reason := Policy.fraud_check_reason p;
     Policy.creator_id := Policy.creator_id p |}.
End PolicyPatch.

Inductive Request :=
| SelectPolicy (id : uuid)
| SelectPolicies (status : option PolicyStatus.t) (creator_id : option uuid)
| SelectApprovalLogs (policy_id : uuid)
| RpcGeneratePolicyNumber
| InsertPolicy (payload : PolicyInsert.t)
| UpdatePolicy (id : uuid) (payload : PolicyPatch.t)
| InsertApprovalLog (payload : ApprovalLog.t).

(** ** The world the service runs in *)

Record World := mkWorld {
  auth_uid : option uuid;                        (* auth.uid() of the session *)
  user_profiles : gmap uuid UserProfile.t;
  policies : gmap uuid Policy.t;
  approval_logs : list ApprovalLog.t;
  requests : list Request;                       (* requests sent so far *)
  console : list (string * string);              (* notify(type, message) *)
}.

Definition with_policies (ps : gmap uuid Policy.t) (w : World) : World :=
  {| auth_uid := auth_uid w; user_profiles := user_profiles w;
     policies := ps; approval_logs := approval_logs w;
     requests := requests w; console := console w |}.

Definition with_approval_logs (ls : list ApprovalLog.t) (w : World) : World :=
  {| auth_uid := auth_uid w; user_profiles := user_profiles w;
     policies := policies w; approval_logs := ls;
     requests := requests w; console := console w |}.

Definition sent (r : Request) (w : World) : World :=
  {| auth_uid := auth_uid w; user_profiles := user_profiles w;
     policies := policies w; approval_logs := approval_logs w;
     requests := requests w ++ [r]; console := console w |}.

Definition logged (type message : string) (w : World) : World :=
  {| auth_uid := auth_uid w; user_profiles := user_profiles w;
     policies := policies w; approval_logs := approval_logs w;
     requests := requests w; console := console w ++ [(type, message)] |}.

Definition signed_in (u : option uuid) (w : World) : World :=
  {| auth_uid := u; user_profiles := user_profiles w;
     policies := policies w; approval_logs := approval_logs w;
     requests := requests w; console := console w |}.

(** ** Errors and the service monad

    A service function is an [async] function: it returns a value or throws,
    and in both cases leaves its effects on the world. *)

(** The [error] of a failed request, by its code. *)
Inductive PostgrestError :=
| PGRST116                   (* .single(): no (or several) rows *)
| insufficient_privilege     (* 42501: new row violates row-level security *)
| check_violation            (* 23514 *)
| unique_violation           (* 23505 *)
| foreign_key_violation      (* 23503 *)
| numeric_value_out_of_range (* 22003: numeric field overflow *)
| rpc_failure.               (* the procedure call did not answer *)

(** The [{ data, error }] a request resolves to. *)
Inductive Response (A : Type) :=
| Data (data : A)
| Failure (error : PostgrestError).
Arguments Data {A} data.
Arguments Failure {A} error.

Inductive Error :=
| JsError (message : string)           (* new Error(message) *)
| DbError (error : PostgrestError).    (* throw error *)

Inductive Outcome (A : Type) :=
| Returned (value : A)
| Thrown (error : Error).
Arguments Returned {A} value.
Arguments Thrown {A} error.

Definition Svc (A : Type) : Type := World -> Outcome A * World.

Definition ret {A} (a : A) : Svc A := fun w => (Returned a, w).

Definition throw {A} (e : Error) : Svc A := fun w => (Thrown e, w).

Definition bind {A B} (m : Svc A) (k : A -> Svc B) : Svc B :=
  fun w =>
    match m w with
    | (Returned a, w') => k a w'
    | (Thrown e, w') => (Thrown e, w')
    end.

Notation "'await' x <- m 'in' k" := (bind m (fun x => k))
  (at level 10, x binder, m at level 100, k at level 200,
   format "'[v' 'await'  x  <-  m  'in' '/' k ']'").

(** [if (error) throw error], then go on with [data]. *)
Definition unwrap {A} (r : Response A) : Svc A :=
  match r with
  | Data data => ret data
  | Failure error => throw (DbError error)
  end.

(** What the environment decides during one [createPolicy]. *)
Record Env := mkEnv {
  randomFraudFlag : bool;                 (* Math.random() < 0.2 *)
  rpc_error : option PostgrestError;      (* error of supabase.rpc, if any *)
  date_now : N;                           (* Date.now() *)
  uuid_generate_v4 : uuid;                (* default of policies.id *)
}.

(** ** The migration: row-level security

    Every table has row-level security enabled and every policy is
    permissive and granted [TO authenticated].  PostgreSQL combines the
    permissive policies of one command with OR (CREATE POLICY, "Application
    of Multiple Policies"): a row can be updated when the USING expression
    of some UPDATE policy accepts the old row, and the new row is stored
    when the WITH CHECK expression of some UPDATE policy accepts it, be it
    the same policy or another.  A statement that reads rows or returns
    them is subject to the SELECT policy as well.  Each predicate below is
    one expression of the migration; [uid] is [auth.uid()]. *)

Module Rls.

(** [EXISTS (SELECT 1 FROM user_profiles WHERE user_profiles.id = auth.uid())];
    the policy of [user_profiles] for SELECT is [USING (true)]. *)
Definition has_profile (w : World) (uid : uuid) : bool :=
  bool_decide (is_Some (user_profiles w !! uid)).

(** [... AND user_profiles.role = r]. *)
Definition has_role (w : World) (uid : uuid) (r : UserRole.t) : bool :=
  bool_decide (UserProfile.role <$> user_profiles w !! uid = Some r).

(** "Creators can view all policies", FOR SELECT. *)
Definition view_using (w : World) (uid : uuid) (row : Policy.t) : bool :=
  has_profile w uid.

(** "Creators can create policies", FOR INSERT. *)
Definition create_check (w : World) (uid : uuid) (row : Policy.t) : bool :=
  bool_decide (Policy.creator_id row = uid)
  && has_role w uid UserRole.creator.

(** "Creators can update own draft policies", FOR UPDATE. *)
Definition creator_using (w : World) (uid : uuid) (row : Policy.t) : bool :=
  bool_decide (Policy.creator_id row = uid)
  && bool_decide (Policy.status row = PolicyStatus.draft)
  && has_role w uid UserRole.creator.

Definition creator_check (w : World) (uid : uuid) (row : Policy.t) : bool :=
  bool_decide (Policy.creator_id row = uid)
  && bool_decide (Policy.status row = PolicyStatus.draft).

(** "Underwriters can update pending underwriter policies", FOR UPDATE. *)
Definition underwriter_using (w : World) (uid : uuid) (row : Policy.t) : bool :=
  bool_decide (Policy.status row = PolicyStatus.pending_underwriter)
  && has_role w uid UserRole.underwriter.

Definition underwriter_check (w : World) (uid : uuid) (row : Policy.t) : bool :=
  bool_decide (Policy.status row = PolicyStatus.pending_manager)
  || bool_decide (Policy.status row = PolicyStatus.rejected).

(** "Managers can update pending manager policies", FOR UPDATE. *)
Definition manager_using (w : World) (uid : uuid) (row : Policy.t) : bool :=
  bool_decide (Policy.status row = PolicyStatus.pending_manager)
  && has_role w uid UserRole.manager.

Definition manager_check (w : World) (uid : uuid) (row : Policy.t) : bool :=
  bool_decide (Policy.status row = PolicyStatus.approved)
  || bool_decide (Policy.status row = PolicyStatus.rejected).

(** The UPDATE policies of [policies], combined. *)
Definition update_using (w : World) (uid : uuid) (row : Policy.t) : bool :=
  creator_using w uid row || underwriter_using w uid row
  || manager_using w uid row.

Definition update_check (w : World) (uid : uuid) (row : Policy.t) : bool :=
  creator_check w uid row || underwriter_check w uid row
  || manager_check w uid row.

(** "Authenticated users can insert approval logs", FOR INSERT. *)
Definition log_check (w : World) (uid : uuid) (row : ApprovalLog.t) : bool :=
  bool_decide (ApprovalLog.approver_id row = uid).

(** The rows of [policies] the session can see. *)
Definition visible (w : World) (row : Policy.t) : bool :=
  match auth_uid w with
  | Some uid => view_using w uid row
  | None => false
  end.

End Rls.

(** ** The migration: constraints and the policy-number procedure *)

Definition Qgtb (x y : Q) : bool := negb (Qle_bool x y).

(** The nearest integer, ties away from zero: the rounding of [numeric]. *)
Definition round_half_away (x : Q) : Z :=
  if Qle_bool 0 x then Qfloor (x + (1 # 2)) else (- Qfloor (- x + (1 # 2)))%Z.

(** [premium_amount numeric(10, 2)]: the value a number is stored as,
    rounded to two decimals; none when the rounded value needs more than
    ten digits. *)
Definition numeric_10_2 (x : Q) : option Q :=
  let cents := round_half_away (x * 100) in
  if (Z.abs cents <? 10 ^ 10)%Z then Some (Qred (cents # 100)) else None.

(** A payload with its premium as the column takes it. *)
Definition insert_as_stored (payload : PolicyInsert.t) : option PolicyInsert.t :=
  match numeric_10_2 (PolicyInsert.premium_amount payload) with
  | Some premium_amount =>
      Some {| PolicyInsert.policy_number := PolicyInsert.policy_number payload;
              PolicyInsert.customer_name := PolicyInsert.customer_name payload;
              PolicyInsert.premium_amount := premium_amount;
              PolicyInsert.product_type := PolicyInsert.product_type payload;
              PolicyInsert.creator_id := PolicyInsert.creator_id payload;
              PolicyInsert.fraud_check_passed :=
                PolicyInsert.fraud_check_passed payload;
              PolicyInsert.fraud_check_reason :=
                PolicyInsert.fraud_check_reason payload;
              PolicyInsert.status := PolicyInsert.status payload |}
  | None => None
  end.

(** The same for the object of an update; a premium that is not present
    is not touched. *)
Definition patch_as_stored (payload : PolicyPatch.t) : option PolicyPatch.t :=
  match PolicyPatch.premium_amount payload with
  | Some premium_amount =>
      match numeric_10_2 premium_amount with
      | Some premium_amount =>
          Some {| PolicyPatch.customer_name := PolicyPatch.customer_name payload;
                  PolicyPatch.premium_amount := Some premium_amount;
                  PolicyPatch.product_type := PolicyPatch.product_type payload;
                  PolicyPatch.status := PolicyPatch.status payload |}
      | None => None
      end
  | None => Some payload
  end.

(** [CHECK (premium_amount > 0)]. *)
Definition premium_amount_check (row : Policy.t) : bool :=
  Qgtb (Policy.premium_amount row) 0.

(** [policy_number text UNIQUE]: no other row carries the number. *)
Definition policy_number_free (w : World) (number : string) : bool :=
  bool_decide (map_Forall (fun _ row => Policy.policy_number row <> number)
                 (policies w)).

Definition decimal (n : N) : string := NilZero.string_of_uint (N.to_uint n).

Fixpoint repeat_string (n : nat) (fill : string) : string :=
  match n with
  | O => ""
  | S n => fill +:+ repeat_string n fill
  end.

(** [LPAD(s, len, fill)] for a one-character [fill]: [s] cut to [len]
    characters when it is longer, padded on the left otherwise. *)
Definition LPAD (s : string) (len : nat) (fill : string) : string :=
  if decide (len <= String.length s)%nat then String.substring 0 len s
  else repeat_string (len - String.length s) fill +:+ s.

(** [generate_policy_number()]: the count is taken over the rows the
    caller can see. *)
Definition generate_policy_number (w : World) : string :=
  let counter :=
    (N.of_nat (size (filter (fun kv => Rls.visible w kv.2 = true)
                       (policies w))) + 1)%N in
  "POL-" +:+ LPAD (decimal counter) 6 "0".

(** ** The requests of the client

    Each definition is one call chain of [supabase-js] together with what
    the database does with it under the migration.  A request is recorded
    as sent, whatever the database answers. *)

(** The row with the given key, when the session can see it. *)
Definition visible_policy (w : World) (id : uuid) : option Policy.t :=
  match policies w !! id with
  | Some row => if Rls.visible w row then Some row else None
  | None => None
  end.

(** [from('policies').select('*').eq('id', id).maybeSingle()]. *)
Definition select_policy (id : uuid) : Svc (Response (option Policy.t)) :=
  fun w => (Returned (Data (visible_policy w id)), sent (SelectPolicy id) w).

(** [from('policies').select('*').order('created_at', { ascending: false })]
    with the [.eq] filters that were added: the rows found, without the
    order they come in. *)
Definition select_policies (status : option PolicyStatus.t)
    (creator_id : option uuid) : Svc (Response (gmap uuid Policy.t)) :=
  fun w =>
    let wanted (row : Policy.t) : bool :=
      Rls.visible w row
      && from_option (fun s => bool_decide (Policy.status row = s)) true status
      && from_option (fun c => bool_decide (Policy.creator_id row = c)) true
           creator_id in
    (Returned (Data (filter (fun kv => wanted kv.2 = true) (policies w))),
     sent (SelectPolicies status creator_id) w).

(** [from('policies').insert(payload).select().single()].  The new row
    is formed first, with the premium as the column takes it; the
    row-level security and the constraints see that row. *)
Definition insert_policy (env : Env) (payload : PolicyInsert.t)
  : Svc (Response Policy.t) :=
  fun w =>
    let key := uuid_generate_v4 env in
    let refused error :=
      (Returned (Failure error), sent (InsertPolicy payload) w) in
    match insert_as_stored payload, auth_uid w with
    | None, _ => refused numeric_value_out_of_range
    | Some stored, None => refused insufficient_privilege
    | Some stored, Some uid =>
        let new := PolicyInsert.row key stored in
        if negb (Rls.create_check w uid new && Rls.view_using w uid new) then
          refused insufficient_privilege
        else if negb (premium_amount_check new) then
          refused check_violation
        else if negb (bool_decide (policies w !! key = None)
                      && policy_number_free w (Policy.policy_number new)) then
          refused unique_violation
        else if negb (Rls.has_profile w (Policy.creator_id new)) then
          refused foreign_key_violation
        else
          (Returned (Data new),
           with_policies (<[key := new]> (policies w))
             (sent (InsertPolicy payload) w))
    end.

(** [from('policies').update(payload).eq('id', id).select().single()],
    over UPDATE policies whose WITH CHECK expressions combine to
    [with_check].  For a payload without columns no row is updated.  A row
    the session cannot see or cannot update is skipped, and [.single()]
    fails on the empty result.  For a row that is updated the new row is
    formed, with the premium as the column takes it, and the WITH CHECK
    expressions and the constraints see that row. *)
Definition update_policy_under (with_check : World -> uuid -> Policy.t -> bool)
    (payload : PolicyPatch.t) (id : uuid) : Svc (Response Policy.t) :=
  fun w =>
    let refused error :=
      (Returned (Failure error), sent (UpdatePolicy id payload) w) in
    match auth_uid w, policies w !! id with
    | Some uid, Some old =>
        if negb (PolicyPatch.is_empty payload)
           && Rls.view_using w uid old && Rls.update_using w uid old then
          match patch_as_stored payload with
          | None => refused numeric_value_out_of_range
          | Some stored =>
              let new := PolicyPatch.apply stored old in
              if negb (with_check w uid new && Rls.view_using w uid new) then
                refused insufficient_privilege
              else if negb (premium_amount_check new) then
                refused check_violation
              else
                (Returned (Data new),
                 with_policies (<[id := new]> (policies w))
                   (sent (UpdatePolicy id payload) w))
          end
        else refused PGRST116
    | _, _ => refused PGRST116
    end.

(** The update under the migration. *)
Definition update_policy : PolicyPatch.t -> uuid -> Svc (Response Policy.t) :=
  update_policy_under Rls.update_check.

(** [from('approval_logs').insert(payload)]. *)
Definition insert_approval_log (payload : ApprovalLog.t)
  : Svc (Response unit) :=
  fun w =>
    let refused error :=
      (Returned (Failure error), sent (InsertApprovalLog payload) w) in
    match auth_uid w with
    | None => refused insufficient_privilege
    | Some uid =>
        if negb (Rls.log_check w uid payload) then
          refused insufficient_privilege
        else if negb (bool_decide
                        (is_Some (policies w !! ApprovalLog.policy_id payload))
                      && Rls.has_profile w (ApprovalLog.approver_id payload))
        then
          refused foreign_key_violation
        else
          (Returned (Data tt),
           with_approval_logs (approval_logs w ++ [payload])
             (sent (InsertApprovalLog payload) w))
    end.

(** [from('approval_logs').select('*, user_profiles(full_name, role)')
    .eq('policy_id', policyId).order('created_at', { ascending: false })]:
    the newest row first. *)
Definition select_approval_logs (policyId : uuid)
  : Svc (Response (list (ApprovalLog.t * option (string * UserRole.t)))) :=
  fun w =>
    let joined (l : ApprovalLog.t) :=
      (l, (fun p => (UserProfile.full_name p, UserProfile.role p))
            <$> user_profiles w !! ApprovalLog.approver_id l) in
    let rows :=
      match auth_uid w with
      | Some _ =>
          reverse (joined <$> filter (fun l => ApprovalLog.policy_id l = policyId)
                                (approval_logs w))
      | None => []
      end in
    (Returned (Data rows), sent (SelectApprovalLogs policyId) w).

(** [supabase.rpc('generate_policy_number')]. *)
Definition rpc_generate_policy_number (env : Env) : Svc (Response string) :=
  fun w =>
    match rpc_error env with
    | Some error => (Returned (Failure error), sent RpcGeneratePolicyNumber w)
    | None =>
        (Returned (Data (generate_policy_number w)),
         sent RpcGeneratePolicyNumber w)
    end.

(** ** [services/policyService.ts] *)

(** The argument of [createPolicy]; [performFraudCheck] reads its first
    three fields. *)
Module PolicyData.
Record t := make {
  customer_name : string;
  premium_amount : Q;
  product_type : string;
  creator_id : uuid;
}.
End PolicyData.

Module FraudCheck.
Record t := make { passed : bool; reason : string }.
End FraudCheck.

(** [\d] *)
Definition is_digit (c : ascii) : bool :=
  (48 <=? nat_of_ascii c)%nat && (nat_of_ascii c <=? 57)%nat.

Fixpoint all_digits (s : string) : bool :=
  match s with
  | EmptyString => true
  | String c rest => is_digit c && all_digits rest
  end.

(** [/^\d+$/.test(s)] *)
Definition digits_only (s : string) : bool :=
  negb (String.eqb s "") && all_digits s.

(** The first part of [performFraudCheck]: the risk factors found and the
    score they add up to. *)
Definition assess_risk (randomFraudFlag : bool) (policy : PolicyData.t)
  : list string * N :=
  let riskFactors : list string := [] in
  let riskScore : N := 0%N in
  let '(riskFactors, riskScore) :=
    if randomFraudFlag then
      ((riskFactors ++ ["Anomalous pattern detected by AI model"])%list,
       (riskScore + 50)%N)
    else (riskFactors, riskScore) in
  let '(riskFactors, riskScore) :=
    if Qgtb (PolicyData.premium_amount policy) 100000 then
      ((riskFactors ++ ["Unusually high premium amount"])%list,
       (riskScore + 30)%N)
    else (riskFactors, riskScore) in
  let '(riskFactors, riskScore) :=
    if (String.length (PolicyData.customer_name policy) <? 3)%nat
       || digits_only (PolicyData.customer_name policy) then
      ((riskFactors ++ ["Invalid customer name format"])%list,
       (riskScore + 40)%N)
    else (riskFactors, riskScore) in
  (riskFactors, riskScore).

(** The result of [performFraudCheck]; the line it writes to the console
    on its way is [fraud_check_notification] below.  [randomFraudFlag] is
    the outcome of [Math.random() < 0.2]. *)
Definition performFraudCheck (randomFraudFlag : bool) (policy : PolicyData.t)
  : FraudCheck.t :=
  let '(riskFactors, riskScore) := assess_risk randomFraudFlag policy in
  let passed := (riskScore <? 50)%N in
  let reason :=
    if passed then "All fraud checks passed successfully"
    else "Fraud risk detected: " +:+ String.concat ", " riskFactors
         +:+ " (Risk Score: " +:+ decimal riskScore +:+ ")" in
  {| FraudCheck.passed := passed; FraudCheck.reason := reason |}.

(** [notify(type, message, data)]: a line on the console. *)
Definition notify (type message : string) : Svc unit :=
  fun w => (Returned tt, logged type message w).

(** The line [performFraudCheck] writes to the console before it returns
    its result: [console.log('FRAUD CHECK NOTIFICATION:', { ..., result })]. *)
Definition fraud_check_notification (fraudCheck : FraudCheck.t) : Svc unit :=
  fun w =>
    (Returned tt,
     logged "FRAUD CHECK NOTIFICATION"
       (if FraudCheck.passed fraudCheck then "PASSED" else "FAILED") w).

Definition generatePolicyNumber (env : Env) : Svc string :=
  await r <- rpc_generate_policy_number env in
  match r with
  | Data data =>
      if String.eqb data "" then ret ("POL-" +:+ decimal (date_now env))
      else ret data
  | Failure _ => ret ("POL-" +:+ decimal (date_now env))
  end.

Definition createPolicy (env : Env) (policyData : PolicyData.t)
  : Svc Policy.t :=
  let fraudCheck := performFraudCheck (randomFraudFlag env) policyData in
  await _ <- fraud_check_notification fraudCheck in
  await policyNumber <- generatePolicyNumber env in
  await r <- insert_policy env
    {| PolicyInsert.policy_number := policyNumber;
       PolicyInsert.customer_name := PolicyData.customer_name policyData;
       PolicyInsert.premium_amount := PolicyData.premium_amount policyData;
       PolicyInsert.product_type := PolicyData.product_type policyData;
       PolicyInsert.creator_id := PolicyData.creator_id policyData;
       PolicyInsert.fraud_check_passed := FraudCheck.passed fraudCheck;
       PolicyInsert.fraud_check_reason := FraudCheck.reason fraudCheck;
       PolicyInsert.status := PolicyStatus.draft |} in
  await data <- unwrap r in
  await _ <- notify "policy_created" "New policy created" in
  await _ <- (if negb (FraudCheck.passed fraudCheck)
              then notify "fraud_alert" "Policy flagged for fraud review"
              else ret tt) in
  ret data.

(** The [updates] of [updatePolicy]. *)
Module PolicyUpdates.
Record t := make {
  customer_name : option string;
  premium_amount : option Q;
  product_type : option string;
}.

Definition patch (u : t) : PolicyPatch.t :=
  {| PolicyPatch.customer_name := customer_name u;
     PolicyPatch.premium_amount := premium_amount u;
     PolicyPatch.product_type := product_type u;
     PolicyPatch.status := None |}.
End PolicyUpdates.

Definition updatePolicy (policyId : uuid) (updates : PolicyUpdates.t)
  : Svc Policy.t :=
  await r <- update_policy (PolicyUpdates.patch updates) policyId in
  await data <- unwrap r in
  await _ <- notify "policy_updated" "Policy updated" in
  ret data.

(** The [filters] of [getPolicies]. *)
Module PolicyFilters.
Record t := make {
  status : option PolicyStatus.t;
  creator_id : option uuid;
}.
End PolicyFilters.

(** A filter is added when its value is truthy: a status always is, a
    creator unless it is the empty string. *)
Definition getPolicies (filters : option PolicyFilters.t)
  : Svc (gmap uuid Policy.t) :=
  let status :=
    match filters with
    | Some filters => PolicyFilters.status filters
    | None => None
    end in
  let creator_id :=
    match filters with
    | Some filters =>
        match PolicyFilters.creator_id filters with
        | Some c => if String.eqb c "" then None else Some c
        | None => None
        end
    | None => None
    end in
  await r <- select_policies status creator_id in
  await data <- unwrap r in
  ret data.

Definition getPolicy (policyId : uuid) : Svc (option Policy.t) :=
  await r <- select_policy policyId in
  await data <- unwrap r in
  ret data.

Definition logApproval (policyId approverId : uuid)
    (action : ApprovalAction.t) (role comments : string)
    (previousStatus newStatus : PolicyStatus.t) : Svc unit :=
  await r <- insert_approval_log
    {| ApprovalLog.policy_id := policyId;
       ApprovalLog.approver_id := approverId;
       ApprovalLog.action := action;
       ApprovalLog.role := role;
       ApprovalLog.comments := comments;
       ApprovalLog.previous_status := previousStatus;
       ApprovalLog.new_status := newStatus |} in
  unwrap r.

(** [submitPolicy], over UPDATE policies whose WITH CHECK expressions
    combine to [with_check]. *)
Definition submitPolicy_under (with_check : World -> uuid -> Policy.t -> bool)
    (policyId creatorId : uuid) : Svc Policy.t :=
  await policy <- getPolicy policyId in
  match policy with
  | None => throw (JsError "Policy not found")
  | Some policy =>
      await r <- update_policy_under with_check
        (PolicyPatch.only_status PolicyStatus.pending_underwriter) policyId in
      await data <- unwrap r in
      await _ <- logApproval policyId creatorId ApprovalAction.submitted
        "creator" "" PolicyStatus.draft PolicyStatus.pending_underwriter in
      await _ <- notify "policy_submitted" "Policy submitted for approval" in
      await _ <- notify "approval_required" "Underwriter action required" in
      ret data
  end.

(** [submitPolicy] under the migration. *)
Definition submitPolicy : uuid -> uuid -> Svc Policy.t :=
  submitPolicy_under Rls.update_check.

(** [comments] is [''] when the caller leaves it out. *)
Definition processApproval (policyId approverId : uuid)
    (action : Decision.t) (role comments : string) : Svc Policy.t :=
  await policy <- getPolicy policyId in
  match policy with
  | None => throw (JsError "Policy not found")
  | Some policy =>
      await newStatus <-
        (match action with
         | Decision.rejected => ret PolicyStatus.rejected
         | Decision.approved =>
             if bool_decide (Policy.status policy = PolicyStatus.pending_underwriter)
                && String.eqb role "underwriter" then
               ret PolicyStatus.pending_manager
             else if bool_decide (Policy.status policy = PolicyStatus.pending_manager)
                     && String.eqb role "manager" then
               ret PolicyStatus.approved
             else throw (JsError "Invalid approval workflow state")
         end) in
      await r <- update_policy (PolicyPatch.only_status newStatus) policyId in
      await data <- unwrap r in
      await _ <- logApproval policyId approverId (Decision.action action)
        role comments (Policy.status policy) newStatus in
      await _ <-
        (if bool_decide (action = Decision.approved)
            && bool_decide (newStatus = PolicyStatus.approved) then
           notify "policy_approved" "Policy fully approved"
         else if bool_decide (action = Decision.approved)
                 && bool_decide (newStatus = PolicyStatus.pending_manager) then
           await _ <- notify "policy_approved" "Underwriter approved policy" in
           notify "approval_required" "Manager action required"
         else if bool_decide (action = Decision.rejected) then
           notify "policy_rejected" "Policy rejected"
         else ret tt) in
      ret data
  end.

Definition getApprovalLogs (policyId : uuid)
  : Svc (list (ApprovalLog.t * option (string * UserRole.t))) :=
  await r <- select_approval_logs policyId in
  unwrap r.

(** ** Sequences of service calls

    A call is made in the session of some user (or of nobody); a call that
    throws does not keep later calls from being made. *)

Module Call.
Inductive t :=
| createPolicy (env : Env) (policyData : PolicyData.t)
| updatePolicy (policyId : uuid) (updates : PolicyUpdates.t)
| getPolicies (filters : option PolicyFilters.t)
| getPolicy (policyId : uuid)
| submitPolicy (policyId creatorId : uuid)
| processApproval (policyId approverId : uuid) (action : Decision.t)
    (role comments : string)
| logApproval (policyId approverId : uuid) (action : ApprovalAction.t)
    (role comments : string) (previousStatus newStatus : PolicyStatus.t)
| getApprovalLogs (policyId : uuid).
End Call.

Definition forget {A} (m : Svc A) : Svc unit :=
  await _ <- m in ret tt.

Definition run (c : Call.t) : Svc unit :=
  match c with
  | Call.createPolicy env policyData => forget (createPolicy env policyData)
  | Call.updatePolicy policyId updates => forget (updatePolicy policyId updates)
  | Call.getPolicies filters => forget (getPolicies filters)
  | Call.getPolicy policyId => forget (getPolicy policyId)
  | Call.submitPolicy policyId creatorId =>
      forget (submitPolicy policyId creatorId)
  | Call.processApproval policyId approverId action role comments =>
      forget (processApproval policyId approverId action role comments)
  | Call.logApproval policyId approverId action role comments
      previousStatus newStatus =>
      logApproval policyId approverId action role comments
        previousStatus newStatus
  | Call.getApprovalLogs policyId => forget (getApprovalLogs policyId)
  end.

Record Invocation := by_user { caller : option uuid; call : Call.t }.

Definition invoke (i : Invocation) (w : World) : World :=
  (run (call i) (signed_in (caller i) w)).2.

Definition invoke_all (calls : list Invocation) (w : World) : World :=
  foldl (fun w i => invoke i w) w calls.

Definition status_of (w : World) (policyId : uuid) : option PolicyStatus.t :=
  Policy.status <$> policies w !! policyId.

(** ** The policy detail view: its action handlers

    [profile] is the profile of the signed-in user and [policy] the row
    the view was opened with. *)

(** White space and line terminators among the characters below 256. *)
Definition is_white_space (c : ascii) : bool :=
  let n := nat_of_ascii c in
  ((9 <=? n)%nat && (n <=? 13)%nat) || (n =? 32)%nat || (n =? 160)%nat.

Fixpoint trimStart (s : string) : string :=
  match s with
  | String c rest => if is_white_space c then trimStart rest else s
  | EmptyString => s
  end.

Fixpoint trimEnd (s : string) : string :=
  match s with
  | String c rest =>
      let rest' := trimEnd rest in
      if is_white_space c && String.eqb rest' "" then "" else String c rest'
  | EmptyString => s
  end.

Definition trim (s : string) : string := trimEnd (trimStart s).

(** What the user gets to see when a handler is done. *)
Inductive Shown :=
| onUpdate                                   (* the view is refreshed *)
| alert (message : string)
| alert_database (error : PostgrestError).   (* the message of the database *)

(** [try { await m; onUpdate(); } catch (error) { alert(error.message || otherwise); }] *)
Definition try_or_alert {A} (m : Svc A) (otherwise : string)
  : World -> Shown * World :=
  fun w =>
    match m w with
    | (Returned _, w') => (onUpdate, w')
    | (Thrown (JsError message), w') =>
        (alert (if String.eqb message "" then otherwise else message), w')
    | (Thrown (DbError error), w') => (alert_database error, w')
    end.

Definition handleSubmit (profile : UserProfile.t) (policy : Policy.t)
  : World -> Shown * World :=
  try_or_alert (submitPolicy (Policy.id policy) (UserProfile.id profile))
    "Failed to submit policy".

Definition handleApprove (profile : UserProfile.t) (policy : Policy.t)
    (comments : string) : World -> Shown * World :=
  try_or_alert
    (processApproval (Policy.id policy) (UserProfile.id profile)
       Decision.approved (UserRole.literal (UserProfile.role profile)) comments)
    "Failed to approve policy".

Definition handleReject (profile : UserProfile.t) (policy : Policy.t)
    (comments : string) : World -> Shown * World :=
  if String.eqb (trim comments) "" then
    fun w => (alert "Please provide a reason for rejection", w)
  else
    try_or_alert
      (processApproval (Policy.id policy) (UserProfile.id profile)
         Decision.rejected (UserRole.literal (UserProfile.role profile)) comments)
      "Failed to reject policy".

(** [premium_amount] is the number [parseFloat] read from the form. *)
Definition handleUpdate (policy : Policy.t) (customer_name : string)
    (premium_amount : Q) (product_type : string) : World -> Shown * World :=
  try_or_alert
    (updatePolicy (Policy.id policy)
       {| PolicyUpdates.customer_name := Some customer_name;
          PolicyUpdates.premium_amount := Some premium_amount;
          PolicyUpdates.product_type := Some product_type |})
    "Failed to update policy".

Definition canEdit (profile : option UserProfile.t) (policy : Policy.t) : bool :=
  match profile with
  | Some profile =>
      bool_decide (UserProfile.role profile = UserRole.creator)
      && bool_decide (Policy.status policy = PolicyStatus.draft)
      && String.eqb (Policy.creator_id policy) (UserProfile.id profile)
  | None => false
  end.

Definition canSubmit (profile : option UserProfile.t) (policy : Policy.t) : bool :=
  match profile with
  | Some profile =>
      bool_decide (UserProfile.role profile = UserRole.creator)
      && bool_decide (Policy.status policy = PolicyStatus.draft)
      && String.eqb (Policy.creator_id policy) (UserProfile.id profile)
  | None => false
  end.

Definition canApprove (profile : option UserProfile.t) (policy : Policy.t) : bool :=
  match profile with
  | Some profile =>
      (bool_decide (UserProfile.role profile = UserRole.underwriter)
       && bool_decide (Policy.status policy = PolicyStatus.pending_underwriter))
      || (bool_decide (UserProfile.role profile = UserRole.manager)
          && bool_decide (Policy.status policy = PolicyStatus.pending_manager))
  | None => false
  end.

(** ** The fraud check, as the specification words it *)

#[local] Instance Qlt_decision (x y : Q) : Decision (x < y)%Q.
Proof.
  destruct (Qlt_le_dec x y) as [H | H]; [left; exact H | right].
  apply Qle_not_lt, H.
Defined.

(** "premium_amount > 100000" *)
Definition high_premium (policy : PolicyData.t) : Prop :=
  (100000 < PolicyData.premium_amount policy)%Q.

(** "customer_name has fewer than 3 characters or consists only of digits" *)
Definition odd_name (policy : PolicyData.t) : Prop :=
  (String.length (PolicyData.customer_name policy) < 3)%nat
  \/ Forall (fun c => (48 <= nat_of_ascii c <= 57)%nat)
       (String.list_ascii_of_string (PolicyData.customer_name policy)).

#[local] Instance odd_name_decision policy : Decision (odd_name policy).
Proof. unfold odd_name. apply _. Defined.

(** "the sum of 50 if the random flag is set, 30 if ..., and 40 if ..." *)
Definition risk_score_spec (flag : bool) (policy : PolicyData.t) : N :=
  ((if flag then 50 else 0)
   + (if decide (high_premium policy) then 30 else 0)
   + (if decide (odd_name policy) then 40 else 0))%N.

(** ** The workflow, as the specification words it *)

(** "draft -> pending_underwriter -> pending_manager -> approved, or from one
    of the two pending states into the terminal state rejected" *)
Inductive forward : PolicyStatus.t -> PolicyStatus.t -> Prop :=
| forward_submit :
    forward PolicyStatus.draft PolicyStatus.pending_underwriter
| forward_underwriter :
    forward PolicyStatus.pending_underwriter PolicyStatus.pending_manager
| forward_manager :
    forward PolicyStatus.pending_manager PolicyStatus.approved
| forward_underwriter_reject :
    forward PolicyStatus.pending_underwriter PolicyStatus.rejected
| forward_manager_reject :
    forward PolicyStatus.pending_manager PolicyStatus.rejected.

(** The transition table: [Some next] for the five listed rows. *)
Definition transition_table (status : PolicyStatus.t) (role : string)
    (action : ApprovalAction.t) : option PolicyStatus.t :=
  match status, action with
  | PolicyStatus.draft, ApprovalAction.submitted =>
      if decide (role = "creator") then Some PolicyStatus.pending_underwriter
      else None
  | PolicyStatus.pending_underwriter, ApprovalAction.approved =>
      if decide (role = "underwriter") then Some PolicyStatus.pending_manager
      else None
  | PolicyStatus.pending_underwriter, ApprovalAction.rejected =>
      if decide (role = "underwriter") then Some PolicyStatus.rejected
      else None
  | PolicyStatus.pending_manager, ApprovalAction.approved =>
      if decide (role = "manager") then Some PolicyStatus.approved else None
  | PolicyStatus.pending_manager, ApprovalAction.rejected =>
      if decide (role = "manager") then Some PolicyStatus.rejected else None
  | _, _ => None
  end.

(** What one call does to the status of a policy: nothing, a move of the
    workflow, or the rejection of a draft. *)
Definition moves (s s' : PolicyStatus.t) : Prop :=
  s' = s \/ forward s s'
  \/ (s = PolicyStatus.draft /\ s' = PolicyStatus.rejected).

(** What every call preserves: the profiles stay, the audit log grows at
    its end, and the status of a policy that exists makes at most one
    move. *)
Definition evolves (w w' : World) : Prop :=
  user_profiles w' = user_profiles w
  /\ (exists added, approval_logs w' = (approval_logs w ++ added)%list)
  /\ (forall id s, status_of w id = Some s ->
        exists s', status_of w' id = Some s' /\ moves s s').

(** How far a status is along the workflow. *)
Definition rank (s : PolicyStatus.t) : nat :=
  match s with
  | PolicyStatus.draft => 0
  | PolicyStatus.pending_underwriter => 1
  | PolicyStatus.pending_manager => 2
  | PolicyStatus.approved => 3
  | PolicyStatus.rejected => 3
  end.

Definition terminal (s : PolicyStatus.t) : Prop :=
  s = PolicyStatus.approved \/ s = PolicyStatus.rejected.

(** The two operations that change a status, with the policy they act on. *)
Definition status_call (c : Call.t) : option uuid :=
  match c with
  | Call.submitPolicy policyId _ => Some policyId
  | Call.processApproval policyId _ _ _ _ => Some policyId
  | _ => None
  end.

(** ** Comparing two runs of [createPolicy] *)

(** The object [createPolicy] inserts, for the outcome of the fraud check
    and the policy number it got. *)
Definition inserted (policyData : PolicyData.t) (fraudCheck : FraudCheck.t)
    (policyNumber : string) : PolicyInsert.t :=
  {| PolicyInsert.policy_number := policyNumber;
     PolicyInsert.customer_name := PolicyData.customer_name policyData;
     PolicyInsert.premium_amount := PolicyData.premium_amount policyData;
     PolicyInsert.product_type := PolicyData.product_type policyData;
     PolicyInsert.creator_id := PolicyData.creator_id policyData;
     PolicyInsert.fraud_check_passed := FraudCheck.passed fraudCheck;
     PolicyInsert.fraud_check_reason := FraudCheck.reason fraudCheck;
     PolicyInsert.status := PolicyStatus.draft |}.

(** The lines [createPolicy] has written to the console when it returns,
    and the one it has written when it throws. *)
Definition fraud_check_line (fraudCheck : FraudCheck.t) : string * string :=
  ("FRAUD CHECK NOTIFICATION",
   if FraudCheck.passed fraudCheck then "PASSED" else "FAILED").

Definition creation_lines (fraudCheck : FraudCheck.t) : list (string * string) :=
  ("policy_created", "New policy created")
  :: (if FraudCheck.passed fraudCheck then []
      else [("fraud_alert", "Policy flagged for fraud review")]).

Definition with_flag (flag : bool) (env : Env) : Env :=
  {| randomFraudFlag := flag; rpc_error := rpc_error env;
     date_now := date_now env; uuid_generate_v4 := uuid_generate_v4 env |}.

(** A row without the two columns the fraud check fills in. *)
Definition without_fraud_check (row : Policy.t) : Policy.t :=
  {| Policy.id := Policy.id row;
     Policy.policy_number := Policy.policy_number row;
     Policy.customer_name := Policy.customer_name row;
     Policy.premium_amount := Policy.premium_amount row;
     Policy.product_type := Policy.product_type row;
     Policy.status := Policy.status row;
     Policy.fraud_check_passed := true;
     Policy.fraud_check_reason := "";
     Policy.creator_id := Policy.creator_id row |}.

(** ** Worlds and calls used as examples *)

Module Demo.

Definition ann := UserProfile.make "ann" "ann@example.org" "Ann" UserRole.creator.
Definition bob := UserProfile.make "bob" "bob@example.org" "Bob" UserRole.underwriter.
Definition eve := UserProfile.make "eve" "eve@example.org" "Eve" UserRole.manager.

(** A policy created by Ann. *)
Definition policy (id : uuid) (status : PolicyStatus.t) : Policy.t :=
  {| Policy.id := id;
     Policy.policy_number := "POL-" +:+ id;
     Policy.customer_name := "Jane Doe";
     Policy.premium_amount := 500;
     Policy.product_type := "Auto Insurance";
     Policy.status := status;
     Policy.fraud_check_passed := true;
     Policy.fraud_check_reason := "All fraud checks passed successfully";
     Policy.creator_id := "ann" |}.

(** Three users, one of each role, and one policy of Ann in each of the
    five states; nobody is signed in. *)
Definition world : World :=
  {| auth_uid := None;
     user_profiles := <["ann" := ann]> (<["bob" := bob]> (<["eve" := eve]> ∅));
     policies :=
       <["p-draft" := policy "p-draft" PolicyStatus.draft]>
       (<["p-uw" := policy "p-uw" PolicyStatus.pending_underwriter]>
       (<["p-mgr" := policy "p-mgr" PolicyStatus.pending_manager]>
       (<["p-ok" := policy "p-ok" PolicyStatus.approved]>
       (<["p-no" := policy "p-no" PolicyStatus.rejected]> ∅))));
     approval_logs := [];
     requests := [];
     console := [] |}.

Definition as_ann : World := signed_in (Some "ann") world.
Definition as_bob : World := signed_in (Some "bob") world.
Definition as_eve : World := signed_in (Some "eve") world.

Definition env (flag : bool) : Env :=
  {| randomFraudFlag := flag; rpc_error := None;
     date_now := 1767225600000; uuid_generate_v4 := "p-new" |}.

Definition jane : PolicyData.t :=
  {| PolicyData.customer_name := "Jane Doe";
     PolicyData.premium_amount := 500;
     PolicyData.product_type := "Auto Insurance";
     PolicyData.creator_id := "ann" |}.


End Demo.

(** ** Outcomes of the status-changing operations

    The ways [submitPolicy] and [processApproval] can end, with the world
    each leaves behind. *)

(** The status [processApproval] asks the database to store. *)
Inductive asked : Decision.t -> PolicyStatus.t -> string -> PolicyStatus.t -> Prop :=
| asked_rejection status role :
    asked Decision.rejected status role PolicyStatus.rejected
| asked_underwriter_approval :
    asked Decision.approved PolicyStatus.pending_underwriter "underwriter"
      PolicyStatus.pending_manager
| asked_manager_approval :
    asked Decision.approved PolicyStatus.pending_manager "manager"
      PolicyStatus.approved.

Definition with_status (s : PolicyStatus.t) (row : Policy.t) : Policy.t :=
  PolicyPatch.apply (PolicyPatch.only_status s) row.

Definition noted (lines : list (string * string)) (w : World) : World :=
  foldl (fun w line => logged line.1 line.2 w) w lines.

Section Outcomes.
Variables (policyId approverId : uuid) (action : Decision.t).
Variables (role comments : string) (w : World).

Let selected : World := sent (SelectPolicy policyId) w.

Let updated (s : PolicyStatus.t) : World :=
  sent (UpdatePolicy policyId (PolicyPatch.only_status s)) selected.

Let stored (s : PolicyStatus.t) (old : Policy.t) : World :=
  with_policies (<[policyId := with_status s old]> (policies w)) (updated s).

Definition entry (old : Policy.t) (s : PolicyStatus.t) : ApprovalLog.t :=
  {| ApprovalLog.policy_id := policyId;
     ApprovalLog.approver_id := approverId;
     ApprovalLog.action := Decision.action action;
     ApprovalLog.role := role;
     ApprovalLog.comments := comments;
     ApprovalLog.previous_status := Policy.status old;
     ApprovalLog.new_status := s |}.

Inductive approval_outcome : Outcome Policy.t -> World -> Prop :=
| approval_not_found :
    visible_policy w policyId = None ->
    approval_outcome (Thrown (JsError "Policy not found")) selected
| approval_invalid old :
    visible_policy w policyId = Some old ->
    action = Decision.approved ->
    (forall s, ~ asked action (Policy.status old) role s) ->
    approval_outcome (Thrown (JsError "Invalid approval workflow state")) selected
| approval_update_refused old s error :
    visible_policy w policyId = Some old ->
    asked action (Policy.status old) role s ->
    (update_policy (PolicyPatch.only_status s) policyId selected).1
    = Returned (Failure error) ->
    approval_outcome (Thrown (DbError error)) (updated s)
| approval_log_refused old s uid error :
    visible_policy w policyId = Some old ->
    asked action (Policy.status old) role s ->
    auth_uid w = Some uid ->
    Rls.update_using w uid old = true ->
    Rls.update_check w uid (with_status s old) = true ->
    (insert_approval_log (entry old s) (stored s old)).1
    = Returned (Failure error) ->
    approval_outcome (Thrown (DbError error))
      (sent (InsertApprovalLog (entry old s)) (stored s old))
| approval_done old s uid lines :
    visible_policy w policyId = Some old ->
    asked action (Policy.status old) role s ->
    auth_uid w = Some uid ->
    Rls.update_using w uid old = true ->
    Rls.update_check w uid (with_status s old) = true ->
    approverId = uid ->
    approval_outcome (Returned (with_status s old))
      (noted lines
         (with_approval_logs (approval_logs w ++ [entry old s])
            (sent (InsertApprovalLog (entry old s)) (stored s old)))).

End Outcomes.

(** A comment that is empty or made of white space only. *)
Definition blank (s : string) : Prop :=
  Forall (fun c => is_white_space c = true) (String.list_ascii_of_string s).

(** ** The dashboard and the policy form *)

Module Dashboard.

(** The state [statusFilter]: ['all'] or one status. *)
Inductive StatusFilter := all | only (status : PolicyStatus.t).

(** The rows shown, as the effect on [statusFilter] and [policies]
    computes them. *)
Definition filteredPolicies (statusFilter : StatusFilter)
    (policies : list Policy.t) : list Policy.t :=
  match statusFilter with
  | all => policies
  | only status => filter (fun p => Policy.status p = status) policies
  end.

Definition getPendingCount (profile : option UserProfile.t)
    (policies : list Policy.t) : nat :=
  match UserProfile.role <$> profile with
  | Some UserRole.underwriter =>
      length (filter (fun p => Policy.status p = PolicyStatus.pending_underwriter)
                policies)
  | Some UserRole.manager =>
      length (filter (fun p => Policy.status p = PolicyStatus.pending_manager)
                policies)
  | _ => 0
  end.

End Dashboard.

Module PolicyForm.

(** What the form shows when [handleSubmit] is done: the fraud warning,
    or the error. *)
Inductive Shown :=
| fraudWarning (passed : bool) (reason : string)
| error (message : string)
| error_database (error : PostgrestError).   (* the message of the database *)

(** [premiumAmount] is the number [parseFloat] read from the form. *)
Definition handleSubmit (env : Env) (profile : UserProfile.t)
    (customerName : string) (premiumAmount : Q) (productType : string)
  : World -> Shown * World :=
  fun w =>
    match createPolicy env
            {| PolicyData.customer_name := customerName;
               PolicyData.premium_amount := premiumAmount;
               PolicyData.product_type := productType;
               PolicyData.creator_id := UserProfile.id profile |} w with
    | (Returned policy, w') =>
        (if negb (Policy.fraud_check_passed policy) then
           fraudWarning false (Policy.fraud_check_reason policy)
         else fraudWarning true (Policy.fraud_check_reason policy), w')
    | (Thrown (JsError message), w') =>
        (error (if String.eqb message "" then "Failed to create policy"
                else message), w')
    | (Thrown (DbError e), w') => (error_database e, w')
    end.

End PolicyForm.

(** ** Reading a policy number back *)

(** The number a string of digits stands for. *)
Definition read_decimal (s : string) : option N :=
  N.of_uint <$> NilEmpty.uint_of_string s.

(** The rows of [policies] the session can see, counted. *)
Definition visible_count (w : World) : N :=
  N.of_nat (size (filter (fun kv => Rls.visible w kv.2 = true) (policies w))).

(** The columns of a policy no request of the service assigns. *)
Definition fixed_columns (row : Policy.t)
  : uuid * string * uuid * bool * string :=
  (Policy.id row, Policy.policy_number row, Policy.creator_id row,
   Policy.fraud_check_passed row, Policy.fraud_check_reason row).

(** * Properties *)

(** ** The fraud check *)

Lemma Qgtb_spec (x y : Q) : Qgtb x y = true <-> (y < x)%Q.
Proof.
  unfold Qgtb. rewrite negb_true_iff, <- not_true_iff_false, Qle_bool_iff.
  split; [apply Qnot_le_lt | apply Qlt_not_le].
Qed.

Lemma is_digit_spec (c : ascii) :
  is_digit c = true <-> (48 <= nat_of_ascii c <= 57)%nat.
Proof.
  unfold is_digit. rewrite andb_true_iff, !Nat.leb_le. reflexivity.
Qed.

Lemma all_digits_spec (s : string) :
  all_digits s = true
  <-> Forall (fun c => (48 <= nat_of_ascii c <= 57)%nat)
        (String.list_ascii_of_string s).
Proof.
  induction s as [| c s IH]; simpl.
  - split; [constructor | reflexivity].
  - rewrite andb_true_iff, is_digit_spec, IH, Forall_cons. reflexivity.
Qed.

Lemma name_test_spec (policy : PolicyData.t) :
  (String.length (PolicyData.customer_name policy) <? 3)%nat
  || digits_only (PolicyData.customer_name policy) = true
  <-> odd_name policy.
Proof.
  unfold odd_name, digits_only.
  rewrite orb_true_iff, andb_true_iff, Nat.ltb_lt, all_digits_spec.
  split; [intros [H | [_ H]]; auto |].
  intros [H | H]; [left; exact H |].
  destruct (PolicyData.customer_name policy) as [| c s] eqn:E.
  - left. simpl. lia.
  - right. split; [reflexivity | exact H].
Qed.

Lemma assess_risk_score (flag : bool) (policy : PolicyData.t) :
  (assess_risk flag policy).2 = risk_score_spec flag policy.
Proof.
  unfold assess_risk, risk_score_spec.
  pose proof (Qgtb_spec (PolicyData.premium_amount policy) 100000) as Hq.
  pose proof (name_test_spec policy) as Hn.
  destruct (Qgtb _ _); destruct (_ || _);
    destruct (decide (high_premium policy)) as [Hp | Hp];
    destruct (decide (odd_name policy)) as [Ho | Ho];
    destruct flag; simpl; try reflexivity;
    unfold high_premium in Hp; intuition congruence.
Qed.

Lemma performFraudCheck_passed (flag : bool) (policy : PolicyData.t) :
  FraudCheck.passed (performFraudCheck flag policy)
  = ((assess_risk flag policy).2 <? 50)%N.
Proof.
  unfold performFraudCheck. destruct (assess_risk flag policy). reflexivity.
Qed.

(** C6: the risk score of [performFraudCheck] is the sum of 50 for the
    random flag, 30 for a premium above 100000 and 40 for a name shorter
    than 3 characters or made of digits only, and the check passes exactly
    when that sum is below 50, that is, when the flag is not set and the
    two deterministic checks are not both triggered. *)
Theorem performFraudCheck_score_and_cutoff (flag : bool) (policy : PolicyData.t) :
  (assess_risk flag policy).2 = risk_score_spec flag policy
  /\ (FraudCheck.passed (performFraudCheck flag policy) = true
      <-> (risk_score_spec flag policy < 50)%N)
  /\ (FraudCheck.passed (performFraudCheck flag policy) = true
      <-> flag = false /\ ~ (high_premium policy /\ odd_name policy)).
Proof.
  rewrite performFraudCheck_passed, assess_risk_score, N.ltb_lt.
  split; [reflexivity | split; [reflexivity |]].
  unfold risk_score_spec.
  destruct flag; destruct (decide (high_premium policy));
    destruct (decide (odd_name policy)); simpl; split;
    try lia; try tauto; intros [? ?]; try discriminate; tauto.
Qed.

(** ** The service monad and the requests *)

Lemma bind_returned {A B} (m : Svc A) (k : A -> Svc B) w a w' :
  m w = (Returned a, w') -> bind m k w = k a w'.
Proof. unfold bind. intros ->. reflexivity. Qed.

Lemma bind_thrown {A B} (m : Svc A) (k : A -> Svc B) w e w' :
  m w = (Thrown e, w') -> bind m k w = (Thrown e, w').
Proof. unfold bind. intros ->. reflexivity. Qed.

Lemma bind_ret {A B} (a : A) (k : A -> Svc B) w : bind (ret a) k w = k a w.
Proof. reflexivity. Qed.

Lemma bind_throw {A B} (e : Error) (k : A -> Svc B) w :
  bind (throw e) k w = (Thrown e, w).
Proof. reflexivity. Qed.

Lemma update_policy_under_spec with_check payload id w :
  (exists e, update_policy_under with_check payload id w
             = (Returned (Failure e), sent (UpdatePolicy id payload) w))
  \/ (exists uid old stored,
        auth_uid w = Some uid /\ policies w !! id = Some old
        /\ PolicyPatch.is_empty payload = false
        /\ patch_as_stored payload = Some stored
        /\ Rls.update_using w uid old = true
        /\ with_check w uid (PolicyPatch.apply stored old) = true
        /\ premium_amount_check (PolicyPatch.apply stored old) = true
        /\ update_policy_under with_check payload id w
           = (Returned (Data (PolicyPatch.apply stored old)),
              with_policies (<[id := PolicyPatch.apply stored old]> (policies w))
                (sent (UpdatePolicy id payload) w))).
Proof.
  unfold update_policy_under.
  destruct (auth_uid w) as [uid |]; [| left; eauto].
  destruct (policies w !! id) as [old |]; [| left; eauto].
  destruct (negb (PolicyPatch.is_empty payload) && Rls.view_using w uid old
            && Rls.update_using w uid old) eqn:Hu; [| left; eauto].
  destruct (patch_as_stored payload) as [stored |] eqn:Hs; [| left; eauto].
  destruct (with_check w uid _ && Rls.view_using w uid _) eqn:Hc;
    [| left; eauto].
  destruct (premium_amount_check _) eqn:Hp; [| left; eauto].
  right. exists uid, old, stored. simpl.
  apply andb_true_iff in Hu as [Hu Hus]. apply andb_true_iff in Hu as [He _].
  apply negb_true_iff in He. apply andb_true_iff in Hc as [Hc _].
  auto 10.
Qed.

Lemma update_policy_spec payload id w :
  (exists e, update_policy payload id w
             = (Returned (Failure e), sent (UpdatePolicy id payload) w))
  \/ (exists uid old stored,
        auth_uid w = Some uid /\ policies w !! id = Some old
        /\ PolicyPatch.is_empty payload = false
        /\ patch_as_stored payload = Some stored
        /\ Rls.update_using w uid old = true
        /\ Rls.update_check w uid (PolicyPatch.apply stored old) = true
        /\ premium_amount_check (PolicyPatch.apply stored old) = true
        /\ update_policy payload id w
           = (Returned (Data (PolicyPatch.apply stored old)),
              with_policies (<[id := PolicyPatch.apply stored old]> (policies w))
                (sent (UpdatePolicy id payload) w))).
Proof. apply update_policy_under_spec. Qed.

(** The update of the status alone. *)
Lemma update_status_under_spec with_check s id w :
  let payload := PolicyPatch.only_status s in
  (exists e, update_policy_under with_check payload id w
             = (Returned (Failure e), sent (UpdatePolicy id payload) w))
  \/ (exists uid old,
        auth_uid w = Some uid /\ policies w !! id = Some old
        /\ Rls.update_using w uid old = true
        /\ with_check w uid (PolicyPatch.apply payload old) = true
        /\ premium_amount_check (PolicyPatch.apply payload old) = true
        /\ update_policy_under with_check payload id w
           = (Returned (Data (PolicyPatch.apply payload old)),
              with_policies (<[id := PolicyPatch.apply payload old]> (policies w))
                (sent (UpdatePolicy id payload) w))).
Proof.
  intros payload.
  destruct (update_policy_under_spec with_check payload id w)
    as [H | (uid & old & stored & Hu & Hl & _ & Hs & Hus & Hck & Hpr & H)];
    [left; exact H | right].
  injection Hs as <-. exists uid, old. auto 10.
Qed.

Lemma update_status_spec s id w :
  let payload := PolicyPatch.only_status s in
  (exists e, update_policy payload id w
             = (Returned (Failure e), sent (UpdatePolicy id payload) w))
  \/ (exists uid old,
        auth_uid w = Some uid /\ policies w !! id = Some old
        /\ Rls.update_using w uid old = true
        /\ Rls.update_check w uid (PolicyPatch.apply payload old) = true
        /\ premium_amount_check (PolicyPatch.apply payload old) = true
        /\ update_policy payload id w
           = (Returned (Data (PolicyPatch.apply payload old)),
              with_policies (<[id := PolicyPatch.apply payload old]> (policies w))
                (sent (UpdatePolicy id payload) w))).
Proof. apply update_status_under_spec. Qed.

Lemma insert_approval_log_spec payload w :
  (exists e, insert_approval_log payload w
             = (Returned (Failure e), sent (InsertApprovalLog payload) w))
  \/ (auth_uid w = Some (ApprovalLog.approver_id payload)
      /\ insert_approval_log payload w
         = (Returned (Data tt),
            with_approval_logs (approval_logs w ++ [payload])
              (sent (InsertApprovalLog payload) w))).
Proof.
  unfold insert_approval_log.
  destruct (auth_uid w) as [uid |]; [| left; eauto].
  destruct (Rls.log_check w uid payload) eqn:Hl; [| left; eauto].
  destruct (_ && _); [| left; eauto].
  right. simpl. split; [| reflexivity].
  unfold Rls.log_check in Hl. apply bool_decide_eq_true in Hl. congruence.
Qed.

Lemma getPolicy_eq policyId w :
  getPolicy policyId w
  = (Returned (visible_policy w policyId), sent (SelectPolicy policyId) w).
Proof. reflexivity. Qed.

Lemma visible_policy_lookup w id row :
  visible_policy w id = Some row -> policies w !! id = Some row.
Proof.
  unfold visible_policy. destruct (policies w !! id); [| discriminate].
  destruct (Rls.visible w t); congruence.
Qed.

Lemma logApproval_spec policyId approverId action role comments prev new w :
  let payload :=
    ApprovalLog.make policyId approverId action role comments prev new in
  (exists e,
      insert_approval_log payload w
      = (Returned (Failure e), sent (InsertApprovalLog payload) w)
      /\ logApproval policyId approverId action role comments prev new w
         = (Thrown (DbError e), sent (InsertApprovalLog payload) w))
  \/ (auth_uid w = Some approverId
      /\ logApproval policyId approverId action role comments prev new w
         = (Returned tt,
            with_approval_logs (approval_logs w ++ [payload])
              (sent (InsertApprovalLog payload) w))).
Proof.
  intros payload. unfold logApproval. fold payload.
  destruct (insert_approval_log_spec payload w) as [[e H] | [Hu H]].
  - left. exists e. split; [exact H |].
    rewrite (bind_returned _ _ _ _ _ H). reflexivity.
  - right. split; [exact Hu |]. rewrite (bind_returned _ _ _ _ _ H). reflexivity.
Qed.

Lemma asked_cases action status role s :
  asked action status role s ->
  (action = Decision.rejected /\ s = PolicyStatus.rejected)
  \/ (action = Decision.approved /\ s = PolicyStatus.pending_manager)
  \/ (action = Decision.approved /\ s = PolicyStatus.approved).
Proof. destruct 1; auto. Qed.

Lemma processApproval_spec policyId approverId action role comments w :
  approval_outcome policyId approverId action role comments w
    (processApproval policyId approverId action role comments w).1
    (processApproval policyId approverId action role comments w).2.
Proof.
  unfold processApproval.
  rewrite (bind_returned _ _ _ _ _ (getPolicy_eq policyId w)).
  destruct (visible_policy w policyId) as [old |] eqn:Hv;
    [| apply approval_not_found; exact Hv].
  pose proof (visible_policy_lookup _ _ _ Hv) as Hl.
  match goal with |- context [bind ?m ?k] => set (decision := m); set (rest := k) end.
  assert (Hrest : forall s, asked action (Policy.status old) role s ->
            approval_outcome policyId approverId action role comments w
              (rest s (sent (SelectPolicy policyId) w)).1
              (rest s (sent (SelectPolicy policyId) w)).2).
  { intros s Hs. unfold rest.
    destruct (update_status_spec s policyId
                (sent (SelectPolicy policyId) w))
      as [[e H] | (uid & old' & Hu & Hl' & Hus & Hck & _ & H)];
      rewrite (bind_returned _ _ _ _ _ H); cbv beta; unfold unwrap.
    { rewrite bind_throw. eapply approval_update_refused; [eassumption .. |].
      rewrite H. reflexivity. }
    rewrite bind_ret.
    simpl in Hu, Hl'. rewrite Hl in Hl'. injection Hl' as <-.
    match goal with |- context [bind (logApproval ?x1 ?x2 ?x3 ?x4 ?x5 ?x6 ?x7) _ ?W] =>
      destruct (logApproval_spec x1 x2 x3 x4 x5 x6 x7 W)
        as [(e & Hi & H') | [Ha H']]
    end.
    { rewrite (bind_thrown _ _ _ _ _ H'). simpl.
      eapply approval_log_refused; [eassumption .. |].
      exact (f_equal fst Hi). }
    rewrite (bind_returned _ _ _ _ _ H').
    simpl in Ha. rewrite Hu in Ha. injection Ha as <-.
    destruct (asked_cases _ _ _ _ Hs) as [[Ea Es] | [[Ea Es] | [Ea Es]]];
      rewrite Ea, Es in *; simpl.
    - eapply approval_done
        with (lines := [("policy_rejected", "Policy rejected")]); eauto.
    - eapply approval_done
        with (lines := [("policy_approved", "Underwriter approved policy");
                        ("approval_required", "Manager action required")]);
        eauto.
    - eapply approval_done
        with (lines := [("policy_approved", "Policy fully approved")]); eauto. }
  unfold decision. destruct action.
  - destruct (bool_decide (Policy.status old = PolicyStatus.pending_underwriter)
              && String.eqb role "underwriter") eqn:H1.
    { apply andb_true_iff in H1 as [H1 H2].
      apply bool_decide_eq_true in H1. apply String.eqb_eq in H2. subst role.
      apply Hrest. rewrite H1. constructor. }
    destruct (bool_decide (Policy.status old = PolicyStatus.pending_manager)
              && String.eqb role "manager") eqn:H2.
    { apply andb_true_iff in H2 as [H2 H3].
      apply bool_decide_eq_true in H2. apply String.eqb_eq in H3. subst role.
      apply Hrest. rewrite H2. constructor. }
    simpl. eapply approval_invalid; [exact Hv | reflexivity |].
    intros s Hs. inversion Hs; subst;
      match goal with E : _ = Policy.status old |- _ => rewrite <- E in * end;
      discriminate.
  - apply Hrest. constructor.
Qed.

Lemma update_check_pending_underwriter w uid row :
  Policy.status row = PolicyStatus.pending_underwriter ->
  Rls.update_check w uid row = false.
Proof.
  intros H. unfold Rls.update_check, Rls.creator_check, Rls.underwriter_check,
    Rls.manager_check. rewrite H. simpl. rewrite andb_false_r. reflexivity.
Qed.

Lemma submitPolicy_spec policyId creatorId w :
  (visible_policy w policyId = None
   /\ submitPolicy policyId creatorId w
      = (Thrown (JsError "Policy not found"), sent (SelectPolicy policyId) w))
  \/ (exists old error,
        visible_policy w policyId = Some old
        /\ submitPolicy policyId creatorId w
           = (Thrown (DbError error),
              sent (UpdatePolicy policyId
                      (PolicyPatch.only_status PolicyStatus.pending_underwriter))
                (sent (SelectPolicy policyId) w))).
Proof.
  unfold submitPolicy, submitPolicy_under.
  rewrite (bind_returned _ _ _ _ _ (getPolicy_eq policyId w)).
  destruct (visible_policy w policyId) as [old |] eqn:Hv; [right | left; auto].
  destruct (update_status_under_spec Rls.update_check
              PolicyStatus.pending_underwriter
              policyId (sent (SelectPolicy policyId) w))
    as [[e H] | (uid & old' & _ & _ & _ & Hck & _)].
  - exists old, e. split; [reflexivity |].
    rewrite (bind_returned _ _ _ _ _ H). reflexivity.
  - rewrite update_check_pending_underwriter in Hck by reflexivity.
    discriminate.
Qed.

(** C10: when the policy does not exist, [submitPolicy] and
    [processApproval] throw "Policy not found", and when [processApproval]
    throws "Invalid approval workflow state", nothing but the read of the
    policy has been sent: no update and no audit insert; the policies and
    the audit log are as before. *)
Theorem early_errors_precede_every_write c policyId w :
  status_call c = Some policyId ->
  policies w !! policyId = None
  \/ (run c w).1 = Thrown (JsError "Invalid approval workflow state") ->
  (policies w !! policyId = None ->
   (run c w).1 = Thrown (JsError "Policy not found"))
  /\ requests (run c w).2 = (requests w ++ [SelectPolicy policyId])%list
  /\ policies (run c w).2 = policies w
  /\ approval_logs (run c w).2 = approval_logs w.
Proof.
  intros Hc Hcase.
  assert (Hnone : policies w !! policyId = None ->
                  visible_policy w policyId = None).
  { unfold visible_policy. intros ->. reflexivity. }
  destruct c; simpl in Hc; try discriminate Hc; injection Hc as ->;
    unfold run, forget in *.
  - destruct (submitPolicy_spec policyId creatorId w)
      as [[Hv H] | (old & e & Hv & H)];
      rewrite (bind_thrown _ _ _ _ _ H) in *; simpl in *; [auto |].
    destruct Hcase as [Hn | Hn]; [| discriminate Hn].
    rewrite (Hnone Hn) in Hv. discriminate Hv.
  - pose proof (processApproval_spec policyId approverId action role comments w)
      as Hspec.
    unfold bind in *.
    destruct (processApproval policyId approverId action role comments w)
      as [out w'].
    simpl in Hspec.
    destruct Hspec; simpl in *; repeat split; auto;
      try (intros Hn; rewrite (Hnone Hn) in *; congruence);
      (destruct Hcase as [Hn | Hn]; [| discriminate Hn]);
      rewrite (Hnone Hn) in *; congruence.
Qed.

(** ** Frames *)

Lemma noted_frame lines w :
  auth_uid (noted lines w) = auth_uid w
  /\ user_profiles (noted lines w) = user_profiles w
  /\ policies (noted lines w) = policies w
  /\ approval_logs (noted lines w) = approval_logs w
  /\ requests (noted lines w) = requests w.
Proof.
  revert w. induction lines as [| line lines IH]; intros w; [auto |].
  unfold noted in *. simpl. destruct (IH (logged line.1 line.2 w)) as (-> & -> & -> & -> & ->).
  auto.
Qed.

Lemma policies_noted lines w : policies (noted lines w) = policies w.
Proof. apply noted_frame. Qed.

Lemma approval_logs_noted lines w :
  approval_logs (noted lines w) = approval_logs w.
Proof. apply noted_frame. Qed.


Lemma has_role_unique w uid r r' :
  Rls.has_role w uid r = true -> r' <> r -> Rls.has_role w uid r' = false.
Proof.
  unfold Rls.has_role. intros H Hne. apply bool_decide_eq_true in H.
  apply bool_decide_eq_false. rewrite H. congruence.
Qed.

Lemma update_using_creator w uid row :
  Rls.has_role w uid UserRole.creator = true ->
  Policy.status row <> PolicyStatus.draft ->
  Rls.update_using w uid row = false.
Proof.
  intros Hr Hs.
  unfold Rls.update_using, Rls.creator_using, Rls.underwriter_using,
    Rls.manager_using.
  rewrite (has_role_unique _ _ _ UserRole.underwriter Hr) by discriminate.
  rewrite (has_role_unique _ _ _ UserRole.manager Hr) by discriminate.
  rewrite (bool_decide_eq_false_2 _ Hs), !andb_false_r. reflexivity.
Qed.


(** ** Requests the database accepts *)

Lemma update_policy_under_stored with_check payload stored id w uid old :
  auth_uid w = Some uid ->
  policies w !! id = Some old ->
  Rls.has_profile w uid = true ->
  PolicyPatch.is_empty payload = false ->
  patch_as_stored payload = Some stored ->
  Rls.update_using w uid old = true ->
  with_check w uid (PolicyPatch.apply stored old) = true ->
  premium_amount_check (PolicyPatch.apply stored old) = true ->
  update_policy_under with_check payload id w
  = (Returned (Data (PolicyPatch.apply stored old)),
     with_policies (<[id := PolicyPatch.apply stored old]> (policies w))
       (sent (UpdatePolicy id payload) w)).
Proof.
  intros Hu Hl Hp He Hs Hus Hck Hpr. unfold update_policy_under, Rls.view_using.
  rewrite Hu, Hl, Hp, He, Hs, Hus, Hck, Hpr. reflexivity.
Qed.

Lemma update_policy_stored payload stored id w uid old :
  auth_uid w = Some uid ->
  policies w !! id = Some old ->
  Rls.has_profile w uid = true ->
  PolicyPatch.is_empty payload = false ->
  patch_as_stored payload = Some stored ->
  Rls.update_using w uid old = true ->
  Rls.update_check w uid (PolicyPatch.apply stored old) = true ->
  premium_amount_check (PolicyPatch.apply stored old) = true ->
  update_policy payload id w
  = (Returned (Data (PolicyPatch.apply stored old)),
     with_policies (<[id := PolicyPatch.apply stored old]> (policies w))
       (sent (UpdatePolicy id payload) w)).
Proof. apply update_policy_under_stored. Qed.

Lemma update_status_stored s id w uid old :
  auth_uid w = Some uid ->
  policies w !! id = Some old ->
  Rls.has_profile w uid = true ->
  Rls.update_using w uid old = true ->
  Rls.update_check w uid (PolicyPatch.apply (PolicyPatch.only_status s) old)
  = true ->
  premium_amount_check (PolicyPatch.apply (PolicyPatch.only_status s) old)
  = true ->
  update_policy (PolicyPatch.only_status s) id w
  = (Returned (Data (PolicyPatch.apply (PolicyPatch.only_status s) old)),
     with_policies
       (<[id := PolicyPatch.apply (PolicyPatch.only_status s) old]> (policies w))
       (sent (UpdatePolicy id (PolicyPatch.only_status s)) w)).
Proof.
  intros Hu Hl Hp Hus Hck Hpr.
  apply (update_policy_stored _ (PolicyPatch.only_status s) _ _ uid);
    auto.
Qed.

Lemma insert_approval_log_stored payload w :
  auth_uid w = Some (ApprovalLog.approver_id payload) ->
  is_Some (policies w !! ApprovalLog.policy_id payload) ->
  Rls.has_profile w (ApprovalLog.approver_id payload) = true ->
  insert_approval_log payload w
  = (Returned (Data tt),
     with_approval_logs (approval_logs w ++ [payload])
       (sent (InsertApprovalLog payload) w)).
Proof.
  intros Hu Hl Hp. unfold insert_approval_log, Rls.log_check.
  rewrite Hu, Hp. rewrite !bool_decide_eq_true_2 by done. reflexivity.
Qed.

Lemma visible_policy_with_profile w uid id :
  auth_uid w = Some uid -> Rls.has_profile w uid = true ->
  visible_policy w id = policies w !! id.
Proof.
  intros Hu Hp. unfold visible_policy, Rls.visible, Rls.view_using.
  rewrite Hu, Hp. destruct (policies w !! id); reflexivity.
Qed.

Lemma has_role_has_profile w uid r :
  Rls.has_role w uid r = true -> Rls.has_profile w uid = true.
Proof.
  unfold Rls.has_role, Rls.has_profile. intros H.
  apply bool_decide_eq_true in H. apply bool_decide_eq_true.
  destruct (user_profiles w !! uid); [eauto | discriminate].
Qed.

Lemma asked_functional action status role s s' :
  asked action status role s -> asked action status role s' -> s = s'.
Proof. intros H H'. destruct H; inversion H'; reflexivity. Qed.

(** The four rows of the transition table that go through
    [processApproval] do what the table says, for an approver who acts in
    a session of their own. *)
Lemma processApproval_listed_rows w uid r policyId policy action next comments :
  auth_uid w = Some uid ->
  Rls.has_role w uid r = true ->
  policies w !! policyId = Some policy ->
  premium_amount_check policy = true ->
  transition_table (Policy.status policy) (UserRole.literal r)
    (Decision.action action) = Some next ->
  (processApproval policyId uid action (UserRole.literal r) comments w).1
  = Returned (with_status next policy)
  /\ status_of
       (processApproval policyId uid action (UserRole.literal r) comments w).2
       policyId = Some next.
Proof.
  intros Hu Hr Hl Hpr Ht.
  pose proof (has_role_has_profile _ _ _ Hr) as Hp.
  assert (Hs : asked action (Policy.status policy) (UserRole.literal r) next).
  { destruct (Policy.status policy), action, r; simpl in Ht;
      try discriminate Ht; injection Ht as <-; constructor. }
  assert (Hus : Rls.update_using w uid policy = true).
  { unfold Rls.update_using, Rls.underwriter_using, Rls.manager_using.
    destruct (Policy.status policy), action, r; simpl in Ht;
      try discriminate Ht; rewrite Hr; simpl; rewrite ?orb_true_r; reflexivity. }
  assert (Hck : Rls.update_check w uid (with_status next policy) = true).
  { unfold Rls.update_check, Rls.underwriter_check, Rls.manager_check.
    destruct Hs; simpl; rewrite ?orb_true_r; reflexivity. }
  pose proof (processApproval_spec policyId uid action (UserRole.literal r)
                comments w) as Hspec.
  destruct (processApproval policyId uid action (UserRole.literal r) comments w)
    as [out w'].
  simpl in *.
  pose proof (visible_policy_with_profile _ _ policyId Hu Hp) as Hvis.
  rewrite Hl in Hvis.
  destruct Hspec
    as [Hv | old Hv _ Hno | old s e Hv Hs' Hup
        | old s uid' e Hv Hs' _ _ _ Hin | old s uid' lines Hv Hs' _ _ _ _];
    rewrite Hvis in Hv; try discriminate Hv; injection Hv as <-;
    try (pose proof (asked_functional _ _ _ _ _ Hs Hs') as <-).
  - destruct (Hno _ Hs).
  - rewrite (update_status_stored _ _ _ uid policy) in Hup; auto.
    discriminate Hup.
  - rewrite insert_approval_log_stored in Hin; auto.
    + discriminate Hin.
    + simpl. rewrite lookup_insert_eq. eauto.
  - split; [reflexivity |].
    unfold status_of. rewrite policies_noted. simpl.
    rewrite lookup_insert_eq. reflexivity.
Qed.

(** ** What a call leaves in place *)

Lemma insert_policy_spec env payload w :
  (exists e, insert_policy env payload w
             = (Returned (Failure e), sent (InsertPolicy payload) w))
  \/ (exists stored,
        insert_as_stored payload = Some stored
        /\ auth_uid w = Some (PolicyInsert.creator_id payload)
        /\ Rls.has_role w (PolicyInsert.creator_id payload) UserRole.creator
           = true
        /\ (0 < PolicyInsert.premium_amount stored)%Q
        /\ policies w !! uuid_generate_v4 env = None
        /\ policy_number_free w (PolicyInsert.policy_number payload) = true
        /\ insert_policy env payload w
           = (Returned (Data (PolicyInsert.row (uuid_generate_v4 env) stored)),
              with_policies
                (<[uuid_generate_v4 env
                   := PolicyInsert.row (uuid_generate_v4 env) stored]>
                   (policies w))
                (sent (InsertPolicy payload) w))).
Proof.
  unfold insert_policy, insert_as_stored, Rls.create_check,
    premium_amount_check.
  destruct (numeric_10_2 (PolicyInsert.premium_amount payload))
    as [premium |]; [| left; eauto].
  destruct (auth_uid w) as [uid |]; [| left; eauto]. simpl.
  destruct (bool_decide (PolicyInsert.creator_id payload = uid)) eqn:E1;
    [| left; eauto]. simpl.
  destruct (Rls.has_role w uid UserRole.creator) eqn:E2; [| left; eauto]. simpl.
  destruct (Rls.view_using w uid _); [| left; eauto]. simpl.
  destruct (Qgtb premium 0) eqn:E3; [| left; eauto]. simpl.
  destruct (bool_decide (policies w !! uuid_generate_v4 env = None)) eqn:E4;
    [| left; eauto]. simpl.
  destruct (policy_number_free w _) eqn:E5; [| left; eauto]. simpl.
  destruct (Rls.has_profile w _); [| left; eauto]. simpl.
  right. eexists. split; [reflexivity |].
  apply bool_decide_eq_true in E1, E4. apply Qgtb_spec in E3. subst uid.
  simpl. auto 10.
Qed.

(** The conditions under which the database stores the new row. *)
Lemma insert_policy_stored env payload stored w :
  insert_as_stored payload = Some stored ->
  auth_uid w = Some (PolicyInsert.creator_id payload) ->
  Rls.has_role w (PolicyInsert.creator_id payload) UserRole.creator = true ->
  (0 < PolicyInsert.premium_amount stored)%Q ->
  policies w !! uuid_generate_v4 env = None ->
  policy_number_free w (PolicyInsert.policy_number payload) = true ->
  insert_policy env payload w
  = (Returned (Data (PolicyInsert.row (uuid_generate_v4 env) stored)),
     with_policies
       (<[uuid_generate_v4 env := PolicyInsert.row (uuid_generate_v4 env) stored]>
          (policies w))
       (sent (InsertPolicy payload) w)).
Proof.
  intros Hs Hu Hr Hq Hk Hn.
  pose proof (has_role_has_profile _ _ _ Hr) as Hp.
  apply Qgtb_spec in Hq.
  assert (Hc : PolicyInsert.creator_id stored = PolicyInsert.creator_id payload
               /\ PolicyInsert.policy_number stored
                  = PolicyInsert.policy_number payload).
  { unfold insert_as_stored in Hs.
    destruct (numeric_10_2 _); [| discriminate Hs]. injection Hs as <-. auto. }
  destruct Hc as [Hc Hpn].
  unfold insert_policy, Rls.create_check, Rls.view_using, premium_amount_check.
  rewrite Hs, Hu. simpl. rewrite Hc, Hpn, Hr, Hp, Hq, Hn.
  rewrite !bool_decide_eq_true_2 by done. reflexivity.
Qed.

(** The answer of the database depends on the tables and the session
    only. *)
Lemma insert_policy_frame env payload w w' :
  auth_uid w' = auth_uid w ->
  user_profiles w' = user_profiles w ->
  policies w' = policies w ->
  (insert_policy env payload w').1 = (insert_policy env payload w).1.
Proof.
  intros Ha Hu Hp.
  unfold insert_policy, Rls.create_check, Rls.view_using, Rls.has_role,
    Rls.has_profile, policy_number_free.
  rewrite Ha, Hu, Hp.
  destruct (insert_as_stored payload); [| reflexivity].
  destruct (auth_uid w); [| reflexivity].
  repeat match goal with
         | |- context [if negb ?b then _ else _] => destruct b; simpl
         end; reflexivity.
Qed.

Lemma generatePolicyNumber_spec env w :
  exists number,
    generatePolicyNumber env w
    = (Returned number, sent RpcGeneratePolicyNumber w).
Proof.
  unfold generatePolicyNumber, rpc_generate_policy_number, bind.
  destruct (rpc_error env); [eexists; reflexivity |].
  destruct (String.eqb _ _); eexists; reflexivity.
Qed.

Lemma evolves_refl w : evolves w w.
Proof.
  split; [reflexivity | split].
  - exists []. symmetry. apply app_nil_r.
  - intros id s H. exists s. split; [exact H | left; reflexivity].
Qed.

(** Worlds that agree on the three tables evolve alike. *)
Lemma evolves_tables w w1 w2 :
  user_profiles w2 = user_profiles w1 ->
  policies w2 = policies w1 ->
  approval_logs w2 = approval_logs w1 ->
  evolves w w1 -> evolves w w2.
Proof.
  unfold evolves, status_of. intros -> -> ->. auto.
Qed.

Lemma evolves_insert w key new :
  policies w !! key = None ->
  evolves w (with_policies (<[key := new]> (policies w)) w).
Proof.
  intros Hk. split; [reflexivity | split].
  - exists []. symmetry. apply app_nil_r.
  - intros id s H. exists s. split; [| left; reflexivity].
    unfold status_of in *. simpl.
    destruct (decide (key = id)) as [-> | Hne].
    + rewrite Hk in H. discriminate H.
    + rewrite lookup_insert_ne by exact Hne. exact H.
Qed.

Lemma evolves_update w id old new :
  policies w !! id = Some old ->
  moves (Policy.status old) (Policy.status new) ->
  evolves w (with_policies (<[id := new]> (policies w)) w).
Proof.
  intros Hl Hm. split; [reflexivity | split].
  - exists []. symmetry. apply app_nil_r.
  - intros id' s H. unfold status_of in *. simpl.
    destruct (decide (id = id')) as [<- | Hne].
    + rewrite lookup_insert_eq. rewrite Hl in H. injection H as <-. eauto.
    + rewrite lookup_insert_ne by exact Hne. exists s. split; [exact H | left; reflexivity].
Qed.

Lemma evolves_log w w' row :
  evolves w w' ->
  evolves w (with_approval_logs (approval_logs w' ++ [row]) w').
Proof.
  intros (Hp & [added Hl] & Hs). split; [exact Hp | split; [| exact Hs]].
  exists (added ++ [row]). simpl. rewrite Hl. symmetry. apply app_assoc.
Qed.

Lemma user_profiles_noted lines w :
  user_profiles (noted lines w) = user_profiles w.
Proof. apply noted_frame. Qed.

Lemma update_using_status w uid row :
  Rls.update_using w uid row = true ->
  Policy.status row = PolicyStatus.draft
  \/ Policy.status row = PolicyStatus.pending_underwriter
  \/ Policy.status row = PolicyStatus.pending_manager.
Proof.
  unfold Rls.update_using, Rls.creator_using, Rls.underwriter_using,
    Rls.manager_using.
  destruct (Policy.status row); simpl; auto;
    rewrite ?andb_false_r; simpl; discriminate.
Qed.

Lemma asked_moves w uid old action role s :
  asked action (Policy.status old) role s ->
  Rls.update_using w uid old = true ->
  moves (Policy.status old) s.
Proof.
  intros Hs Hu. apply update_using_status in Hu. unfold moves.
  inversion Hs; subst.
  - destruct Hu as [-> | [-> | ->]]; [auto | right; left; constructor ..].
  - right; left. constructor.
  - right; left. constructor.
Qed.

(** A world that differs from [w] in its requests and console only. *)
Ltac same_tables := eapply evolves_tables, evolves_refl; reflexivity.

Lemma generatePolicyNumber_frame env w w' :
  auth_uid w' = auth_uid w ->
  user_profiles w' = user_profiles w ->
  policies w' = policies w ->
  (generatePolicyNumber env w').1 = (generatePolicyNumber env w).1.
Proof.
  intros Ha Hu Hp.
  unfold generatePolicyNumber, rpc_generate_policy_number, bind,
    generate_policy_number, Rls.visible, Rls.view_using, Rls.has_profile.
  rewrite Ha, Hu, Hp.
  destruct (rpc_error env); [reflexivity |].
  destruct (String.eqb _ _); reflexivity.
Qed.

(** [createPolicy], step by step: the line of the fraud check, the policy
    number, the insert and, when the row is stored, the notifications. *)
Lemma createPolicy_eq env policyData w :
  let fraudCheck := performFraudCheck (randomFraudFlag env) policyData in
  let w0 :=
    sent RpcGeneratePolicyNumber
      (logged (fraud_check_line fraudCheck).1 (fraud_check_line fraudCheck).2 w) in
  exists number,
    (generatePolicyNumber env w).1 = Returned number
    /\ let payload := inserted policyData fraudCheck number in
       (exists e,
           (insert_policy env payload w).1 = Returned (Failure e)
           /\ createPolicy env policyData w
              = (Thrown (DbError e), sent (InsertPolicy payload) w0))
       \/ (exists stored,
             let row := PolicyInsert.row (uuid_generate_v4 env) stored in
             insert_as_stored payload = Some stored
             /\ auth_uid w = Some (PolicyData.creator_id policyData)
             /\ Rls.has_role w (PolicyData.creator_id policyData)
                  UserRole.creator = true
             /\ (0 < PolicyInsert.premium_amount stored)%Q
             /\ policies w !! uuid_generate_v4 env = None
             /\ policy_number_free w number = true
             /\ (insert_policy env payload w).1 = Returned (Data row)
             /\ createPolicy env policyData w
                = (Returned row,
                   noted (creation_lines fraudCheck)
                     (with_policies (<[uuid_generate_v4 env := row]> (policies w))
                        (sent (InsertPolicy payload) w0)))).
Proof.
  intros fraudCheck w0.
  set (wl := logged (fraud_check_line fraudCheck).1
               (fraud_check_line fraudCheck).2 w).
  destruct (generatePolicyNumber_spec env wl) as [number Hn].
  exists number. split.
  { rewrite <- (generatePolicyNumber_frame env w wl) by reflexivity.
    rewrite Hn. reflexivity. }
  intros payload.
  change (createPolicy env policyData w) with
    ((await policyNumber <- generatePolicyNumber env in
      await r <- insert_policy env
        (inserted policyData fraudCheck policyNumber) in
      await data <- unwrap r in
      await _ <- notify "policy_created" "New policy created" in
      await _ <- (if negb (FraudCheck.passed fraudCheck)
                  then notify "fraud_alert" "Policy flagged for fraud review"
                  else ret tt) in
      ret data) wl).
  rewrite (bind_returned _ _ _ _ _ Hn). fold payload. fold w0.
  pose proof (insert_policy_frame env payload w w0 eq_refl eq_refl eq_refl)
    as Hf.
  destruct (insert_policy_spec env payload w0)
    as [[e H] | (stored & Hs & Hu & Hr & Hq & Hk & Hfree & H)];
    rewrite (bind_returned _ _ _ _ _ H); cbv beta; unfold unwrap.
  - left. exists e. rewrite bind_throw. rewrite <- Hf, H. auto.
  - right. exists stored. rewrite bind_ret. rewrite <- Hf, H.
    repeat (split; [assumption || reflexivity |]).
    unfold notify, bind, creation_lines, noted.
    destruct (FraudCheck.passed fraudCheck); reflexivity.
Qed.

Lemma createPolicy_evolves env policyData w :
  evolves w (createPolicy env policyData w).2.
Proof.
  destruct (createPolicy_eq env policyData w)
    as (number & _ & [(e & _ & H)
                     | (stored & _ & _ & _ & _ & Hk & _ & _ & H)]);
    rewrite H; simpl.
  - same_tables.
  - eapply evolves_tables, (evolves_insert w _ _ Hk);
      [rewrite user_profiles_noted | rewrite policies_noted
       | rewrite approval_logs_noted]; reflexivity.
Qed.

(** The columns a payload keeps when its premium is rounded. *)
Lemma patch_as_stored_columns payload stored :
  patch_as_stored payload = Some stored ->
  PolicyPatch.customer_name stored = PolicyPatch.customer_name payload
  /\ PolicyPatch.product_type stored = PolicyPatch.product_type payload
  /\ PolicyPatch.status stored = PolicyPatch.status payload
  /\ PolicyPatch.premium_amount stored
     = match PolicyPatch.premium_amount payload with
       | Some premium_amount => numeric_10_2 premium_amount
       | None => None
       end.
Proof.
  unfold patch_as_stored.
  destruct (PolicyPatch.premium_amount payload) as [x |] eqn:E.
  - destruct (numeric_10_2 x); [| discriminate]. intros [= <-]. auto.
  - intros [= <-]. auto.
Qed.

Lemma updatePolicy_evolves policyId updates w :
  evolves w (updatePolicy policyId updates w).2.
Proof.
  unfold updatePolicy.
  destruct (update_policy_spec (PolicyUpdates.patch updates) policyId w)
    as [[e H] | (uid & old & stored & _ & Hl & _ & Hs & _ & _ & _ & H)];
    rewrite (bind_returned _ _ _ _ _ H); cbv beta; unfold unwrap.
  - rewrite bind_throw. same_tables.
  - rewrite bind_ret. unfold notify, bind. simpl.
    eapply evolves_tables, (evolves_update w policyId old _ Hl);
      [reflexivity .. |].
    left. simpl.
    destruct (patch_as_stored_columns _ _ Hs) as (_ & _ & -> & _).
    reflexivity.
Qed.

Lemma submitPolicy_evolves policyId creatorId w :
  evolves w (submitPolicy policyId creatorId w).2.
Proof.
  destruct (submitPolicy_spec policyId creatorId w)
    as [[_ H] | (old & e & _ & H)]; rewrite H; same_tables.
Qed.

Lemma processApproval_evolves policyId approverId action role comments w :
  evolves w (processApproval policyId approverId action role comments w).2.
Proof.
  pose proof (processApproval_spec policyId approverId action role comments w)
    as Hspec.
  destruct (processApproval policyId approverId action role comments w)
    as [out w'].
  simpl in *.
  destruct Hspec
    as [Hv | old Hv _ _ | old s e Hv _ _
        | old s uid e Hv Hs _ Hus _ _ | old s uid lines Hv Hs _ Hus _ _];
    try same_tables;
    apply visible_policy_lookup in Hv;
    pose proof (evolves_update w policyId old (with_status s old) Hv
                  (asked_moves _ _ _ _ _ _ Hs Hus)) as He.
  - eapply evolves_tables, He; reflexivity.
  - eapply evolves_tables;
      [| | | apply (evolves_log w _ (entry policyId approverId action role
                                       comments old s) He)];
      rewrite ?user_profiles_noted, ?policies_noted, ?approval_logs_noted;
      reflexivity.
Qed.

Lemma logApproval_evolves policyId approverId action role comments prev new w :
  evolves w
    (logApproval policyId approverId action role comments prev new w).2.
Proof.
  destruct (logApproval_spec policyId approverId action role comments prev new w)
    as [(e & _ & H) | [_ H]]; rewrite H.
  - same_tables.
  - eapply evolves_tables, (evolves_log w w _ (evolves_refl w)); reflexivity.
Qed.

Lemma forget_world {A} (m : Svc A) w : (forget m w).2 = (m w).2.
Proof. unfold forget, bind. destruct (m w) as [[a | e] w']; reflexivity. Qed.

Lemma run_evolves c w : evolves w (run c w).2.
Proof.
  destruct c; simpl; rewrite ?forget_world.
  - apply createPolicy_evolves.
  - apply updatePolicy_evolves.
  - same_tables.
  - same_tables.
  - apply submitPolicy_evolves.
  - apply processApproval_evolves.
  - apply logApproval_evolves.
  - same_tables.
Qed.

Lemma invoke_evolves i w : evolves w (invoke i w).
Proof. apply (run_evolves (call i) (signed_in (caller i) w)). Qed.

(** C9: the audit log is append-only.  Whatever calls are made, by
    whomever, the log afterwards is the log before followed by the rows
    that were added: no row is changed or removed. *)
Theorem approval_logs_append_only calls w :
  exists added,
    approval_logs (invoke_all calls w) = approval_logs w ++ added.
Proof.
  revert w. induction calls as [| i calls IH]; intros w.
  - exists []. symmetry. apply app_nil_r.
  - destruct (invoke_evolves i w) as (_ & [added1 H1] & _).
    destruct (IH (invoke i w)) as [added2 H2].
    exists (added1 ++ added2). unfold invoke_all in *. simpl.
    rewrite H2, H1. symmetry. apply app_assoc.
Qed.

Lemma moves_rank s s' : moves s s' -> rank s <= rank s'.
Proof.
  intros [-> | [H | [-> ->]]]; [lia | destruct H; simpl; lia | simpl; lia].
Qed.

Lemma moves_terminal s s' : moves s s' -> terminal s -> s' = s.
Proof.
  intros [-> | [H | [-> ->]]] [Ht | Ht]; try reflexivity;
    try discriminate Ht; destruct H; discriminate Ht.
Qed.

(** Along any sequence of calls a policy stays in the table and every
    call changes its status by at most one move, of the workflow or from
    [draft] to [rejected]: after as many moves as there were calls the
    status has not gone back, and [approved] and [rejected] are never
    left. *)
Proposition statuses_never_go_back calls w id s :
  status_of w id = Some s ->
  exists s',
    status_of (invoke_all calls w) id = Some s'
    /\ nsteps moves (length calls) s s'
    /\ rank s <= rank s'
    /\ (terminal s -> s' = s).
Proof.
  revert w s. induction calls as [| i calls IH]; intros w s Hs.
  - exists s. split; [exact Hs | split; [constructor | split; [lia | auto]]].
  - destruct (invoke_evolves i w) as (_ & _ & Hstep).
    destruct (Hstep id s Hs) as (s1 & Hs1 & Hm).
    destruct (IH (invoke i w) s1 Hs1) as (s' & Hs' & Hr & Hk & Ht).
    exists s'. split; [exact Hs' | split; [| split]].
    + simpl. econstructor; eassumption.
    + pose proof (moves_rank _ _ Hm). lia.
    + intros Hterm. pose proof (moves_terminal _ _ Hm Hterm) as ->. auto.
Qed.

(** ** What the workflow refuses *)

Lemma submitPolicy_changes_nothing policyId creatorId w :
  policies (submitPolicy policyId creatorId w).2 = policies w
  /\ approval_logs (submitPolicy policyId creatorId w).2 = approval_logs w.
Proof.
  destruct (submitPolicy_spec policyId creatorId w)
    as [[_ H] | (old & e & _ & H)]; rewrite H; auto.
Qed.

Lemma asked_listed action status role s :
  asked action status role s ->
  action = Decision.approved ->
  transition_table status role ApprovalAction.approved = Some s.
Proof. intros H E. destruct H; [discriminate E | reflexivity ..]. Qed.

(** An approval the transition table does not list is refused by
    [processApproval] itself, before any write. *)
Lemma processApproval_unlisted_approval
    policyId approverId role comments w policy :
  visible_policy w policyId = Some policy ->
  transition_table (Policy.status policy) role ApprovalAction.approved = None ->
  processApproval policyId approverId Decision.approved role comments w
  = (Thrown (JsError "Invalid approval workflow state"),
     sent (SelectPolicy policyId) w).
Proof.
  intros Hv Ht.
  pose proof (processApproval_spec policyId approverId Decision.approved role
                comments w) as Hspec.
  destruct (processApproval policyId approverId Decision.approved role
              comments w) as [out w'].
  simpl in Hspec.
  destruct Hspec as [Hv' | old Hv' _ _ | old s e Hv' Hs _
                     | old s uid e Hv' Hs _ _ _ _
                     | old s uid lines Hv' Hs _ _ _ _];
    rewrite Hv in Hv'; try discriminate Hv'; try reflexivity;
    injection Hv' as <-;
    rewrite (asked_listed _ _ _ _ Hs eq_refl) in Ht; discriminate Ht.
Qed.

(** No call of [processApproval] touches a policy that is approved or
    rejected: the database finds no row the session may update. *)
Lemma processApproval_terminal policyId approverId action role comments w row :
  policies w !! policyId = Some row ->
  terminal (Policy.status row) ->
  (exists e,
      (processApproval policyId approverId action role comments w).1 = Thrown e)
  /\ policies (processApproval policyId approverId action role comments w).2
     = policies w
  /\ approval_logs (processApproval policyId approverId action role comments w).2
     = approval_logs w.
Proof.
  intros Hl Ht.
  assert (Hno : forall uid, Rls.update_using w uid row = true -> False).
  { intros uid Hu. apply update_using_status in Hu.
    destruct Ht as [Ht | Ht], Hu as [Hu | [Hu | Hu]]; congruence. }
  pose proof (processApproval_spec policyId approverId action role comments w)
    as Hspec.
  destruct (processApproval policyId approverId action role comments w)
    as [out w'].
  simpl in *.
  destruct Hspec as [Hv | old Hv | old s e Hv | old s uid e Hv _ _ Hus
                     | old s uid lines Hv _ _ Hus];
    simpl; eauto;
    apply visible_policy_lookup in Hv; rewrite Hl in Hv; injection Hv as <-;
    destruct (Hno _ Hus).
Qed.

(** ** The workflow on the example world *)

Lemma submitPolicy_never_returns policyId creatorId w data :
  (submitPolicy policyId creatorId w).1 <> Returned data.
Proof.
  destruct (submitPolicy_spec policyId creatorId w)
    as [[_ H] | (old & e & _ & H)]; rewrite H; discriminate.
Qed.

(** C5, at the first row of the transition table: Ann, a creator, submits
    her own draft.  The view offers the action and the table lists the
    move, but the database refuses the update, because no WITH CHECK
    expression of the migration accepts a row whose status is
    [pending_underwriter]; the policy stays a draft and nothing is logged. *)
Theorem submitPolicy_refused_for_own_draft :
  let policy := Demo.policy "p-draft" PolicyStatus.draft in
  let out := submitPolicy "p-draft" "ann" Demo.as_ann in
  policies Demo.as_ann !! "p-draft" = Some policy
  /\ canSubmit (Some Demo.ann) policy = true
  /\ transition_table PolicyStatus.draft "creator" ApprovalAction.submitted
     = Some PolicyStatus.pending_underwriter
  /\ Rls.update_using Demo.as_ann "ann" policy = true
  /\ Rls.update_check Demo.as_ann "ann"
       (with_status PolicyStatus.pending_underwriter policy) = false
  /\ out.1 = Thrown (DbError insufficient_privilege)
  /\ status_of out.2 "p-draft" = Some PolicyStatus.draft
  /\ approval_logs out.2 = [].
Proof. vm_compute. repeat split; reflexivity. Qed.

(** C1, at two triples the transition table does not list.  Ann rejects
    her own draft through [processApproval]: the call returns, the draft
    is rejected and the rejection is logged.  Bob, an underwriter, rejects
    a policy that waits for the underwriter while passing the role
    ["manager"]: the call returns as well. *)
Theorem processApproval_rejection_is_not_guarded :
  let by_ann :=
    processApproval "p-draft" "ann" Decision.rejected "creator" "withdrawn"
      Demo.as_ann in
  let by_bob :=
    processApproval "p-uw" "bob" Decision.rejected "manager" "too risky"
      Demo.as_bob in
  (transition_table PolicyStatus.draft "creator" ApprovalAction.rejected = None
   /\ status_of Demo.as_ann "p-draft" = Some PolicyStatus.draft
   /\ by_ann.1
      = Returned (with_status PolicyStatus.rejected
                    (Demo.policy "p-draft" PolicyStatus.draft))
   /\ status_of by_ann.2 "p-draft" = Some PolicyStatus.rejected)
  /\ (transition_table PolicyStatus.pending_underwriter "manager"
        ApprovalAction.rejected = None
      /\ status_of Demo.as_bob "p-uw" = Some PolicyStatus.pending_underwriter
      /\ by_bob.1
         = Returned (with_status PolicyStatus.rejected
                       (Demo.policy "p-uw" PolicyStatus.pending_underwriter))
      /\ status_of by_bob.2 "p-uw" = Some PolicyStatus.rejected).
Proof. vm_compute. repeat split; reflexivity. Qed.

(** C2, on a sequence of one call: Ann rejects her own draft, and the
    policy goes from [draft] to [rejected], which is not a move of the
    workflow. *)
Theorem draft_is_rejected_without_review :
  let calls :=
    [by_user (Some "ann")
       (Call.processApproval "p-draft" "ann" Decision.rejected "creator"
          "withdrawn")] in
  status_of Demo.world "p-draft" = Some PolicyStatus.draft
  /\ status_of (invoke_all calls Demo.world) "p-draft"
     = Some PolicyStatus.rejected
  /\ ~ forward PolicyStatus.draft PolicyStatus.rejected.
Proof.
  split; [reflexivity | split; [vm_compute; reflexivity |]].
  intros H. inversion H.
Qed.

(** Bob and then Eve approve the policy that waits for the underwriter. *)
Example approval_chain :
  let calls :=
    [by_user (Some "bob")
       (Call.processApproval "p-uw" "bob" Decision.approved "underwriter" "");
     by_user (Some "eve")
       (Call.processApproval "p-uw" "eve" Decision.approved "manager" "fine")] in
  let w := invoke_all calls Demo.world in
  status_of w "p-uw" = Some PolicyStatus.approved
  /\ approval_logs w
     = [ApprovalLog.make "p-uw" "bob" ApprovalAction.approved "underwriter" ""
          PolicyStatus.pending_underwriter PolicyStatus.pending_manager;
        ApprovalLog.make "p-uw" "eve" ApprovalAction.approved "manager" "fine"
          PolicyStatus.pending_manager PolicyStatus.approved]
  /\ console w
     = [("policy_approved", "Underwriter approved policy");
        ("approval_required", "Manager action required");
        ("policy_approved", "Policy fully approved")].
Proof. vm_compute. repeat split; reflexivity. Qed.

(** When the approver named in the call is not the user of the session,
    the status is changed, the audit row is refused and the call throws. *)
Example processApproval_for_somebody_else :
  let out := processApproval "p-uw" "eve" Decision.approved "underwriter" ""
               Demo.as_bob in
  out.1 = Thrown (DbError insufficient_privilege)
  /\ status_of out.2 "p-uw" = Some PolicyStatus.pending_manager
  /\ approval_logs out.2 = [].
Proof. vm_compute. repeat split; reflexivity. Qed.

(** [processApproval] itself takes a rejection without a comment: the
    comment is asked for by the view. *)
Example processApproval_rejection_without_comment :
  let out := processApproval "p-mgr" "eve" Decision.rejected "manager" ""
               Demo.as_eve in
  status_of out.2 "p-mgr" = Some PolicyStatus.rejected
  /\ approval_logs out.2
     = [ApprovalLog.make "p-mgr" "eve" ApprovalAction.rejected "manager" ""
          PolicyStatus.pending_manager PolicyStatus.rejected].
Proof. vm_compute. repeat split; reflexivity. Qed.

Example performFraudCheck_examples :
  let check flag name (premium : Q) :=
    performFraudCheck flag
      {| PolicyData.customer_name := name;
         PolicyData.premium_amount := premium;
         PolicyData.product_type := "Auto Insurance";
         PolicyData.creator_id := "ann" |} in
  check false "Jane Doe" 500%Q
  = FraudCheck.make true "All fraud checks passed successfully"
  /\ check false "Jane Doe" 100000%Q
     = FraudCheck.make true "All fraud checks passed successfully"
  /\ check false "Jane Doe" 100001%Q
     = FraudCheck.make true "All fraud checks passed successfully"
  /\ check false "Al" 500%Q
     = FraudCheck.make true "All fraud checks passed successfully"
  /\ check false "2024" 100000.5%Q
     = FraudCheck.make false
         "Fraud risk detected: Unusually high premium amount, Invalid customer name format (Risk Score: 70)"
  /\ check true "Jane Doe" 500%Q
     = FraudCheck.make false
         "Fraud risk detected: Anomalous pattern detected by AI model (Risk Score: 50)".
Proof. vm_compute. repeat split; reflexivity. Qed.

Example createPolicy_jane :
  let out := createPolicy (Demo.env false) Demo.jane Demo.as_ann in
  (exists row, out.1 = Returned row
               /\ Policy.status row = PolicyStatus.draft
               /\ Policy.fraud_check_passed row = true
               /\ Policy.policy_number row = "POL-000006")
  /\ (createPolicy (Demo.env false) Demo.jane Demo.as_bob).1
     = Thrown (DbError insufficient_privilege).
Proof. vm_compute. split; [eexists; repeat split |]; reflexivity. Qed.

(** ** Editing a policy *)

(** C8: when the status of a policy is not [draft], [updatePolicy] called
    by its creator is refused: the database finds no row the creator may
    update, the call throws and the table of policies, hence the name,
    premium and product type of the policy, is as before.  The view does
    not offer the edit either. *)
Theorem updatePolicy_refused_unless_draft w profile policyId policy updates :
  auth_uid w = Some (UserProfile.id profile) ->
  user_profiles w !! UserProfile.id profile = Some profile ->
  UserProfile.role profile = UserRole.creator ->
  policies w !! policyId = Some policy ->
  Policy.creator_id policy = UserProfile.id profile ->
  Policy.status policy <> PolicyStatus.draft ->
  (updatePolicy policyId updates w).1 = Thrown (DbError PGRST116)
  /\ policies (updatePolicy policyId updates w).2 = policies w
  /\ canEdit (Some profile) policy = false.
Proof.
  intros Hu Hp Hr Hl _ Hs.
  assert (Hrole : Rls.has_role w (UserProfile.id profile) UserRole.creator = true).
  { unfold Rls.has_role. rewrite Hp. simpl. rewrite Hr.
    apply bool_decide_eq_true. reflexivity. }
  assert (H : update_policy (PolicyUpdates.patch updates) policyId w
              = (Returned (Failure PGRST116),
                 sent (UpdatePolicy policyId (PolicyUpdates.patch updates)) w)).
  { unfold update_policy, update_policy_under. rewrite Hu, Hl.
    rewrite (update_using_creator _ _ _ Hrole Hs), andb_false_r. reflexivity. }
  unfold updatePolicy. rewrite (bind_returned _ _ _ _ _ H). simpl.
  split; [reflexivity | split; [reflexivity |]].
  rewrite (bool_decide_eq_false_2 _ Hs), andb_false_r. reflexivity.
Qed.

(** The other direction: a creator can edit a draft of their own.  The
    update has to name a column, and the premium that results, as the
    column takes it, has to be above zero; the row that is stored and
    returned carries the premium rounded to two decimals. *)
Lemma updatePolicy_edits_own_draft w uid policyId policy updates stored :
  auth_uid w = Some uid ->
  Rls.has_role w uid UserRole.creator = true ->
  policies w !! policyId = Some policy ->
  Policy.creator_id policy = uid ->
  Policy.status policy = PolicyStatus.draft ->
  PolicyPatch.is_empty (PolicyUpdates.patch updates) = false ->
  patch_as_stored (PolicyUpdates.patch updates) = Some stored ->
  premium_amount_check (PolicyPatch.apply stored policy) = true ->
  (updatePolicy policyId updates w).1
  = Returned (PolicyPatch.apply stored policy)
  /\ policies (updatePolicy policyId updates w).2 !! policyId
     = Some (PolicyPatch.apply stored policy).
Proof.
  intros Hu Hr Hl Hc Hs He Hst Hpr.
  pose proof (has_role_has_profile _ _ _ Hr) as Hp.
  destruct (patch_as_stored_columns _ _ Hst) as (_ & _ & Hstatus & _).
  simpl in Hstatus.
  assert (Hus : Rls.update_using w uid policy = true).
  { unfold Rls.update_using, Rls.creator_using. rewrite Hc, Hs, Hr.
    rewrite !bool_decide_eq_true_2 by reflexivity. reflexivity. }
  assert (Hck : Rls.update_check w uid (PolicyPatch.apply stored policy) = true).
  { unfold Rls.update_check, Rls.creator_check. simpl. rewrite Hstatus, Hc, Hs.
    simpl. rewrite !bool_decide_eq_true_2 by reflexivity. reflexivity. }
  unfold updatePolicy.
  rewrite (bind_returned _ _ _ _ _
             (update_policy_stored _ _ _ _ uid policy Hu Hl Hp He Hst Hus Hck
                Hpr)).
  simpl. rewrite lookup_insert_eq. auto.
Qed.

(** ** Creating a policy *)

(** Whether the database stores a new row, and the error it answers with
    when it does not, does not depend on the two columns of the fraud
    check. *)
Lemma insert_policy_decision env p q w :
  without_fraud_check (PolicyInsert.row (uuid_generate_v4 env) p)
  = without_fraud_check (PolicyInsert.row (uuid_generate_v4 env) q) ->
  (exists e, (insert_policy env p w).1 = Returned (Failure e)
             /\ (insert_policy env q w).1 = Returned (Failure e))
  \/ (exists stored_p stored_q,
        insert_as_stored p = Some stored_p
        /\ insert_as_stored q = Some stored_q
        /\ (insert_policy env p w).1
           = Returned (Data (PolicyInsert.row (uuid_generate_v4 env) stored_p))
        /\ (insert_policy env q w).1
           = Returned (Data (PolicyInsert.row (uuid_generate_v4 env) stored_q))).
Proof.
  intros H. destruct p, q. injection H as -> -> -> -> -> ->.
  unfold insert_policy, insert_as_stored, Rls.create_check, Rls.view_using,
    premium_amount_check. simpl.
  destruct (numeric_10_2 _) as [premium |]; [| left; eauto].
  destruct (auth_uid w) as [uid |]; [| left; eauto]. simpl.
  repeat match goal with
         | |- context [if negb ?b then _ else _] =>
             destruct b; simpl; [| left; eauto]
         end.
  right. eauto 10.
Qed.

Lemma generatePolicyNumber_with_flag flag env w :
  generatePolicyNumber (with_flag flag env) w = generatePolicyNumber env w.
Proof. reflexivity. Qed.

Lemma insert_policy_with_flag flag env payload w :
  insert_policy (with_flag flag env) payload w = insert_policy env payload w.
Proof. reflexivity. Qed.

Lemma requests_noted lines w : requests (noted lines w) = requests w.
Proof. apply noted_frame. Qed.

(** The row stored for the object [createPolicy] inserts. *)
Lemma inserted_as_stored policyData fraudCheck number stored :
  insert_as_stored (inserted policyData fraudCheck number) = Some stored ->
  exists premium_amount,
    numeric_10_2 (PolicyData.premium_amount policyData) = Some premium_amount
    /\ stored
       = {| PolicyInsert.policy_number := number;
            PolicyInsert.customer_name := PolicyData.customer_name policyData;
            PolicyInsert.premium_amount := premium_amount;
            PolicyInsert.product_type := PolicyData.product_type policyData;
            PolicyInsert.creator_id := PolicyData.creator_id policyData;
            PolicyInsert.fraud_check_passed := FraudCheck.passed fraudCheck;
            PolicyInsert.fraud_check_reason := FraudCheck.reason fraudCheck;
            PolicyInsert.status := PolicyStatus.draft |}.
Proof.
  unfold insert_as_stored, inserted. simpl.
  destruct (numeric_10_2 _) as [premium_amount |]; [| discriminate].
  intros [= <-]. eauto.
Qed.

(** C7: [createPolicy] sends the same insert whatever the fraud check
    says, with status [draft] and different in the two columns of the
    check only.  The database answers both alike: it refuses both with
    the same error and stores nothing, or it stores both, as rows that
    differ in those two columns only.  And it does store both, a failed
    check included, for a creator who creates a policy of their own with
    a premium that is above zero once it is rounded to two decimals,
    when the key and the policy number are free: the row stored and
    returned is a draft with the fields of the input, the premium
    rounded, and the outcome of the check in its two columns. *)
Theorem createPolicy_fraud_check_only_annotates env policyData w number :
  (generatePolicyNumber env w).1 = Returned number ->
  let payload flag :=
    inserted policyData (performFraudCheck flag policyData) number in
  let row flag premium_amount :=
    {| Policy.id := uuid_generate_v4 env;
       Policy.policy_number := number;
       Policy.customer_name := PolicyData.customer_name policyData;
       Policy.premium_amount := premium_amount;
       Policy.product_type := PolicyData.product_type policyData;
       Policy.status := PolicyStatus.draft;
       Policy.fraud_check_passed :=
         FraudCheck.passed (performFraudCheck flag policyData);
       Policy.fraud_check_reason :=
         FraudCheck.reason (performFraudCheck flag policyData);
       Policy.creator_id := PolicyData.creator_id policyData |} in
  let out flag := createPolicy (with_flag flag env) policyData w in
  (forall flag,
      requests (out flag).2
      = requests w ++ [RpcGeneratePolicyNumber; InsertPolicy (payload flag)])
  /\ ((exists e, forall flag,
          (out flag).1 = Thrown (DbError e)
          /\ policies (out flag).2 = policies w)
      \/ (exists premium_amount,
            numeric_10_2 (PolicyData.premium_amount policyData)
            = Some premium_amount
            /\ forall flag,
                 (out flag).1 = Returned (row flag premium_amount)
                 /\ policies (out flag).2
                    = <[uuid_generate_v4 env := row flag premium_amount]>
                        (policies w)))
  /\ (forall premium_amount,
        auth_uid w = Some (PolicyData.creator_id policyData) ->
        Rls.has_role w (PolicyData.creator_id policyData) UserRole.creator
        = true ->
        numeric_10_2 (PolicyData.premium_amount policyData)
        = Some premium_amount ->
        (0 < premium_amount)%Q ->
        policies w !! uuid_generate_v4 env = None ->
        policy_number_free w number = true ->
        forall flag,
          (out flag).1 = Returned (row flag premium_amount)
          /\ policies (out flag).2 !! uuid_generate_v4 env
             = Some (row flag premium_amount)).
Proof.
  intros Hn payload row out.
  assert (Hspec : forall flag,
    requests (out flag).2
    = requests w ++ [RpcGeneratePolicyNumber; InsertPolicy (payload flag)]
    /\ ((exists e,
           (insert_policy env (payload flag) w).1 = Returned (Failure e)
           /\ (out flag).1 = Thrown (DbError e)
           /\ policies (out flag).2 = policies w)
        \/ (exists premium_amount,
              numeric_10_2 (PolicyData.premium_amount policyData)
              = Some premium_amount
              /\ (exists stored,
                    (insert_policy env (payload flag) w).1
                    = Returned (Data stored))
              /\ (out flag).1 = Returned (row flag premium_amount)
              /\ policies (out flag).2
                 = <[uuid_generate_v4 env := row flag premium_amount]>
                     (policies w)))).
  { intros flag.
    destruct (createPolicy_eq (with_flag flag env) policyData w)
      as (number' & Hn' & H).
    rewrite generatePolicyNumber_with_flag, Hn in Hn'. injection Hn' as <-.
    fold (out flag) in H. simpl in H. fold (payload flag) in H.
    destruct H as [(e & Hi & H) | (stored & Hs & _ & _ & _ & _ & _ & Hi & H)];
      rewrite H; simpl.
    - rewrite <- app_assoc. split; [reflexivity | left]. eauto.
    - rewrite requests_noted, policies_noted. simpl. rewrite <- app_assoc.
      split; [reflexivity | right].
      destruct (inserted_as_stored _ _ _ _ Hs) as (premium_amount & Hp & ->).
      exists premium_amount. rewrite insert_policy_with_flag in Hi. eauto 10. }
  split; [intros flag; apply Hspec | split].
  - destruct (insert_policy_decision env (payload true) (payload false) w
                eq_refl) as [(e & E1 & E2) | (sp & sq & _ & _ & E1 & E2)].
    + left. exists e. intros flag.
      destruct (Hspec flag)
        as [_ [(e' & H & Ho & Hp) | (p & _ & [stored H] & _)]];
        destruct flag; try congruence;
        (assert (e' = e) as -> by congruence); auto.
    + right.
      destruct (Hspec true) as [_ [(e' & H & _) | (p & Hp & _ & Ht)]];
        [congruence |].
      exists p. split; [exact Hp |]. intros flag.
      destruct (Hspec flag) as [_ [(e' & H & _) | (p' & Hp' & _ & Hf)]];
        [destruct flag; congruence |].
      rewrite Hp in Hp'. injection Hp' as <-. exact Hf.
  - intros premium_amount Hu Hr Hp Hq Hk Hfree flag.
    assert (Hs : insert_as_stored (payload flag)
                 = Some
                     {| PolicyInsert.policy_number := number;
                        PolicyInsert.customer_name :=
                          PolicyData.customer_name policyData;
                        PolicyInsert.premium_amount := premium_amount;
                        PolicyInsert.product_type :=
                          PolicyData.product_type policyData;
                        PolicyInsert.creator_id :=
                          PolicyData.creator_id policyData;
                        PolicyInsert.fraud_check_passed :=
                          FraudCheck.passed (performFraudCheck flag policyData);
                        PolicyInsert.fraud_check_reason :=
                          FraudCheck.reason (performFraudCheck flag policyData);
                        PolicyInsert.status := PolicyStatus.draft |}).
    { unfold insert_as_stored, payload, inserted. simpl. rewrite Hp.
      reflexivity. }
    pose proof (insert_policy_stored env (payload flag) _ w Hs Hu Hr Hq Hk
                  Hfree) as Hi.
    destruct (Hspec flag)
      as [_ [(e & H & _) | (p & Hp' & _ & Ho & Hpol)]].
    + rewrite Hi in H. discriminate H.
    + rewrite Hp in Hp'. injection Hp' as <-.
      rewrite Hpol, lookup_insert_eq. auto.
Qed.

(** A policy that fails every check of the fraud check is created all the
    same, as a draft. *)
Example createPolicy_flagged_policy :
  let suspicious :=
    {| PolicyData.customer_name := "42";
       PolicyData.premium_amount := 250000;
       PolicyData.product_type := "Life Insurance";
       PolicyData.creator_id := "ann" |} in
  let out := createPolicy (Demo.env true) suspicious Demo.as_ann in
  out.1
  = Returned
      {| Policy.id := "p-new";
         Policy.policy_number := "POL-000006";
         Policy.customer_name := "42";
         Policy.premium_amount := 250000;
         Policy.product_type := "Life Insurance";
         Policy.status := PolicyStatus.draft;
         Policy.fraud_check_passed := false;
         Policy.fraud_check_reason :=
           "Fraud risk detected: Anomalous pattern detected by AI model, Unusually high premium amount, Invalid customer name format (Risk Score: 120)";
         Policy.creator_id := "ann" |}
  /\ status_of out.2 "p-new" = Some PolicyStatus.draft
  /\ console out.2
     = [("FRAUD CHECK NOTIFICATION", "FAILED");
        ("policy_created", "New policy created");
        ("fraud_alert", "Policy flagged for fraud review")].
Proof. vm_compute. repeat split; reflexivity. Qed.

(** ** The handlers of the policy detail view *)

Lemma trimStart_blank s : blank s -> trimStart s = "".
Proof.
  unfold blank. induction s as [| c s IH]; simpl; [reflexivity |].
  intros H. apply Forall_cons in H as [-> H]. auto.
Qed.

Lemma trimStart_head s :
  match trimStart s with
  | String c _ => is_white_space c = false
  | EmptyString => blank s
  end.
Proof.
  unfold blank. induction s as [| c s IH]; simpl; [constructor |].
  destruct (is_white_space c) eqn:E; simpl; [| exact E].
  destruct (trimStart s); [constructor; assumption | exact IH].
Qed.

Lemma trim_empty s : trim s = "" <-> blank s.
Proof.
  unfold trim. split.
  - pose proof (trimStart_head s) as H.
    destruct (trimStart s) as [| c rest]; [auto |].
    simpl. rewrite H. discriminate.
  - intros H. rewrite (trimStart_blank _ H). reflexivity.
Qed.

(** C3: the reject action of the view refuses a comment that is empty or
    made of white space only, without sending anything, so that the world
    and the status of the policy stay as they are; the approve action with
    an empty comment goes through, for an approver whose role matches the
    pending status, and logs the empty comment. *)
Theorem rejection_needs_a_comment_approval_does_not
    w profile policy row comments :
  blank comments ->
  handleReject profile policy comments w
  = (alert "Please provide a reason for rejection", w)
  /\ (auth_uid w = Some (UserProfile.id profile) ->
      user_profiles w !! UserProfile.id profile = Some profile ->
      policies w !! Policy.id policy = Some row ->
      premium_amount_check row = true ->
      canApprove (Some profile) row = true ->
      (handleApprove profile policy "" w).1 = onUpdate
      /\ status_of (handleApprove profile policy "" w).2 (Policy.id policy)
         = transition_table (Policy.status row)
             (UserRole.literal (UserProfile.role profile))
             ApprovalAction.approved
      /\ exists entry,
           approval_logs (handleApprove profile policy "" w).2
           = approval_logs w ++ [entry]
           /\ ApprovalLog.comments entry = "").
Proof.
  intros Hb. split.
  { unfold handleReject. apply trim_empty in Hb. rewrite Hb. reflexivity. }
  intros Hu Hp Hl Hpr Hc.
  assert (Hrole : Rls.has_role w (UserProfile.id profile)
                    (UserProfile.role profile) = true).
  { unfold Rls.has_role. rewrite Hp. apply bool_decide_eq_true. reflexivity. }
  assert (Ht : exists next,
    transition_table (Policy.status row)
      (UserRole.literal (UserProfile.role profile)) ApprovalAction.approved
    = Some next).
  { simpl in Hc. apply orb_true_iff in Hc as [Hc | Hc];
      apply andb_true_iff in Hc as [H1 H2];
      apply bool_decide_eq_true in H1, H2; rewrite H1, H2; eauto. }
  destruct Ht as [next Ht]. rewrite Ht.
  pose proof (processApproval_spec (Policy.id policy) (UserProfile.id profile)
    Decision.approved (UserRole.literal (UserProfile.role profile)) "" w) as Hs.
  destruct (processApproval_listed_rows w _ _ _ row Decision.approved next ""
              Hu Hrole Hl Hpr Ht) as [Ho Hst].
  unfold handleApprove, try_or_alert.
  destruct (processApproval (Policy.id policy) (UserProfile.id profile)
    Decision.approved (UserRole.literal (UserProfile.role profile)) "" w)
    as [out w'].
  simpl in *. destruct Hs; try discriminate Ho.
  split; [reflexivity | split; [exact Hst |]].
  cbn [snd]. rewrite approval_logs_noted. simpl. eauto.
Qed.

(** ** The theorems at work on the example world *)

(** Bob approves a draft: the call throws before any write. *)
Lemma early_errors_precede_every_write_witness :
  let c := Call.processApproval "p-draft" "bob" Decision.approved
             "underwriter" "" in
  status_call c = Some "p-draft"
  /\ (run c Demo.as_bob).1
     = Thrown (JsError "Invalid approval workflow state")
  /\ requests (run c Demo.as_bob).2 = [SelectPolicy "p-draft"]
  /\ policies (run c Demo.as_bob).2 = policies Demo.as_bob
  /\ approval_logs (run c Demo.as_bob).2 = [].
Proof.
  intros c.
  assert (H1 : status_call c = Some "p-draft") by reflexivity.
  assert (H2 : (run c Demo.as_bob).1
               = Thrown (JsError "Invalid approval workflow state"))
    by (vm_compute; reflexivity).
  pose proof (early_errors_precede_every_write c "p-draft" Demo.as_bob
                H1 (or_intror H2)) as (_ & H3 & H4 & H5).
  repeat split; assumption.
Defined.


(** Ann tries to rename the policy that waits for the manager. *)
Lemma updatePolicy_refused_unless_draft_witness :
  let policy := Demo.policy "p-mgr" PolicyStatus.pending_manager in
  let updates :=
    {| PolicyUpdates.customer_name := Some "John Doe";
       PolicyUpdates.premium_amount := None;
       PolicyUpdates.product_type := None |} in
  policies Demo.as_ann !! "p-mgr" = Some policy
  /\ Policy.creator_id policy = UserProfile.id Demo.ann
  /\ Policy.status policy <> PolicyStatus.draft
  /\ (updatePolicy "p-mgr" updates Demo.as_ann).1
     = Thrown (DbError PGRST116)
  /\ policies (updatePolicy "p-mgr" updates Demo.as_ann).2
     = policies Demo.as_ann
  /\ canEdit (Some Demo.ann) policy = false.
Proof.
  intros policy updates.
  assert (H1 : policies Demo.as_ann !! "p-mgr" = Some policy)
    by (vm_compute; reflexivity).
  assert (H2 : Policy.status policy <> PolicyStatus.draft) by discriminate.
  split; [exact H1 | split; [reflexivity | split; [exact H2 |]]].
  apply (updatePolicy_refused_unless_draft Demo.as_ann Demo.ann "p-mgr"
           policy updates); [reflexivity | | reflexivity | exact H1
                            | reflexivity | exact H2].
  vm_compute; reflexivity.
Defined.

(** Bob, in front of the policy that waits for the underwriter, with a
    comment of two spaces and a tab. *)
Lemma rejection_needs_a_comment_approval_does_not_witness :
  let row := Demo.policy "p-uw" PolicyStatus.pending_underwriter in
  let comments := String " " (String " " (String (ascii_of_nat 9) "")) in
  blank comments
  /\ canApprove (Some Demo.bob) row = true
  /\ handleReject Demo.bob row comments Demo.as_bob
     = (alert "Please provide a reason for rejection", Demo.as_bob)
  /\ (handleApprove Demo.bob row "" Demo.as_bob).1 = onUpdate
  /\ status_of (handleApprove Demo.bob row "" Demo.as_bob).2 "p-uw"
     = Some PolicyStatus.pending_manager.
Proof.
  intros row comments.
  assert (H1 : blank comments) by (repeat constructor).
  assert (H2 : policies Demo.as_bob !! Policy.id row = Some row)
    by (vm_compute; reflexivity).
  assert (H3 : user_profiles Demo.as_bob !! UserProfile.id Demo.bob
               = Some Demo.bob) by (vm_compute; reflexivity).
  destruct (rejection_needs_a_comment_approval_does_not Demo.as_bob
              Demo.bob row row comments H1) as [H4 H5].
  destruct (H5 eq_refl H3 H2 eq_refl eq_refl) as (H6 & H7 & _).
  repeat split; assumption.
Defined.

(** Ann creates a policy with a premium of 500.129: it passes the fraud
    check when the random flag is not set and fails it when the flag is
    set, and is stored as a draft with a premium of 500.13 either way. *)
Lemma createPolicy_fraud_check_only_annotates_witness :
  let policyData :=
    {| PolicyData.customer_name := "Jane Doe";
       PolicyData.premium_amount := 500129 # 1000;
       PolicyData.product_type := "Auto Insurance";
       PolicyData.creator_id := "ann" |} in
  let row passed reason :=
    {| Policy.id := "p-new";
       Policy.policy_number := "POL-000006";
       Policy.customer_name := "Jane Doe";
       Policy.premium_amount := 50013 # 100;
       Policy.product_type := "Auto Insurance";
       Policy.status := PolicyStatus.draft;
       Policy.fraud_check_passed := passed;
       Policy.fraud_check_reason := reason;
       Policy.creator_id := "ann" |} in
  let out flag := createPolicy (Demo.env flag) policyData Demo.as_ann in
  (out false).1
  = Returned (row true "All fraud checks passed successfully")
  /\ policies (out false).2 !! "p-new"
     = Some (row true "All fraud checks passed successfully")
  /\ (out true).1
     = Returned
         (row false
            "Fraud risk detected: Anomalous pattern detected by AI model (Risk Score: 50)")
  /\ policies (out true).2 !! "p-new"
     = Some
         (row false
            "Fraud risk detected: Anomalous pattern detected by AI model (Risk Score: 50)").
Proof.
  intros policyData row out.
  assert (Hn : (generatePolicyNumber (Demo.env false) Demo.as_ann).1
               = Returned "POL-000006") by (vm_compute; reflexivity).
  destruct (createPolicy_fraud_check_only_annotates (Demo.env false) policyData
              Demo.as_ann "POL-000006" Hn) as (_ & _ & H).
  assert (H1 : auth_uid Demo.as_ann = Some (PolicyData.creator_id policyData))
    by reflexivity.
  assert (H2 : Rls.has_role Demo.as_ann (PolicyData.creator_id policyData)
                 UserRole.creator = true) by (vm_compute; reflexivity).
  assert (H3 : numeric_10_2 (PolicyData.premium_amount policyData)
               = Some (50013 # 100)) by (vm_compute; reflexivity).
  assert (H4 : (0 < 50013 # 100)%Q) by (vm_compute; reflexivity).
  assert (H5 : policies Demo.as_ann !! uuid_generate_v4 (Demo.env false) = None)
    by (vm_compute; reflexivity).
  assert (H6 : policy_number_free Demo.as_ann "POL-000006" = true)
    by (vm_compute; reflexivity).
  destruct (H (50013 # 100) H1 H2 H3 H4 H5 H6 false) as [F1 F2].
  destruct (H (50013 # 100) H1 H2 H3 H4 H5 H6 true) as [T1 T2].
  split; [exact F1 | split; [exact F2 | split; [exact T1 | exact T2]]].
Defined.

(** * Further properties *)

(** ** Policy numbers *)

Lemma length_append (s t : string) :
  String.length (s +:+ t) = (String.length s + String.length t)%nat.
Proof. induction s as [| c s IH]; simpl; [reflexivity | rewrite IH; reflexivity]. Qed.

Lemma length_repeat_string n c :
  String.length (repeat_string n (String c "")) = n.
Proof. induction n as [| n IH]; simpl; [reflexivity | f_equal; exact IH]. Qed.

Lemma length_substring_0 (len : nat) (s : string) :
  (len <= String.length s)%nat ->
  String.length (String.substring 0 len s) = len.
Proof.
  revert s. induction len as [| len IH]; intros s H.
  - destruct s; reflexivity.
  - destruct s as [| c s]; simpl in *; [lia |]. rewrite IH; [reflexivity | lia].
Qed.

Lemma substring_all (s : string) : String.substring 0 (String.length s) s = s.
Proof. induction s as [| c s IH]; simpl; [reflexivity | rewrite IH; reflexivity]. Qed.

Lemma length_LPAD s len c : String.length (LPAD s len (String c "")) = len.
Proof.
  unfold LPAD. destruct (decide (len <= String.length s)%nat) as [H | H].
  - apply length_substring_0, H.
  - rewrite length_append, length_repeat_string. lia.
Qed.

(** A number of the procedure is [POL-] and six characters, however
    many policies there are. *)
Theorem generate_policy_number_shape w :
  exists digits,
    generate_policy_number w = "POL-" +:+ digits
    /\ String.length digits = 6%nat.
Proof.
  unfold generate_policy_number. eexists. split; [reflexivity |].
  apply length_LPAD.
Qed.

(** Digits and the number they stand for. *)

Lemma string_of_uint_iter_D0 k d :
  NilEmpty.string_of_uint (Nat.iter k Decimal.D0 d)
  = repeat_string k "0" +:+ NilEmpty.string_of_uint d.
Proof. induction k as [| k IH]; simpl; [reflexivity | rewrite IH; reflexivity]. Qed.

Lemma of_uint_iter_D0 k d : N.of_uint (Nat.iter k Decimal.D0 d) = N.of_uint d.
Proof. induction k as [| k IH]; simpl; [reflexivity | exact IH]. Qed.

Lemma length_string_of_uint d :
  String.length (NilEmpty.string_of_uint d) = Decimal.nb_digits d.
Proof. induction d; simpl; congruence. Qed.

Lemma to_uint_not_nil n : N.to_uint n <> Decimal.Nil.
Proof.
  destruct n as [| p]; [discriminate |]. apply DecimalPos.Unsigned.to_uint_nonnil.
Qed.

Lemma decimal_eq n : decimal n = NilEmpty.string_of_uint (N.to_uint n).
Proof.
  unfold decimal, NilZero.string_of_uint.
  pose proof (to_uint_not_nil n). destruct (N.to_uint n); congruence.
Qed.

Lemma of_uint_acc_bound d acc :
  (N.pos acc * 10 ^ N.of_nat (Decimal.nb_digits d)
   <= N.pos (Pos.of_uint_acc d acc))%N.
Proof.
  revert acc. induction d; intros acc; simpl Decimal.nb_digits;
    simpl Pos.of_uint_acc; [simpl; lia | ..];
    rewrite Nat2N.inj_succ, N.pow_succ_r' .
  all: eapply N.le_trans; [| apply IHd].
  all: rewrite N.mul_assoc; apply N.mul_le_mono_r; lia.
Qed.

(** A positive number is written without a leading zero. *)
Lemma to_uint_head p d : Pos.to_uint p <> Decimal.D0 d.
Proof.
  intros E.
  assert (Hn : Decimal.unorm (Pos.to_uint p) = Pos.to_uint p).
  { rewrite <- (DecimalPos.Unsigned.to_of (Pos.to_uint p)),
      DecimalPos.Unsigned.of_to. reflexivity. }
  rewrite E in Hn. change (Decimal.unorm d = Decimal.D0 d) in Hn.
  assert (Hd : d <> Decimal.Nil).
  { intros ->. apply (DecimalPos.Unsigned.to_uint_nonzero p). exact E. }
  pose proof (DecimalFacts.nb_digits_unorm d Hd) as Hle.
  rewrite Hn in Hle. simpl in Hle. lia.
Qed.

Lemma decimal_value_bound n :
  n <> 0%N ->
  (10 ^ N.of_nat (String.length (decimal n) - 1) <= n)%N.
Proof.
  intros Hn. rewrite decimal_eq, length_string_of_uint.
  rewrite <- (DecimalN.Unsigned.of_to n) at 2.
  destruct n as [| p]; [congruence |]. simpl N.to_uint.
  pose proof (to_uint_head p) as Hh.
  pose proof (DecimalPos.Unsigned.to_uint_nonnil p) as Hnil.
  destruct (Pos.to_uint p) as [| d | d | d | d | d | d | d | d | d | d];
    [congruence | destruct (Hh d eq_refl) | ..];
    match goal with
    | |- context [(?a - 1)%nat] =>
        replace (a - 1)%nat with (Decimal.nb_digits d) by (simpl; lia)
    end;
    unfold N.of_uint; simpl Pos.of_uint;
    (eapply N.le_trans; [| apply of_uint_acc_bound]); lia.
Qed.

Lemma decimal_length n :
  (n < 10 ^ 6)%N -> (String.length (decimal n) <= 6)%nat.
Proof.
  intros Hn. destruct (decide (n = 0%N)) as [-> | Hz]; [simpl; lia |].
  pose proof (decimal_value_bound n Hz) as Hb.
  destruct (le_lt_dec (String.length (decimal n)) 6) as [H | H]; [exact H |].
  assert (Hp : (10 ^ 6 <= 10 ^ N.of_nat (String.length (decimal n) - 1))%N)
    by (apply N.pow_le_mono_r; lia).
  lia.
Qed.

Lemma read_decimal_LPAD n :
  (String.length (decimal n) <= 6)%nat ->
  read_decimal (LPAD (decimal n) 6 "0") = Some n.
Proof.
  intros Hl. unfold read_decimal, LPAD.
  destruct (decide (6 <= String.length (decimal n))%nat) as [H | H].
  - assert (E : String.length (decimal n) = 6%nat) by lia.
    rewrite <- E, substring_all, decimal_eq, NilEmpty.usu. simpl.
    rewrite DecimalN.Unsigned.of_to. reflexivity.
  - rewrite decimal_eq at 2. rewrite <- string_of_uint_iter_D0, NilEmpty.usu.
    simpl. rewrite of_uint_iter_D0, DecimalN.Unsigned.of_to. reflexivity.
Qed.

(** While the session sees fewer than 999999 policies, the six
    characters are digits that read as the count of the policies the
    session sees, plus one. *)
Theorem generate_policy_number_reads_back w :
  (visible_count w + 1 < 10 ^ 6)%N ->
  exists digits,
    generate_policy_number w = "POL-" +:+ digits
    /\ read_decimal digits = Some (visible_count w + 1)%N.
Proof.
  intros H. unfold generate_policy_number. fold (visible_count w).
  eexists. split; [reflexivity |].
  apply read_decimal_LPAD, decimal_length, H.
Qed.

Lemma generate_policy_number_reads_back_witness :
  (visible_count Demo.as_ann + 1 < 10 ^ 6)%N
  /\ exists digits,
       generate_policy_number Demo.as_ann = "POL-" +:+ digits
       /\ read_decimal digits = Some (visible_count Demo.as_ann + 1)%N.
Proof.
  assert (H : (visible_count Demo.as_ann + 1 < 10 ^ 6)%N)
    by (vm_compute; reflexivity).
  split; [exact H | exact (generate_policy_number_reads_back Demo.as_ann H)].
Defined.

(** A number the procedure gave at an earlier count is not the one it
    gives now: while every number in the table came from the procedure,
    the UNIQUE constraint on [policy_number] does not get in the way. *)
Theorem generate_policy_number_is_new w :
  (visible_count w + 1 < 10 ^ 6)%N ->
  map_Forall
    (fun _ row =>
       exists k, (k <= visible_count w)%N
                 /\ Policy.policy_number row
                    = "POL-" +:+ LPAD (decimal k) 6 "0")
    (policies w) ->
  policy_number_free w (generate_policy_number w) = true.
Proof.
  intros Hn Hall. apply bool_decide_eq_true.
  intros id row Hrow E.
  destruct (Hall id row Hrow) as (k & Hk & Hnum).
  unfold generate_policy_number in E. fold (visible_count w) in E.
  rewrite Hnum in E. injection E as E.
  change ("" +:+ ?s) with s in E.
  apply (f_equal read_decimal) in E.
  rewrite (read_decimal_LPAD k), (read_decimal_LPAD (visible_count w + 1)) in E
    by (apply decimal_length; lia).
  injection E as E. lia.
Qed.

Lemma generate_policy_number_is_new_witness :
  let w :=
    (createPolicy (Demo.env false) Demo.jane
       (with_policies ∅ Demo.as_ann)).2 in
  (visible_count w + 1 < 10 ^ 6)%N
  /\ map_Forall
       (fun _ row =>
          exists k, (k <= visible_count w)%N
                    /\ Policy.policy_number row
                       = "POL-" +:+ LPAD (decimal k) 6 "0")
       (policies w)
  /\ policy_number_free w (generate_policy_number w) = true.
Proof.
  intros w.
  assert (Hn : (visible_count w + 1 < 10 ^ 6)%N) by (vm_compute; reflexivity).
  assert (Hall : map_Forall
            (fun _ row =>
               exists k, (k <= visible_count w)%N
                         /\ Policy.policy_number row
                            = "POL-" +:+ LPAD (decimal k) 6 "0")
            (policies w)).
  { intros id row Hrow. exists 1%N.
    split; [vm_compute; discriminate |].
    change (policies w) with
      (<[uuid_generate_v4 (Demo.env false) :=
           PolicyInsert.row "p-new"
             {| PolicyInsert.policy_number := "POL-000001";
                PolicyInsert.customer_name := "Jane Doe";
                PolicyInsert.premium_amount := 500;
                PolicyInsert.product_type := "Auto Insurance";
                PolicyInsert.creator_id := "ann";
                PolicyInsert.fraud_check_passed := true;
                PolicyInsert.fraud_check_reason :=
                  "All fraud checks passed successfully";
                PolicyInsert.status := PolicyStatus.draft |}]>
         (∅ : gmap uuid Policy.t)) in Hrow.
    apply lookup_insert_Some in Hrow as [[_ <-] | [_ Hrow]];
      [reflexivity | rewrite lookup_empty in Hrow; discriminate Hrow]. }
  split; [exact Hn | split; [exact Hall |]].
  exact (generate_policy_number_is_new w Hn Hall).
Defined.

(** [generatePolicyNumber] never throws; it takes the number of the
    procedure, and the time stamp only when the procedure fails: the
    procedure never answers with an empty number. *)
Theorem generatePolicyNumber_fallback env w :
  generatePolicyNumber env w
  = (Returned (match rpc_error env with
               | Some _ => "POL-" +:+ decimal (date_now env)
               | None => generate_policy_number w
               end),
     sent RpcGeneratePolicyNumber w).
Proof.
  unfold generatePolicyNumber, rpc_generate_policy_number, bind.
  destruct (rpc_error env); reflexivity.
Qed.

(** ** Creating and reading *)

(** The conditions under which [createPolicy] returns, and what it
    returns then. *)
Lemma createPolicy_returns env policyData w row :
  (createPolicy env policyData w).1 = Returned row ->
  auth_uid w = Some (PolicyData.creator_id policyData)
  /\ Rls.has_role w (PolicyData.creator_id policyData) UserRole.creator = true
  /\ (0 < Policy.premium_amount row)%Q
  /\ policies w !! Policy.id row = None
  /\ Policy.id row = uuid_generate_v4 env
  /\ Policy.status row = PolicyStatus.draft
  /\ Policy.creator_id row = PolicyData.creator_id policyData
  /\ Policy.customer_name row = PolicyData.customer_name policyData
  /\ numeric_10_2 (PolicyData.premium_amount policyData)
     = Some (Policy.premium_amount row)
  /\ Policy.product_type row = PolicyData.product_type policyData
  /\ Policy.fraud_check_passed row
     = FraudCheck.passed (performFraudCheck (randomFraudFlag env) policyData)
  /\ Policy.fraud_check_reason row
     = FraudCheck.reason (performFraudCheck (randomFraudFlag env) policyData)
  /\ policies (createPolicy env policyData w).2
     = <[Policy.id row := row]> (policies w).
Proof.
  intros H.
  destruct (createPolicy_eq env policyData w)
    as (number & _ & [(e & _ & He)
                     | (stored & Hs & Hu & Hr & Hq & Hk & _ & _ & Ho)]).
  - rewrite He in H. discriminate H.
  - rewrite Ho in *. cbn [fst snd] in *. injection H as <-.
    destruct (inserted_as_stored _ _ _ _ Hs) as (premium_amount & Hp & ->).
    rewrite policies_noted. simpl in *. auto 20.
Qed.

Lemma createPolicy_auth_uid env policyData w :
  auth_uid (createPolicy env policyData w).2 = auth_uid w.
Proof.
  destruct (createPolicy_eq env policyData w)
    as (number & _ & [(e & _ & H) | (stored & _ & _ & _ & _ & _ & _ & _ & H)]);
    rewrite H; [reflexivity |].
  cbn [fst snd]. match goal with |- auth_uid (noted ?l ?w0) = _ =>
                   destruct (noted_frame l w0) as (-> & _) end.
  reflexivity.
Qed.

(** [createPolicy] returns only to a user with the role creator who
    creates a policy of their own with a premium above zero; the policy
    is stored as a draft under a key that was free. *)
Theorem createPolicy_only_for_oneself env policyData w row :
  (createPolicy env policyData w).1 = Returned row ->
  auth_uid w = Some (Policy.creator_id row)
  /\ Rls.has_role w (Policy.creator_id row) UserRole.creator = true
  /\ (0 < Policy.premium_amount row)%Q
  /\ Policy.status row = PolicyStatus.draft
  /\ policies w !! Policy.id row = None
  /\ policies (createPolicy env policyData w).2 !! Policy.id row = Some row.
Proof.
  intros H.
  destruct (createPolicy_returns env policyData w row H)
    as (Hu & Hr & Hq & Hk & _ & Hs & Hc & _ & _ & _ & _ & _ & Hp).
  rewrite Hc, Hp, lookup_insert_eq. auto 10.
Qed.

Lemma createPolicy_only_for_oneself_witness :
  let out := createPolicy (Demo.env false) Demo.jane Demo.as_ann in
  exists row,
    out.1 = Returned row
    /\ auth_uid Demo.as_ann = Some (Policy.creator_id row)
    /\ Rls.has_role Demo.as_ann (Policy.creator_id row) UserRole.creator = true
    /\ (0 < Policy.premium_amount row)%Q
    /\ Policy.status row = PolicyStatus.draft
    /\ policies Demo.as_ann !! Policy.id row = None
    /\ policies out.2 !! Policy.id row = Some row.
Proof.
  intros out.
  assert (H : exists row, out.1 = Returned row)
    by (vm_compute; eexists; reflexivity).
  destruct H as [row H]. exists row. split; [exact H |].
  exact (createPolicy_only_for_oneself (Demo.env false) Demo.jane Demo.as_ann
           row H).
Defined.

(** The other direction: a creator who creates a policy of their own,
    with a premium that is above zero once it is rounded to two decimals
    and fits the column, gets the new draft back, when the key the
    database draws and the policy number are not taken.  The row carries
    the rounded premium. *)
Theorem createPolicy_for_a_creator env policyData w number premium_amount :
  auth_uid w = Some (PolicyData.creator_id policyData) ->
  Rls.has_role w (PolicyData.creator_id policyData) UserRole.creator = true ->
  numeric_10_2 (PolicyData.premium_amount policyData) = Some premium_amount ->
  (0 < premium_amount)%Q ->
  policies w !! uuid_generate_v4 env = None ->
  (generatePolicyNumber env w).1 = Returned number ->
  policy_number_free w number = true ->
  (createPolicy env policyData w).1
  = Returned
      {| Policy.id := uuid_generate_v4 env;
         Policy.policy_number := number;
         Policy.customer_name := PolicyData.customer_name policyData;
         Policy.premium_amount := premium_amount;
         Policy.product_type := PolicyData.product_type policyData;
         Policy.status := PolicyStatus.draft;
         Policy.fraud_check_passed :=
           FraudCheck.passed
             (performFraudCheck (randomFraudFlag env) policyData);
         Policy.fraud_check_reason :=
           FraudCheck.reason
             (performFraudCheck (randomFraudFlag env) policyData);
         Policy.creator_id := PolicyData.creator_id policyData |}.
Proof.
  intros Hu Hr Hp Hq Hk Hn Hfree.
  destruct (createPolicy_eq env policyData w)
    as (number' & Hn' & [(e & He & _)
                        | (stored & Hs & _ & _ & _ & _ & _ & _ & Ho)]);
    rewrite Hn in Hn'; injection Hn' as <-.
  - assert (Hs : insert_as_stored
                   (inserted policyData
                      (performFraudCheck (randomFraudFlag env) policyData)
                      number)
                 = Some
                     {| PolicyInsert.policy_number := number;
                        PolicyInsert.customer_name :=
                          PolicyData.customer_name policyData;
                        PolicyInsert.premium_amount := premium_amount;
                        PolicyInsert.product_type :=
                          PolicyData.product_type policyData;
                        PolicyInsert.creator_id :=
                          PolicyData.creator_id policyData;
                        PolicyInsert.fraud_check_passed :=
                          FraudCheck.passed
                            (performFraudCheck (randomFraudFlag env) policyData);
                        PolicyInsert.fraud_check_reason :=
                          FraudCheck.reason
                            (performFraudCheck (randomFraudFlag env) policyData);
                        PolicyInsert.status := PolicyStatus.draft |}).
    { unfold insert_as_stored, inserted. simpl. rewrite Hp. reflexivity. }
    rewrite (insert_policy_stored env _ _ w Hs Hu Hr Hq Hk Hfree) in He.
    discriminate He.
  - rewrite Ho. cbn [fst snd].
    destruct (inserted_as_stored _ _ _ _ Hs) as (premium_amount' & Hp' & ->).
    rewrite Hp in Hp'. injection Hp' as <-. reflexivity.
Qed.

(** Ann enters a premium of 500.129; the policy is stored with 500.13. *)
Lemma createPolicy_for_a_creator_witness :
  let policyData :=
    {| PolicyData.customer_name := "Jane Doe";
       PolicyData.premium_amount := 500129 # 1000;
       PolicyData.product_type := "Auto Insurance";
       PolicyData.creator_id := "ann" |} in
  (createPolicy (Demo.env true) policyData Demo.as_ann).1
  = Returned
      {| Policy.id := "p-new";
         Policy.policy_number := "POL-000006";
         Policy.customer_name := "Jane Doe";
         Policy.premium_amount := 50013 # 100;
         Policy.product_type := "Auto Insurance";
         Policy.status := PolicyStatus.draft;
         Policy.fraud_check_passed :=
           FraudCheck.passed (performFraudCheck true policyData);
         Policy.fraud_check_reason :=
           FraudCheck.reason (performFraudCheck true policyData);
         Policy.creator_id := "ann" |}.
Proof.
  intros policyData.
  apply (createPolicy_for_a_creator (Demo.env true) policyData Demo.as_ann
           "POL-000006" (50013 # 100));
    vm_compute; reflexivity.
Defined.

(** What was created can be read back, by its key and in the listing. *)
Theorem createPolicy_then_getPolicy env policyData w row :
  (createPolicy env policyData w).1 = Returned row ->
  (getPolicy (Policy.id row) (createPolicy env policyData w).2).1
  = Returned (Some row)
  /\ exists listed,
       (getPolicies None (createPolicy env policyData w).2).1 = Returned listed
       /\ listed !! Policy.id row = Some row.
Proof.
  intros H.
  destruct (createPolicy_returns env policyData w row H)
    as (Hu & Hr & _ & _ & _ & _ & _ & _ & _ & _ & _ & _ & Hp).
  apply has_role_has_profile in Hr.
  destruct (createPolicy_evolves env policyData w) as (Hprof & _ & _).
  pose proof (createPolicy_auth_uid env policyData w) as Hauth.
  set (w' := (createPolicy env policyData w).2) in *.
  assert (Hvis : forall r, Rls.visible w' r = true).
  { intros r. unfold Rls.visible, Rls.view_using, Rls.has_profile in *.
    rewrite Hauth, Hu, Hprof. exact Hr. }
  split.
  - rewrite getPolicy_eq. simpl. unfold visible_policy.
    rewrite Hp, lookup_insert_eq, Hvis. reflexivity.
  - eexists. split; [reflexivity |].
    apply map_lookup_filter_Some. split.
    + rewrite Hp. apply lookup_insert_eq.
    + simpl. rewrite Hvis. reflexivity.
Qed.

Lemma createPolicy_then_getPolicy_witness :
  let out := createPolicy (Demo.env true) Demo.jane Demo.as_ann in
  exists row,
    out.1 = Returned row
    /\ (getPolicy (Policy.id row) out.2).1 = Returned (Some row)
    /\ exists listed,
         (getPolicies None out.2).1 = Returned listed
         /\ listed !! Policy.id row = Some row.
Proof.
  intros out.
  assert (H : exists row, out.1 = Returned row)
    by (vm_compute; eexists; reflexivity).
  destruct H as [row H]. exists row. split; [exact H |].
  exact (createPolicy_then_getPolicy (Demo.env true) Demo.jane Demo.as_ann
           row H).
Defined.

(** [createPolicy] leaves the policies that exist as they are, whether it
    returns or throws. *)
Theorem createPolicy_keeps_policies env policyData w :
  policies w ⊆ policies (createPolicy env policyData w).2.
Proof.
  destruct (createPolicy_eq env policyData w)
    as (number & _ & [(e & _ & H) | (stored & _ & _ & _ & _ & Hk & _ & _ & H)]);
    rewrite H; cbn [fst snd]; [reflexivity |].
  rewrite policies_noted. simpl. apply insert_subseteq, Hk.
Qed.
(** ** Who can change what *)

(** The rows a session may update, read off the three UPDATE policies. *)
Lemma update_using_cases w uid row :
  Rls.update_using w uid row = true ->
  (Rls.has_role w uid UserRole.creator = true
   /\ Policy.creator_id row = uid
   /\ Policy.status row = PolicyStatus.draft)
  \/ (Rls.has_role w uid UserRole.underwriter = true
      /\ Policy.status row = PolicyStatus.pending_underwriter)
  \/ (Rls.has_role w uid UserRole.manager = true
      /\ Policy.status row = PolicyStatus.pending_manager).
Proof.
  unfold Rls.update_using, Rls.creator_using, Rls.underwriter_using,
    Rls.manager_using.
  rewrite !orb_true_iff, !andb_true_iff, !bool_decide_eq_true. tauto.
Qed.

Lemma update_check_cases w uid row :
  Rls.update_check w uid row = true ->
  (Policy.creator_id row = uid /\ Policy.status row = PolicyStatus.draft)
  \/ Policy.status row = PolicyStatus.pending_manager
  \/ Policy.status row = PolicyStatus.approved
  \/ Policy.status row = PolicyStatus.rejected.
Proof.
  unfold Rls.update_check, Rls.creator_check, Rls.underwriter_check,
    Rls.manager_check.
  rewrite !orb_true_iff, !andb_true_iff, !bool_decide_eq_true. tauto.
Qed.

(** [updatePolicy] returns only for the creator of a draft, and for a
    manager on a policy that waits for the manager, and only when the
    update names a column.  The row it returns is the stored one: the old
    row but for the columns named in [updates], the premium rounded to
    two decimals and above zero. *)
Theorem updatePolicy_only_where_allowed policyId updates w row :
  (updatePolicy policyId updates w).1 = Returned row ->
  exists uid old,
    auth_uid w = Some uid
    /\ policies w !! policyId = Some old
    /\ ((Rls.has_role w uid UserRole.creator = true
         /\ Policy.creator_id old = uid
         /\ Policy.status old = PolicyStatus.draft)
        \/ (Rls.has_role w uid UserRole.manager = true
            /\ Policy.status old = PolicyStatus.pending_manager))
    /\ PolicyPatch.is_empty (PolicyUpdates.patch updates) = false
    /\ Policy.customer_name row
       = default (Policy.customer_name old) (PolicyUpdates.customer_name updates)
    /\ Policy.product_type row
       = default (Policy.product_type old) (PolicyUpdates.product_type updates)
    /\ match PolicyUpdates.premium_amount updates with
       | Some premium_amount =>
           numeric_10_2 premium_amount = Some (Policy.premium_amount row)
       | None => Policy.premium_amount row = Policy.premium_amount old
       end
    /\ Policy.status row = Policy.status old
    /\ fixed_columns row = fixed_columns old
    /\ (0 < Policy.premium_amount row)%Q
    /\ policies (updatePolicy policyId updates w).2
       = <[policyId := row]> (policies w).
Proof.
  unfold updatePolicy.
  destruct (update_policy_spec (PolicyUpdates.patch updates) policyId w)
    as [[e H] | (uid & old & stored & Hu & Hl & He & Hs & Hus & Hck & Hpr & H)];
    rewrite (bind_returned _ _ _ _ _ H); cbv beta; unfold unwrap.
  - rewrite bind_throw. discriminate.
  - rewrite bind_ret. simpl. intros [= <-].
    destruct (patch_as_stored_columns _ _ Hs) as (Hn & Hp & Hst & Hpa).
    simpl in Hn, Hp, Hst, Hpa.
    exists uid, old. split; [exact Hu | split; [exact Hl |]].
    assert (Hstatus : Policy.status (PolicyPatch.apply stored old)
                      = Policy.status old)
      by (simpl; rewrite Hst; reflexivity).
    split; [| split; [exact He |]].
    + apply update_using_cases in Hus. apply update_check_cases in Hck.
      rewrite Hstatus in Hck. simpl in Hck.
      destruct Hus as [Hc | [[_ Hd] | Hm]]; [left; exact Hc | | right; exact Hm].
      rewrite Hd in Hck.
      destruct Hck as [[_ Hd'] | [Hd' | [Hd' | Hd']]]; discriminate Hd'.
    + simpl. rewrite Hn, Hp, Hst, Hpa.
      split; [reflexivity | split; [reflexivity | split]].
      * unfold patch_as_stored in Hs. simpl in Hs.
        destruct (PolicyUpdates.premium_amount updates) as [x |];
          [destruct (numeric_10_2 x); [| discriminate Hs] |]; reflexivity.
      * split; [reflexivity | split; [reflexivity | split; [| reflexivity]]].
        apply Qgtb_spec. unfold premium_amount_check in Hpr. simpl in Hpr.
        rewrite Hpa in Hpr. exact Hpr.
Qed.

(** Ann changes the name and enters a premium of 750.555; 750.56 is
    stored. *)
Lemma updatePolicy_only_where_allowed_witness :
  let updates :=
    {| PolicyUpdates.customer_name := Some "John Doe";
       PolicyUpdates.premium_amount := Some (750555 # 1000);
       PolicyUpdates.product_type := None |} in
  let out := updatePolicy "p-draft" updates Demo.as_ann in
  exists row,
    out.1 = Returned row
    /\ Policy.premium_amount row = 18764 # 25
    /\ exists uid old,
         auth_uid Demo.as_ann = Some uid
         /\ policies Demo.as_ann !! "p-draft" = Some old
         /\ ((Rls.has_role Demo.as_ann uid UserRole.creator = true
              /\ Policy.creator_id old = uid
              /\ Policy.status old = PolicyStatus.draft)
             \/ (Rls.has_role Demo.as_ann uid UserRole.manager = true
                 /\ Policy.status old = PolicyStatus.pending_manager))
         /\ PolicyPatch.is_empty (PolicyUpdates.patch updates) = false
         /\ Policy.customer_name row = "John Doe"
         /\ Policy.product_type row = Policy.product_type old
         /\ numeric_10_2 (750555 # 1000) = Some (Policy.premium_amount row)
         /\ Policy.status row = Policy.status old
         /\ fixed_columns row = fixed_columns old
         /\ (0 < Policy.premium_amount row)%Q
         /\ policies out.2 = <["p-draft" := row]> (policies Demo.as_ann).
Proof.
  intros updates out.
  assert (H : exists row, out.1 = Returned row
                          /\ Policy.premium_amount row = 18764 # 25)
    by (vm_compute; eexists; split; reflexivity).
  destruct H as (row & H & Hp). exists row.
  split; [exact H | split; [exact Hp |]].
  exact (updatePolicy_only_where_allowed "p-draft" updates Demo.as_ann row H).
Defined.

(** The second case does occur: a manager can edit a policy that waits
    for the manager's decision. *)
Example updatePolicy_by_the_manager :
  (updatePolicy "p-mgr"
     {| PolicyUpdates.customer_name := None;
        PolicyUpdates.premium_amount := Some 1%Q;
        PolicyUpdates.product_type := None |} Demo.as_eve).1
  = Returned
      (PolicyPatch.apply
         {| PolicyPatch.customer_name := None;
            PolicyPatch.premium_amount := Some 1%Q;
            PolicyPatch.product_type := None;
            PolicyPatch.status := None |}
         (Demo.policy "p-mgr" PolicyStatus.pending_manager)).
Proof. vm_compute. reflexivity. Qed.

Lemma processApproval_returns policyId approverId action role comments w row :
  (processApproval policyId approverId action role comments w).1
  = Returned row ->
  exists old s lines,
    visible_policy w policyId = Some old
    /\ asked action (Policy.status old) role s
    /\ auth_uid w = Some approverId
    /\ Rls.update_using w approverId old = true
    /\ row = with_status s old
    /\ (processApproval policyId approverId action role comments w).2
       = noted lines
           (with_approval_logs
              (approval_logs w
               ++ [entry policyId approverId action role comments old s])
              (sent (InsertApprovalLog
                       (entry policyId approverId action role comments old s))
                 (with_policies (<[policyId := with_status s old]> (policies w))
                    (sent (UpdatePolicy policyId (PolicyPatch.only_status s))
                       (sent (SelectPolicy policyId) w))))).
Proof.
  intros H.
  pose proof (processApproval_spec policyId approverId action role comments w)
    as Hspec.
  destruct (processApproval policyId approverId action role comments w)
    as [out w'].
  simpl in *. subst out.
  inversion Hspec as [| | | | old s uid lines Hv Hs Hu Hus Hck Ha Hr Hw].
  subst uid. exists old, s, lines. auto 10.
Qed.

(** [processApproval] returns only to the user the session belongs to,
    and only when that user is in charge of the policy: the underwriter
    of a policy that waits for the underwriter, the manager of one that
    waits for the manager, or, for a rejection, the creator of a draft.
    An approval also needs the right [role] argument; a rejection accepts
    any. *)
Theorem processApproval_only_for_the_one_in_charge
    policyId approverId action role comments w row :
  (processApproval policyId approverId action role comments w).1
  = Returned row ->
  exists old r,
    auth_uid w = Some approverId
    /\ policies w !! policyId = Some old
    /\ Rls.has_role w approverId r = true
    /\ match r with
       | UserRole.creator =>
           Policy.status old = PolicyStatus.draft
           /\ Policy.creator_id old = approverId
           /\ action = Decision.rejected
       | UserRole.underwriter =>
           Policy.status old = PolicyStatus.pending_underwriter
       | UserRole.manager => Policy.status old = PolicyStatus.pending_manager
       end
    /\ (action = Decision.approved -> role = UserRole.literal r)
    /\ row = with_status (Policy.status row) old
    /\ moves (Policy.status old) (Policy.status row)
    /\ Policy.status row <> Policy.status old.
Proof.
  intros H.
  destruct (processApproval_returns _ _ _ _ _ _ _ H)
    as (old & s & lines & Hv & Hs & Hu & Hus & -> & _).
  apply visible_policy_lookup in Hv.
  apply update_using_cases in Hus.
  destruct Hus as [(Hr & Hc & Hd) | [[Hr Hd] | [Hr Hd]]];
    [exists old, UserRole.creator | exists old, UserRole.underwriter
     | exists old, UserRole.manager];
    (split; [exact Hu | split; [exact Hv | split; [exact Hr |]]]);
    rewrite Hd in *; inversion Hs; subst; simpl;
    repeat split; try congruence; try discriminate;
    unfold moves; auto using forward.
Qed.

Lemma processApproval_only_for_the_one_in_charge_witness :
  let out :=
    processApproval "p-uw" "bob" Decision.approved "underwriter" "" Demo.as_bob in
  exists row,
    out.1 = Returned row
    /\ exists old r,
         auth_uid Demo.as_bob = Some "bob"
         /\ policies Demo.as_bob !! "p-uw" = Some old
         /\ Rls.has_role Demo.as_bob "bob" r = true
         /\ match r with
            | UserRole.creator =>
                Policy.status old = PolicyStatus.draft
                /\ Policy.creator_id old = "bob"
                /\ Decision.approved = Decision.rejected
            | UserRole.underwriter =>
                Policy.status old = PolicyStatus.pending_underwriter
            | UserRole.manager =>
                Policy.status old = PolicyStatus.pending_manager
            end
         /\ (Decision.approved = Decision.approved
             -> "underwriter" = UserRole.literal r)
         /\ row = with_status (Policy.status row) old
         /\ moves (Policy.status old) (Policy.status row)
         /\ Policy.status row <> Policy.status old.
Proof.
  intros out.
  assert (H : exists row, out.1 = Returned row)
    by (vm_compute; eexists; reflexivity).
  destruct H as [row H]. exists row. split; [exact H |].
  exact (processApproval_only_for_the_one_in_charge
           "p-uw" "bob" Decision.approved "underwriter" "" Demo.as_bob row H).
Defined.

(** For the four rows of the transition table that go through
    [processApproval], a decision of the user in charge, taken in a
    session of their own, is stored and logged: the policy gets the next
    status and nothing else in it changes, the other policies stay, and
    the audit log grows by the one row of the decision. *)
Theorem decision_of_the_one_in_charge
    w uid r policyId policy action next comments :
  auth_uid w = Some uid ->
  Rls.has_role w uid r = true ->
  policies w !! policyId = Some policy ->
  premium_amount_check policy = true ->
  transition_table (Policy.status policy) (UserRole.literal r)
    (Decision.action action) = Some next ->
  let out := processApproval policyId uid action (UserRole.literal r) comments w in
  out.1 = Returned (with_status next policy)
  /\ policies out.2 = <[policyId := with_status next policy]> (policies w)
  /\ approval_logs out.2
     = approval_logs w
       ++ [{| ApprovalLog.policy_id := policyId;
              ApprovalLog.approver_id := uid;
              ApprovalLog.action := Decision.action action;
              ApprovalLog.role := UserRole.literal r;
              ApprovalLog.comments := comments;
              ApprovalLog.previous_status := Policy.status policy;
              ApprovalLog.new_status := next |}].
Proof.
  intros Hu Hr Hl Hpr Ht out.
  destruct (processApproval_listed_rows w uid r policyId policy action next
              comments Hu Hr Hl Hpr Ht) as [Hout _].
  split; [exact Hout |].
  destruct (processApproval_returns _ _ _ _ _ _ _ Hout)
    as (old & s & lines & Hv & Hs & _ & _ & Hrow & Hw).
  apply visible_policy_lookup in Hv. rewrite Hl in Hv. injection Hv as <-.
  assert (s = next) as ->.
  { apply (f_equal Policy.status) in Hrow. simpl in Hrow. congruence. }
  unfold out. rewrite Hw, policies_noted, approval_logs_noted. simpl.
  split; reflexivity.
Qed.

Lemma decision_of_the_one_in_charge_witness :
  let out :=
    processApproval "p-mgr" "eve" Decision.approved "manager" "fine"
      Demo.as_eve in
  out.1
  = Returned
      (with_status PolicyStatus.approved
         (Demo.policy "p-mgr" PolicyStatus.pending_manager))
  /\ policies out.2
     = <["p-mgr" := with_status PolicyStatus.approved
                      (Demo.policy "p-mgr" PolicyStatus.pending_manager)]>
         (policies Demo.as_eve)
  /\ approval_logs out.2
     = approval_logs Demo.as_eve
       ++ [{| ApprovalLog.policy_id := "p-mgr";
              ApprovalLog.approver_id := "eve";
              ApprovalLog.action := ApprovalAction.approved;
              ApprovalLog.role := "manager";
              ApprovalLog.comments := "fine";
              ApprovalLog.previous_status := PolicyStatus.pending_manager;
              ApprovalLog.new_status := PolicyStatus.approved |}].
Proof.
  apply (decision_of_the_one_in_charge Demo.as_eve "eve" UserRole.manager
           "p-mgr" (Demo.policy "p-mgr" PolicyStatus.pending_manager)
           Decision.approved PolicyStatus.approved "fine");
    vm_compute; reflexivity.
Defined.

(** Ann renames her draft and enters a premium of 750.555; 750.56 is
    stored. *)
Lemma updatePolicy_edits_own_draft_witness :
  let updates :=
    {| PolicyUpdates.customer_name := Some "John Doe";
       PolicyUpdates.premium_amount := Some (750555 # 1000);
       PolicyUpdates.product_type := None |} in
  let new :=
    {| Policy.id := "p-draft";
       Policy.policy_number := "POL-p-draft";
       Policy.customer_name := "John Doe";
       Policy.premium_amount := 18764 # 25;
       Policy.product_type := "Auto Insurance";
       Policy.status := PolicyStatus.draft;
       Policy.fraud_check_passed := true;
       Policy.fraud_check_reason := "All fraud checks passed successfully";
       Policy.creator_id := "ann" |} in
  (updatePolicy "p-draft" updates Demo.as_ann).1 = Returned new
  /\ policies (updatePolicy "p-draft" updates Demo.as_ann).2 !! "p-draft"
     = Some new.
Proof.
  intros updates new.
  apply (updatePolicy_edits_own_draft Demo.as_ann "ann" "p-draft"
           (Demo.policy "p-draft" PolicyStatus.draft) updates
           {| PolicyPatch.customer_name := Some "John Doe";
              PolicyPatch.premium_amount := Some (18764 # 25);
              PolicyPatch.product_type := None;
              PolicyPatch.status := None |});
    vm_compute; reflexivity.
Defined.

Lemma processApproval_unlisted_approval_witness :
  processApproval "p-uw" "eve" Decision.approved "manager" "" Demo.as_eve
  = (Thrown (JsError "Invalid approval workflow state"),
     sent (SelectPolicy "p-uw") Demo.as_eve).
Proof.
  apply (processApproval_unlisted_approval "p-uw" "eve" "manager" ""
           Demo.as_eve (Demo.policy "p-uw" PolicyStatus.pending_underwriter));
    vm_compute; reflexivity.
Defined.

Lemma processApproval_terminal_witness :
  let out :=
    processApproval "p-ok" "eve" Decision.rejected "manager" "late"
      Demo.as_eve in
  (exists e, out.1 = Thrown e)
  /\ policies out.2 = policies Demo.as_eve
  /\ approval_logs out.2 = approval_logs Demo.as_eve.
Proof.
  apply (processApproval_terminal "p-ok" "eve" Decision.rejected "manager"
           "late" Demo.as_eve (Demo.policy "p-ok" PolicyStatus.approved));
    [vm_compute; reflexivity | left; reflexivity].
Defined.

(** Bob approves, Eve approves, Ann tries to hand in: three calls, and
    the policy that waited for the underwriter has made three moves at
    most. *)
Lemma statuses_never_go_back_witness :
  let calls :=
    [by_user (Some "bob")
       (Call.processApproval "p-uw" "bob" Decision.approved "underwriter" "");
     by_user (Some "eve")
       (Call.processApproval "p-uw" "eve" Decision.approved "manager" "");
     by_user (Some "ann")
       (Call.submitPolicy "p-uw" "ann")] in
  exists s',
    status_of (invoke_all calls Demo.world) "p-uw" = Some s'
    /\ nsteps moves 3 PolicyStatus.pending_underwriter s'
    /\ rank PolicyStatus.pending_underwriter <= rank s'
    /\ (terminal PolicyStatus.pending_underwriter
        -> s' = PolicyStatus.pending_underwriter).
Proof.
  intros calls.
  apply (statuses_never_go_back calls Demo.world "p-uw"
           PolicyStatus.pending_underwriter).
  vm_compute. reflexivity.
Defined.

(** ** The shape of one call *)

Lemma update_using_role w uid row :
  Rls.update_using w uid row = true -> exists r, Rls.has_role w uid r = true.
Proof.
  intros H. apply update_using_cases in H.
  destruct H as [(H & _) | [[H _] | [H _]]]; eauto.
Qed.

Lemma has_role_profile w uid r :
  Rls.has_role w uid r = true -> is_Some (user_profiles w !! uid).
Proof.
  intros H. apply has_role_has_profile in H.
  apply bool_decide_eq_true in H. exact H.
Qed.

Lemma insert_approval_log_returns payload w w' :
  insert_approval_log payload w = (Returned (Data tt), w') ->
  auth_uid w = Some (ApprovalLog.approver_id payload)
  /\ is_Some (policies w !! ApprovalLog.policy_id payload)
  /\ is_Some (user_profiles w !! ApprovalLog.approver_id payload).
Proof.
  unfold insert_approval_log, Rls.log_check.
  destruct (auth_uid w) as [uid |]; [| discriminate].
  destruct (bool_decide (ApprovalLog.approver_id payload = uid)) eqn:E1;
    [| discriminate]. simpl.
  destruct (bool_decide (is_Some _)) eqn:E2; [| discriminate]. simpl.
  destruct (Rls.has_profile w _) eqn:E3; [| discriminate]. simpl.
  intros _. apply bool_decide_eq_true in E1, E2, E3. subst uid. auto.
Qed.

Lemma logApproval_returns policyId approverId action role comments prev new w :
  (logApproval policyId approverId action role comments prev new w).1
  = Returned tt ->
  auth_uid w = Some approverId
  /\ is_Some (policies w !! policyId)
  /\ is_Some (user_profiles w !! approverId)
  /\ (logApproval policyId approverId action role comments prev new w).2
     = with_approval_logs
         (approval_logs w
          ++ [ApprovalLog.make policyId approverId action role comments prev new])
         (sent (InsertApprovalLog
                  (ApprovalLog.make policyId approverId action role comments
                     prev new)) w).
Proof.
  intros H. unfold logApproval, bind in *.
  destruct (insert_approval_log _ w) as [[[[] | e] | e] w'] eqn:E;
    simpl in H; try discriminate H.
  destruct (insert_approval_log_returns _ _ _ E) as (Hu & Hp & Hr).
  destruct (insert_approval_log_spec
              (ApprovalLog.make policyId approverId action role comments prev new)
              w) as [[e E'] | [_ E']]; rewrite E' in E; [discriminate E |].
  injection E as <-. auto.
Qed.

(** What one call does to the table of policies: nothing, or, in the
    session of a user with a profile, one new row under a key that was
    free, or new values in one row. *)
Lemma run_policies c w :
  policies (run c w).2 = policies w
  \/ (exists uid r,
        auth_uid w = Some uid /\ Rls.has_role w uid r = true)
     /\ ((exists key new,
            policies w !! key = None
            /\ policies (run c w).2 = <[key := new]> (policies w))
         \/ (exists id old patch,
               policies w !! id = Some old
               /\ policies (run c w).2
                  = <[id := PolicyPatch.apply patch old]> (policies w))).
Proof.
  destruct c; simpl; rewrite ?forget_world; auto.
  - destruct (createPolicy env policyData w) as [[row | e] w'] eqn:E.
    + pose proof (createPolicy_returns env policyData w row) as H.
      rewrite E in H.
      destruct (H eq_refl)
        as (Hu & Hr & _ & Hk & _ & _ & _ & _ & _ & _ & _ & _ & Hp).
      right. split; [eauto |]. left. exists (Policy.id row), row. auto.
    + left.
      destruct (createPolicy_eq env policyData w)
        as (number & _ & [(e' & _ & H)
                         | (stored & _ & _ & _ & _ & _ & _ & _ & H)]);
        rewrite E in H; [| discriminate H].
      injection H as _ ->. reflexivity.
  - unfold updatePolicy.
    destruct (update_policy_spec (PolicyUpdates.patch updates) policyId w)
      as [[e H] | (uid & old & stored & Hu & Hl & _ & _ & Hus & _ & _ & H)];
      rewrite (bind_returned _ _ _ _ _ H); cbv beta; unfold unwrap.
    + rewrite bind_throw. auto.
    + rewrite bind_ret. right.
      destruct (update_using_role _ _ _ Hus) as [r Hr].
      split; [eauto |]. right. exists policyId, old. eexists.
      split; [exact Hl | reflexivity].
  - destruct (submitPolicy_changes_nothing policyId creatorId w) as [-> _]. auto.
  - pose proof (processApproval_spec policyId approverId action role comments w)
      as Hspec.
    destruct (processApproval policyId approverId action role comments w)
      as [out w'].
    simpl in *.
    destruct Hspec as [Hv | old Hv _ _ | old s e Hv _ _
                       | old s uid e Hv _ Hu Hus _ _
                       | old s uid lines Hv _ Hu Hus _ _]; auto;
      apply visible_policy_lookup in Hv;
      destruct (update_using_role _ _ _ Hus) as [r Hr];
      right; (split; [eauto |]); right;
      exists policyId, old, (PolicyPatch.only_status s);
      (split; [exact Hv |]); rewrite ?policies_noted; reflexivity.
  - destruct (logApproval_spec policyId approverId action role comments
                previousStatus newStatus w) as [(e & _ & H) | [_ H]];
      rewrite H; auto.
Qed.

(** What one call does to the audit log: nothing, or one new row, written
    in the session of its approver, who has a profile, about a policy
    that exists. *)
Lemma run_logs c w :
  approval_logs (run c w).2 = approval_logs w
  \/ exists row,
       approval_logs (run c w).2 = approval_logs w ++ [row]
       /\ auth_uid w = Some (ApprovalLog.approver_id row)
       /\ is_Some (user_profiles w !! ApprovalLog.approver_id row)
       /\ is_Some (policies (run c w).2 !! ApprovalLog.policy_id row).
Proof.
  destruct c; simpl; rewrite ?forget_world; auto.
  - left.
    destruct (createPolicy_eq env policyData w)
      as (number & _ & [(e & _ & H)
                       | (stored & _ & _ & _ & _ & _ & _ & _ & H)]);
      rewrite H; cbn [fst snd]; rewrite ?approval_logs_noted; reflexivity.
  - left. unfold updatePolicy.
    destruct (update_policy_spec (PolicyUpdates.patch updates) policyId w)
      as [[e H] | (uid & old & stored & _ & Hl & _ & _ & _ & _ & _ & H)];
      rewrite (bind_returned _ _ _ _ _ H); reflexivity.
  - destruct (submitPolicy_changes_nothing policyId creatorId w) as [_ ->]. auto.
  - pose proof (processApproval_spec policyId approverId action role comments w)
      as Hspec.
    destruct (processApproval policyId approverId action role comments w)
      as [out w'].
    simpl in *.
    destruct Hspec as [Hv | old Hv _ _ | old s e Hv _ _
                       | old s uid e Hv _ _ _ _ _
                       | old s uid lines Hv _ Hu Hus _ Ha]; auto.
    right. exists (entry policyId approverId action role comments old s).
    rewrite approval_logs_noted, policies_noted. simpl.
    destruct (update_using_role _ _ _ Hus) as [r Hr].
    apply has_role_profile in Hr. subst uid.
    split; [reflexivity | split; [exact Hu | split; [exact Hr |]]].
    rewrite lookup_insert_eq. eauto.
  - destruct (logApproval policyId approverId action role comments
                previousStatus newStatus w) as [[[] | e] w'] eqn:E.
    + destruct (logApproval_returns policyId approverId action role comments
                  previousStatus newStatus w) as (Hu & Hp & Hr & Hw);
        [rewrite E; reflexivity |].
      rewrite E in Hw. simpl in Hw. subst w'. simpl. right. eexists.
      split; [reflexivity | auto].
    + destruct (logApproval_spec policyId approverId action role comments
                  previousStatus newStatus w) as [(e' & _ & H) | [_ H]];
        rewrite H in E; [| discriminate E].
      injection E as _ <-. auto.
Qed.

(** ** What no sequence of calls does *)

Lemma invoke_keeps i w id row :
  policies w !! id = Some row ->
  exists row',
    policies (invoke i w) !! id = Some row'
    /\ fixed_columns row' = fixed_columns row.
Proof.
  intros Hl. unfold invoke.
  destruct (run_policies (call i) (signed_in (caller i) w))
    as [-> | [_ [(key & new & Hk & ->) | (id' & old & patch & Ho & ->)]]];
    simpl in *.
  - eauto.
  - exists row. split; [| reflexivity].
    rewrite lookup_insert_ne; [exact Hl | congruence].
  - destruct (decide (id' = id)) as [-> | Hne].
    + rewrite lookup_insert_eq. rewrite Hl in Ho. injection Ho as <-. eauto.
    + rewrite lookup_insert_ne by exact Hne. eauto.
Qed.

Lemma invoke_all_keeps calls w id :
  is_Some (policies w !! id) ->
  is_Some (policies (invoke_all calls w) !! id).
Proof.
  revert w. induction calls as [| i calls IH]; intros w [row Hl]; [eauto |].
  destruct (invoke_keeps i w id row Hl) as (row1 & H1 & _).
  apply (IH (invoke i w)). eauto.
Qed.

(** No sequence of calls removes a policy or changes its key, its number,
    its creator or the outcome of its fraud check. *)
Theorem fixed_columns_never_change calls w id row :
  policies w !! id = Some row ->
  exists row',
    policies (invoke_all calls w) !! id = Some row'
    /\ fixed_columns row' = fixed_columns row.
Proof.
  revert w row. induction calls as [| i calls IH]; intros w row Hl.
  - exists row. auto.
  - destruct (invoke_keeps i w id row Hl) as (row1 & H1 & E1).
    destruct (IH (invoke i w) row1 H1) as (row' & H' & E').
    exists row'. split; [exact H' | congruence].
Qed.

Lemma fixed_columns_never_change_witness :
  let calls :=
    [by_user (Some "ann")
       (Call.updatePolicy "p-draft"
          {| PolicyUpdates.customer_name := Some "John Doe";
             PolicyUpdates.premium_amount := Some 750%Q;
             PolicyUpdates.product_type := None |});
     by_user (Some "ann")
       (Call.processApproval "p-draft" "ann" Decision.rejected "creator" "no")] in
  exists row',
    policies (invoke_all calls Demo.world) !! "p-draft" = Some row'
    /\ fixed_columns row'
       = fixed_columns (Demo.policy "p-draft" PolicyStatus.draft).
Proof.
  intros calls.
  apply (fixed_columns_never_change calls Demo.world "p-draft").
  vm_compute. reflexivity.
Defined.

(** No sequence of calls writes to the profiles. *)
Theorem user_profiles_never_change calls w :
  user_profiles (invoke_all calls w) = user_profiles w.
Proof.
  revert w. induction calls as [| i calls IH]; intros w; [reflexivity |].
  unfold invoke_all in *. simpl. rewrite IH.
  apply (invoke_evolves i w).
Qed.

(** Along any sequence of calls every call adds at most one row to the
    audit log, and each row added names as approver the user in whose
    session it was written, who has a profile, and a policy that
    exists. *)
Theorem audit_rows_name_their_author calls w :
  exists added,
    approval_logs (invoke_all calls w) = approval_logs w ++ added
    /\ length added <= length calls
    /\ Forall
         (fun row =>
            (exists i, i ∈ calls /\ caller i = Some (ApprovalLog.approver_id row))
            /\ is_Some (user_profiles w !! ApprovalLog.approver_id row)
            /\ is_Some
                 (policies (invoke_all calls w) !! ApprovalLog.policy_id row))
         added.
Proof.
  revert w. induction calls as [| i calls IH]; intros w.
  - exists []. split; [symmetry; apply app_nil_r | split; [reflexivity | constructor]].
  - destruct (IH (invoke i w)) as (added & Hl & Hn & Hf).
    assert (Hprof : user_profiles (invoke i w) = user_profiles w)
      by apply (invoke_evolves i w).
    assert (Hf' : Forall
      (fun row =>
         (exists j, j ∈ i :: calls
                    /\ caller j = Some (ApprovalLog.approver_id row))
         /\ is_Some (user_profiles w !! ApprovalLog.approver_id row)
         /\ is_Some (policies (invoke_all (i :: calls) w)
                       !! ApprovalLog.policy_id row)) added).
    { eapply Forall_impl; [exact Hf |]. intros row ((j & Hj & Hc) & Hu & Hp).
      rewrite Hprof in Hu.
      split; [exists j; split; [right; exact Hj | exact Hc] | auto]. }
    destruct (run_logs (call i) (signed_in (caller i) w))
      as [H | (row & H & Ha & Hu & Hp)]; fold (invoke i w) in *; simpl in *.
    + exists added. unfold invoke_all in *. simpl. rewrite Hl, H.
      split; [reflexivity | split; [lia | exact Hf']].
    + exists (row :: added). unfold invoke_all in *. simpl. rewrite Hl, H.
      split; [rewrite <- app_assoc; reflexivity | split; [simpl; lia |]].
      constructor; [| exact Hf'].
      split; [exists i; split; [left | exact Ha] |].
      split; [exact Hu |].
      exact (invoke_all_keeps calls (invoke i w) _ Hp).
Qed.

(** ** Sessions without a profile *)

(** In the session of nobody, or of a user without a profile, no call
    changes the policies or the audit log, and no policy can be read. *)
Theorem nothing_without_a_profile c w :
  (forall uid, auth_uid w = Some uid -> user_profiles w !! uid = None) ->
  policies (run c w).2 = policies w
  /\ approval_logs (run c w).2 = approval_logs w
  /\ (forall policyId, (getPolicy policyId w).1 = Returned None)
  /\ (forall filters, (getPolicies filters w).1 = Returned ∅).
Proof.
  intros Hno.
  assert (Hvis : forall row, Rls.visible w row = false).
  { intros row. unfold Rls.visible, Rls.view_using, Rls.has_profile.
    destruct (auth_uid w) as [uid |] eqn:Hu; [| reflexivity].
    rewrite (Hno uid eq_refl). apply bool_decide_eq_false.
    intros [x Hx]. discriminate Hx. }
  split; [| split; [| split]].
  - destruct (run_policies c w) as [H | [(uid & r & Hu & Hr) _]]; [exact H |].
    apply has_role_profile in Hr. rewrite (Hno uid Hu) in Hr.
    destruct Hr as [x Hx]. discriminate Hx.
  - destruct (run_logs c w) as [H | (row & _ & Hu & Hp & _)]; [exact H |].
    rewrite (Hno _ Hu) in Hp. destruct Hp as [x Hx]. discriminate Hx.
  - intros policyId. rewrite getPolicy_eq. simpl. unfold visible_policy.
    destruct (policies w !! policyId); [rewrite Hvis |]; reflexivity.
  - intros filters. unfold getPolicies, select_policies, bind. simpl.
    f_equal. apply map_empty_filter.
    intros id row _. simpl. rewrite Hvis. discriminate.
Qed.

Lemma nothing_without_a_profile_witness :
  let w := signed_in (Some "zed") Demo.world in
  let c := Call.processApproval "p-draft" "zed" Decision.rejected "creator" "no" in
  policies (run c w).2 = policies w
  /\ approval_logs (run c w).2 = approval_logs w
  /\ (forall policyId, (getPolicy policyId w).1 = Returned None)
  /\ (forall filters, (getPolicies filters w).1 = Returned ∅).
Proof.
  intros w c. apply (nothing_without_a_profile c w).
  intros uid H. injection H as <-. vm_compute. reflexivity.
Defined.

(** [logApproval] writes its row exactly when it is called in the session
    of [approverId], who has a profile, about a policy that exists.
    Nothing ties the statuses, the action or the role it records to the
    policy or to the approver. *)
Theorem logApproval_writes_for_the_session_user
    policyId approverId action role comments prev new w :
  (logApproval policyId approverId action role comments prev new w).1
  = Returned tt
  <-> auth_uid w = Some approverId
      /\ is_Some (user_profiles w !! approverId)
      /\ is_Some (policies w !! policyId).
Proof.
  split.
  - intros H.
    destruct (logApproval_returns _ _ _ _ _ _ _ _ H) as (Hu & Hl & Hp & _).
    auto.
  - intros (Hu & Hp & Hl). unfold logApproval.
    rewrite (bind_returned _ _ _ _ _
               (insert_approval_log_stored
                  (ApprovalLog.make policyId approverId action role comments
                     prev new) w Hu Hl
                  (bool_decide_eq_true_2 _ Hp))).
    reflexivity.
Qed.

(** ** The audit trail of a policy *)

(** After a decision that went through, [getApprovalLogs] gives the entry
    of the decision first, with the name and the role of the approver,
    and after it what it gave before. *)
Theorem processApproval_then_getApprovalLogs
    policyId approverId action role comments w row :
  (processApproval policyId approverId action role comments w).1
  = Returned row ->
  exists old profile earlier,
    policies w !! policyId = Some old
    /\ user_profiles w !! approverId = Some profile
    /\ (getApprovalLogs policyId w).1 = Returned earlier
    /\ (getApprovalLogs policyId
          (processApproval policyId approverId action role comments w).2).1
       = Returned
           (({| ApprovalLog.policy_id := policyId;
                ApprovalLog.approver_id := approverId;
                ApprovalLog.action := Decision.action action;
                ApprovalLog.role := role;
                ApprovalLog.comments := comments;
                ApprovalLog.previous_status := Policy.status old;
                ApprovalLog.new_status := Policy.status row |},
             Some (UserProfile.full_name profile, UserProfile.role profile))
            :: earlier).
Proof.
  intros H.
  destruct (processApproval_returns _ _ _ _ _ _ _ H)
    as (old & s & lines & Hv & Hs & Hu & Hus & -> & ->).
  apply visible_policy_lookup in Hv.
  destruct (update_using_role _ _ _ Hus) as [r Hr].
  destruct (has_role_profile _ _ _ Hr) as [profile Hp].
  exists old, profile. eexists.
  split; [exact Hv | split; [exact Hp | split; [reflexivity |]]].
  unfold getApprovalLogs, select_approval_logs, bind.
  destruct (noted_frame lines
    (with_approval_logs
       (approval_logs w ++ [entry policyId approverId action role comments old s])
       (sent (InsertApprovalLog
                (entry policyId approverId action role comments old s))
          (with_policies (<[policyId := with_status s old]> (policies w))
             (sent (UpdatePolicy policyId (PolicyPatch.only_status s))
                (sent (SelectPolicy policyId) w))))))
    as (Ea & Eu & _ & El & _).
  cbn [fst snd]. rewrite Ea, Eu, El. simpl. rewrite Hu. simpl.
  rewrite filter_app, fmap_app, reverse_app. simpl.
  rewrite filter_cons_True by reflexivity. simpl.
  rewrite ?filter_nil. simpl. rewrite Hp. reflexivity.
Qed.

Lemma processApproval_then_getApprovalLogs_witness :
  let out :=
    processApproval "p-mgr" "eve" Decision.rejected "manager" "too risky"
      Demo.as_eve in
  exists row,
    out.1 = Returned row
    /\ exists old profile earlier,
         policies Demo.as_eve !! "p-mgr" = Some old
         /\ user_profiles Demo.as_eve !! "eve" = Some profile
         /\ (getApprovalLogs "p-mgr" Demo.as_eve).1 = Returned earlier
         /\ (getApprovalLogs "p-mgr" out.2).1
            = Returned
                (({| ApprovalLog.policy_id := "p-mgr";
                     ApprovalLog.approver_id := "eve";
                     ApprovalLog.action := Decision.action Decision.rejected;
                     ApprovalLog.role := "manager";
                     ApprovalLog.comments := "too risky";
                     ApprovalLog.previous_status := Policy.status old;
                     ApprovalLog.new_status := Policy.status row |},
                  Some (UserProfile.full_name profile, UserProfile.role profile))
                 :: earlier).
Proof.
  intros out.
  assert (H : exists row, out.1 = Returned row)
    by (vm_compute; eexists; reflexivity).
  destruct H as [row H]. exists row. split; [exact H |].
  exact (processApproval_then_getApprovalLogs
           "p-mgr" "eve" Decision.rejected "manager" "too risky" Demo.as_eve
           row H).
Defined.

(** ** Reading *)

(** What [getPolicies] lists under any filters is part of what it lists
    without, and [getPolicy] finds exactly the policies of that listing. *)
Theorem getPolicies_agrees_with_getPolicy filters w :
  exists listed everything,
    (getPolicies filters w).1 = Returned listed
    /\ (getPolicies None w).1 = Returned everything
    /\ listed ⊆ everything
    /\ forall policyId, (getPolicy policyId w).1 = Returned (everything !! policyId).
Proof.
  do 2 eexists. split; [reflexivity | split; [reflexivity | split]].
  - apply map_subseteq_spec. intros id row H.
    apply map_lookup_filter_Some in H as [Hl Hw].
    apply map_lookup_filter_Some. split; [exact Hl |].
    simpl in *. destruct (Rls.visible w row); [reflexivity | discriminate Hw].
  - intros policyId. rewrite getPolicy_eq. simpl. f_equal.
    unfold visible_policy.
    destruct (policies w !! policyId) as [row |] eqn:Hl.
    + destruct (Rls.visible w row) eqn:Hv; symmetry.
      * apply map_lookup_filter_Some. simpl. rewrite Hv. auto.
      * apply map_lookup_filter_None. right. intros row' Hl' Hw.
        rewrite Hl in Hl'. injection Hl' as <-. simpl in Hw.
        rewrite Hv in Hw. discriminate Hw.
    + symmetry. apply map_lookup_filter_None. left. exact Hl.
Qed.

(** ** The fraud check and its reason *)

(** The reason says that all checks passed exactly when the check
    passed.  A single risk factor found by the rules does not fail the
    check, and is then not reported. *)
Theorem performFraudCheck_reason_matches_verdict flag policy :
  (FraudCheck.passed (performFraudCheck flag policy) = true
   <-> FraudCheck.reason (performFraudCheck flag policy)
       = "All fraud checks passed successfully")
  /\ (flag = false ->
      length (assess_risk flag policy).1 <= 1 ->
      FraudCheck.passed (performFraudCheck flag policy) = true).
Proof.
  unfold performFraudCheck, assess_risk.
  destruct flag, (Qgtb (PolicyData.premium_amount policy) 100000),
    ((String.length (PolicyData.customer_name policy) <? 3)%nat
     || digits_only (PolicyData.customer_name policy));
    simpl; (split; [split; [intros H; try discriminate H; reflexivity
                           | intros H; try discriminate H; reflexivity]
                   | intros Hf Hl; try discriminate Hf; try reflexivity;
                     simpl in Hl; lia]).
Qed.

(** ** The handlers of the views *)

(** The submit action of the policy detail view never refreshes the
    view: it always ends in an alert, with the policies and the audit log
    as they were. *)
Theorem handleSubmit_always_alerts profile policy w :
  ((handleSubmit profile policy w).1 = alert "Policy not found"
   \/ exists error, (handleSubmit profile policy w).1 = alert_database error)
  /\ policies (handleSubmit profile policy w).2 = policies w
  /\ approval_logs (handleSubmit profile policy w).2 = approval_logs w.
Proof.
  unfold handleSubmit, try_or_alert.
  destruct (submitPolicy_spec (Policy.id policy) (UserProfile.id profile) w)
    as [[_ H] | (old & e & _ & H)]; rewrite H; simpl; eauto.
Qed.

(** For a policy the view offers to edit, in the session of the profile
    the view was opened with, the update action goes by the premium as
    the column takes it, rounded to two decimals: above zero, the three
    fields of the form are stored, the premium rounded, and the view is
    refreshed; zero or below, the database refuses the row; too large for
    the column, the database refuses the number.  When it refuses,
    nothing changes. *)
Theorem handleUpdate_checks_premium
    profile policy customer_name premium_amount product_type w :
  auth_uid w = Some (UserProfile.id profile) ->
  user_profiles w !! UserProfile.id profile = Some profile ->
  policies w !! Policy.id policy = Some policy ->
  canEdit (Some profile) policy = true ->
  let out := handleUpdate policy customer_name premium_amount product_type w in
  match numeric_10_2 premium_amount with
  | Some stored =>
      if Qgtb stored 0 then
        out.1 = onUpdate
        /\ policies out.2
           = <[Policy.id policy :=
                 {| Policy.id := Policy.id policy;
                    Policy.policy_number := Policy.policy_number policy;
                    Policy.customer_name := customer_name;
                    Policy.premium_amount := stored;
                    Policy.product_type := product_type;
                    Policy.status := Policy.status policy;
                    Policy.fraud_check_passed := Policy.fraud_check_passed policy;
                    Policy.fraud_check_reason := Policy.fraud_check_reason policy;
                    Policy.creator_id := Policy.creator_id policy |}]>
               (policies w)
      else
        out.1 = alert_database check_violation
        /\ policies out.2 = policies w
  | None =>
      out.1 = alert_database numeric_value_out_of_range
      /\ policies out.2 = policies w
  end.
Proof.
  intros Hu Hp Hl Hc out.
  unfold canEdit in Hc.
  apply andb_true_iff in Hc as [Hc Hid]. apply andb_true_iff in Hc as [Hr Hs].
  apply bool_decide_eq_true in Hr, Hs. apply String.eqb_eq in Hid.
  assert (Hrole : Rls.has_role w (UserProfile.id profile) UserRole.creator = true).
  { unfold Rls.has_role. rewrite Hp. simpl. rewrite Hr.
    apply bool_decide_eq_true. reflexivity. }
  pose proof (has_role_has_profile _ _ _ Hrole) as Hprof.
  assert (Hus : Rls.update_using w (UserProfile.id profile) policy = true).
  { unfold Rls.update_using, Rls.creator_using. rewrite Hid, Hs, Hrole.
    rewrite !bool_decide_eq_true_2 by reflexivity. reflexivity. }
  unfold out, handleUpdate, try_or_alert, updatePolicy, bind, update_policy,
    update_policy_under, patch_as_stored, Rls.view_using.
  simpl. rewrite Hu, Hl, Hprof, Hus. simpl.
  destruct (numeric_10_2 premium_amount) as [stored |]; [| auto].
  unfold Rls.update_check, Rls.creator_check, premium_amount_check. simpl.
  rewrite Hid, Hs. rewrite !bool_decide_eq_true_2 by reflexivity. simpl.
  destruct (Qgtb stored 0); simpl; auto.
  split; [reflexivity |]. unfold PolicyPatch.apply. simpl.
  rewrite ?Hid, ?Hs. reflexivity.
Qed.

(** Ann enters a premium of 750.555 for her draft; 750.56 is stored. *)
Lemma handleUpdate_checks_premium_witness :
  let policy := Demo.policy "p-draft" PolicyStatus.draft in
  let out :=
    handleUpdate policy "John Doe" (750555 # 1000) "Home Insurance"
      Demo.as_ann in
  out.1 = onUpdate
  /\ policies out.2
     = <["p-draft" :=
           {| Policy.id := "p-draft";
              Policy.policy_number := Policy.policy_number policy;
              Policy.customer_name := "John Doe";
              Policy.premium_amount := 18764 # 25;
              Policy.product_type := "Home Insurance";
              Policy.status := PolicyStatus.draft;
              Policy.fraud_check_passed := Policy.fraud_check_passed policy;
              Policy.fraud_check_reason := Policy.fraud_check_reason policy;
              Policy.creator_id := "ann" |}]>
         (policies Demo.as_ann).
Proof.
  intros policy out.
  assert (H1 : auth_uid Demo.as_ann = Some (UserProfile.id Demo.ann))
    by reflexivity.
  assert (H2 : user_profiles Demo.as_ann !! UserProfile.id Demo.ann
               = Some Demo.ann) by (vm_compute; reflexivity).
  assert (H3 : policies Demo.as_ann !! Policy.id policy = Some policy)
    by (vm_compute; reflexivity).
  assert (H4 : canEdit (Some Demo.ann) policy = true) by reflexivity.
  exact (handleUpdate_checks_premium Demo.ann policy "John Doe"
           (750555 # 1000) "Home Insurance" Demo.as_ann H1 H2 H3 H4).
Defined.

(** A rejection with a reason, by the user in charge of the policy, goes
    through: the view is refreshed, the policy is rejected and the reason
    is in the last row of the audit log. *)
Theorem handleReject_with_a_reason profile policy comments w :
  auth_uid w = Some (UserProfile.id profile) ->
  user_profiles w !! UserProfile.id profile = Some profile ->
  policies w !! Policy.id policy = Some policy ->
  premium_amount_check policy = true ->
  canApprove (Some profile) policy = true ->
  ~ blank comments ->
  let out := handleReject profile policy comments w in
  out.1 = onUpdate
  /\ status_of out.2 (Policy.id policy) = Some PolicyStatus.rejected
  /\ exists row,
       last (approval_logs out.2) = Some row
       /\ ApprovalLog.comments row = comments
       /\ ApprovalLog.approver_id row = UserProfile.id profile
       /\ ApprovalLog.previous_status row = Policy.status policy
       /\ ApprovalLog.new_status row = PolicyStatus.rejected.
Proof.
  intros Hu Hp Hl Hpr Hc Hb out.
  assert (Hrole : Rls.has_role w (UserProfile.id profile)
                    (UserProfile.role profile) = true).
  { unfold Rls.has_role. rewrite Hp. apply bool_decide_eq_true. reflexivity. }
  assert (Ht : transition_table (Policy.status policy)
                 (UserRole.literal (UserProfile.role profile))
                 (Decision.action Decision.rejected)
               = Some PolicyStatus.rejected).
  { unfold canApprove in Hc.
    apply orb_true_iff in Hc as [Hc | Hc];
      apply andb_true_iff in Hc as [Hr Hs];
      apply bool_decide_eq_true in Hr, Hs; rewrite Hr, Hs; reflexivity. }
  destruct (processApproval_listed_rows w _ _ _ _ Decision.rejected _
              comments Hu Hrole Hl Hpr Ht) as [Hout Hst].
  destruct (processApproval_returns _ _ _ _ _ _ _ Hout)
    as (old & s & lines & Hv & Hs & _ & _ & Hrow & Hw).
  apply visible_policy_lookup in Hv. rewrite Hl in Hv. injection Hv as <-.
  inversion Hs; subst s.
  assert (E : String.eqb (trim comments) "" = false).
  { apply not_true_is_false. intros H. apply String.eqb_eq in H.
    apply Hb, trim_empty, H. }
  unfold out, handleReject. rewrite E. unfold try_or_alert.
  destruct (processApproval (Policy.id policy) (UserProfile.id profile)
              Decision.rejected (UserRole.literal (UserProfile.role profile))
              comments w) as [o w'] eqn:Eo.
  simpl in Hout, Hst, Hw. subst o. simpl.
  split; [reflexivity | split; [exact Hst |]].
  rewrite Hw, approval_logs_noted. simpl. rewrite last_snoc.
  eexists. split; [reflexivity |]. simpl. auto.
Qed.

Lemma handleReject_with_a_reason_witness :
  let policy := Demo.policy "p-uw" PolicyStatus.pending_underwriter in
  let out := handleReject Demo.bob policy "too risky" Demo.as_bob in
  out.1 = onUpdate
  /\ status_of out.2 (Policy.id policy) = Some PolicyStatus.rejected
  /\ exists row,
       last (approval_logs out.2) = Some row
       /\ ApprovalLog.comments row = "too risky"
       /\ ApprovalLog.approver_id row = UserProfile.id Demo.bob
       /\ ApprovalLog.previous_status row = Policy.status policy
       /\ ApprovalLog.new_status row = PolicyStatus.rejected.
Proof.
  intros policy out.
  apply (handleReject_with_a_reason Demo.bob policy "too risky" Demo.as_bob);
    try (vm_compute; reflexivity).
  intros H. inversion H as [| c l Hc _]. vm_compute in Hc. discriminate Hc.
Defined.

(** The view offers the approve and reject actions exactly where the
    approve branch of [processApproval] accepts the status and the role:
    where it does not, an approval ends in "Invalid approval workflow
    state". *)
Theorem canApprove_matches_processApproval
    profile policy approverId comments w :
  visible_policy w (Policy.id policy) = Some policy ->
  canApprove (Some profile) policy = false
  <-> processApproval (Policy.id policy) approverId Decision.approved
        (UserRole.literal (UserProfile.role profile)) comments w
      = (Thrown (JsError "Invalid approval workflow state"),
         sent (SelectPolicy (Policy.id policy)) w).
Proof.
  intros Hv.
  pose proof (processApproval_spec (Policy.id policy) approverId
                Decision.approved
                (UserRole.literal (UserProfile.role profile)) comments w)
    as Hspec.
  destruct (processApproval (Policy.id policy) approverId Decision.approved
              (UserRole.literal (UserProfile.role profile)) comments w)
    as [out w'].
  simpl in Hspec.
  assert (Hiff : canApprove (Some profile) policy = true
                 <-> exists s, asked Decision.approved (Policy.status policy)
                                 (UserRole.literal (UserProfile.role profile)) s).
  { unfold canApprove. split.
    - intros Hc. apply orb_true_iff in Hc as [Hc | Hc];
        apply andb_true_iff in Hc as [Hr Hs];
        apply bool_decide_eq_true in Hr, Hs; rewrite Hr, Hs;
        eexists; constructor.
    - intros [s Hs].
      remember (Policy.status policy) as status eqn:Es.
      remember (UserRole.literal (UserProfile.role profile)) as role eqn:Er.
      remember Decision.approved as action eqn:Ea.
      destruct Hs; [discriminate Ea | ..];
        destruct (UserProfile.role profile); try discriminate Er; reflexivity. }
  split.
  - intros Hc.
    destruct Hspec as [Hv' | old Hv' _ _ | old s e Hv' Hs _
                       | old s uid e Hv' Hs _ _ _ _
                       | old s uid lines Hv' Hs _ _ _ _];
      rewrite Hv in Hv'; try discriminate Hv'; try reflexivity;
      injection Hv' as <-;
      (assert (Ht : canApprove (Some profile) policy = true)
         by (apply Hiff; eauto));
      rewrite Ht in Hc; discriminate Hc.
  - intros E. apply not_true_is_false. intros Hc.
    apply Hiff in Hc as [s Hs].
    destruct Hspec as [Hv' | old Hv' _ Hno | old s' e Hv' _ _
                       | old s' uid e Hv' _ _ _ _ _
                       | old s' uid lines Hv' _ _ _ _ _];
      rewrite Hv in Hv'; try discriminate Hv'; try discriminate E.
    injection Hv' as <-. exact (Hno s Hs).
Qed.

Lemma canApprove_matches_processApproval_witness :
  canApprove (Some Demo.eve) (Demo.policy "p-uw" PolicyStatus.pending_underwriter)
  = false
  <-> processApproval "p-uw" "eve" Decision.approved "manager" "" Demo.as_eve
      = (Thrown (JsError "Invalid approval workflow state"),
         sent (SelectPolicy "p-uw") Demo.as_eve).
Proof.
  apply (canApprove_matches_processApproval Demo.eve
           (Demo.policy "p-uw" PolicyStatus.pending_underwriter) "eve" ""
           Demo.as_eve).
  vm_compute. reflexivity.
Defined.

(** ** The dashboard *)

(** The number on the dashboard is the number of policies on which the
    policy detail view offers the user a decision. *)
Theorem getPendingCount_counts_what_can_be_approved profile policies :
  Dashboard.getPendingCount profile policies
  = length (filter (fun p => canApprove profile p = true) policies).
Proof.
  unfold Dashboard.getPendingCount, canApprove.
  destruct profile as [[id email name []] |]; simpl.
  - induction policies as [| p ps IH]; [reflexivity |].
    rewrite filter_cons_False; [exact IH | discriminate].
  - f_equal. apply list_filter_iff. intros p.
    rewrite orb_false_r, bool_decide_eq_true. reflexivity.
  - f_equal. apply list_filter_iff. intros p.
    rewrite bool_decide_eq_true. reflexivity.
  - induction policies as [| p ps IH]; [reflexivity |].
    rewrite filter_cons_False; [exact IH | discriminate].
Qed.

(** Every policy is shown under exactly one status filter: the lists
    under the five filters add up to the list under ['all']. *)
Theorem status_filters_partition policies :
  length (Dashboard.filteredPolicies Dashboard.all policies)
  = length (Dashboard.filteredPolicies
              (Dashboard.only PolicyStatus.draft) policies)
    + length (Dashboard.filteredPolicies
                (Dashboard.only PolicyStatus.pending_underwriter) policies)
    + length (Dashboard.filteredPolicies
                (Dashboard.only PolicyStatus.pending_manager) policies)
    + length (Dashboard.filteredPolicies
                (Dashboard.only PolicyStatus.approved) policies)
    + length (Dashboard.filteredPolicies
                (Dashboard.only PolicyStatus.rejected) policies).
Proof.
  unfold Dashboard.filteredPolicies.
  induction policies as [| p ps IH]; [reflexivity |].
  rewrite !filter_cons.
  destruct (Policy.status p) eqn:E;
    repeat match goal with
           | |- context [decide (?a = ?b)] =>
               destruct (decide (a = b)); try discriminate; try congruence
           end;
    simpl; lia.
Qed.

(** ** The policy form *)

(** The form shows a fraud warning exactly when [createPolicy] went
    through, and the warning is the outcome of the fraud check on the
    fields of the form; otherwise it shows the error of the database and
    no policy was stored. *)
Theorem form_shows_the_fraud_check
    env profile customerName premiumAmount productType w :
  let policyData :=
    {| PolicyData.customer_name := customerName;
       PolicyData.premium_amount := premiumAmount;
       PolicyData.product_type := productType;
       PolicyData.creator_id := UserProfile.id profile |} in
  let fraudCheck := performFraudCheck (randomFraudFlag env) policyData in
  let out :=
    PolicyForm.handleSubmit env profile customerName premiumAmount productType w in
  (out.1 = PolicyForm.fraudWarning (FraudCheck.passed fraudCheck)
             (FraudCheck.reason fraudCheck)
   /\ exists row,
        policies out.2 = <[uuid_generate_v4 env := row]> (policies w)
        /\ Policy.status row = PolicyStatus.draft
        /\ Policy.creator_id row = UserProfile.id profile)
  \/ ((exists error, out.1 = PolicyForm.error_database error)
      /\ policies out.2 = policies w).
Proof.
  intros policyData fraudCheck out.
  unfold out, PolicyForm.handleSubmit. fold policyData.
  destruct (createPolicy env policyData w) as [[row | e] w'] eqn:E.
  - left.
    pose proof (createPolicy_returns env policyData w row) as H.
    rewrite E in H.
    destruct (H eq_refl)
      as (_ & _ & _ & _ & Hid & Hs & Hc & _ & _ & _ & Hpass & Hreason & Hp).
    simpl in *. fold fraudCheck in Hpass, Hreason.
    rewrite Hpass, Hreason. split.
    + destruct (FraudCheck.passed fraudCheck); reflexivity.
    + exists row. rewrite <- Hid. auto.
  - right.
    destruct (createPolicy_eq env policyData w)
      as (number & _ & [(e' & _ & H)
                       | (stored & _ & _ & _ & _ & _ & _ & _ & H)]);
      rewrite E in H; [| discriminate H].
    injection H as -> ->. simpl. eauto.
Qed.

(** ** A decision recorded for somebody else *)

(** When the user in charge decides in a session of their own but names
    another approver, the policy gets its next status, the database then
    refuses the audit row, and the call throws: the status has changed
    with no row in the audit log. *)
Theorem processApproval_for_another_approver
    w uid approverId r policyId policy action next comments :
  auth_uid w = Some uid ->
  approverId <> uid ->
  Rls.has_role w uid r = true ->
  policies w !! policyId = Some policy ->
  premium_amount_check policy = true ->
  transition_table (Policy.status policy) (UserRole.literal r)
    (Decision.action action) = Some next ->
  let out :=
    processApproval policyId approverId action (UserRole.literal r) comments w in
  out.1 = Thrown (DbError insufficient_privilege)
  /\ policies out.2 = <[policyId := with_status next policy]> (policies w)
  /\ approval_logs out.2 = approval_logs w.
Proof.
  intros Hu Hne Hr Hl Hpr Ht out.
  pose proof (has_role_has_profile _ _ _ Hr) as Hp.
  assert (Hs : asked action (Policy.status policy) (UserRole.literal r) next).
  { destruct (Policy.status policy), action, r; simpl in Ht;
      try discriminate Ht; injection Ht as <-; constructor. }
  assert (Hus : Rls.update_using w uid policy = true).
  { unfold Rls.update_using, Rls.underwriter_using, Rls.manager_using.
    destruct (Policy.status policy), action, r; simpl in Ht;
      try discriminate Ht; rewrite Hr; simpl; rewrite ?orb_true_r; reflexivity. }
  assert (Hck : Rls.update_check w uid (with_status next policy) = true).
  { unfold Rls.update_check, Rls.underwriter_check, Rls.manager_check.
    destruct Hs; simpl; rewrite ?orb_true_r; reflexivity. }
  pose proof (processApproval_spec policyId approverId action (UserRole.literal r)
                comments w) as Hspec.
  unfold out.
  destruct (processApproval policyId approverId action (UserRole.literal r)
              comments w) as [o w'].
  simpl in *.
  pose proof (visible_policy_with_profile _ _ policyId Hu Hp) as Hvis.
  rewrite Hl in Hvis.
  destruct Hspec
    as [Hv | old Hv _ Hno | old s e Hv Hs' Hup
        | old s uid' e Hv Hs' _ _ _ Hin | old s uid' lines Hv Hs' Hu' _ _ Ha];
    rewrite Hvis in Hv; try discriminate Hv; injection Hv as <-;
    try (pose proof (asked_functional _ _ _ _ _ Hs Hs') as <-).
  - destruct (Hno _ Hs).
  - rewrite (update_status_stored _ _ _ uid policy) in Hup; auto.
    discriminate Hup.
  - unfold insert_approval_log, Rls.log_check in Hin. simpl in Hin.
    rewrite Hu in Hin. simpl in Hin.
    rewrite (bool_decide_eq_false_2 _ Hne) in Hin. simpl in Hin.
    injection Hin as <-. auto.
  - rewrite Hu in Hu'. injection Hu' as <-. destruct (Hne Ha).
Qed.

Lemma processApproval_for_another_approver_witness :
  let out :=
    processApproval "p-uw" "eve" Decision.approved "underwriter" ""
      Demo.as_bob in
  out.1 = Thrown (DbError insufficient_privilege)
  /\ policies out.2
     = <["p-uw" := with_status PolicyStatus.pending_manager
                     (Demo.policy "p-uw" PolicyStatus.pending_underwriter)]>
         (policies Demo.as_bob)
  /\ approval_logs out.2 = approval_logs Demo.as_bob.
Proof.
  apply (processApproval_for_another_approver Demo.as_bob "bob" "eve"
           UserRole.underwriter "p-uw"
           (Demo.policy "p-uw" PolicyStatus.pending_underwriter)
           Decision.approved PolicyStatus.pending_manager "");
    try (vm_compute; reflexivity).
  discriminate.
Defined.

(** ** Notifications *)

Lemma console_noted lines w : console (noted lines w) = console w ++ lines.
Proof.
  revert w. induction lines as [| [type message] lines IH]; intros w.
  - symmetry. apply app_nil_r.
  - unfold noted in *. simpl. rewrite IH. simpl.
    rewrite <- app_assoc. reflexivity.
Qed.

(** On every call [createPolicy] writes the line of the fraud check to
    the console, whether it goes on to return or to throw.  It notifies
    only after the row is stored: "policy_created" always, "fraud_alert"
    after it when the policy did not pass the fraud check.  A call that
    throws has written the line of the fraud check and nothing else. *)
Theorem createPolicy_notifies env policyData w :
  console (createPolicy env policyData w).2
  = console w
    ++ ("FRAUD CHECK NOTIFICATION",
        if FraudCheck.passed
             (performFraudCheck (randomFraudFlag env) policyData)
        then "PASSED" else "FAILED")
       :: match (createPolicy env policyData w).1 with
          | Returned row =>
              ("policy_created", "New policy created")
              :: (if Policy.fraud_check_passed row then []
                  else [("fraud_alert", "Policy flagged for fraud review")])
          | Thrown _ => []
          end.
Proof.
  destruct (createPolicy_eq env policyData w)
    as (number & _ & [(e & _ & H) | (stored & Hs & _ & _ & _ & _ & _ & _ & H)]);
    rewrite H; cbn [fst snd]; [reflexivity |].
  rewrite console_noted. simpl.
  destruct (inserted_as_stored _ _ _ _ Hs) as (premium_amount & _ & ->).
  simpl. rewrite <- app_assoc. reflexivity.
Qed.

(** [processApproval] notifies after the decision is stored and logged:
    of the approval by the underwriter and the action the manager is
    asked for, of the full approval, or of the rejection.  A call that
    throws notifies nothing. *)
Theorem processApproval_notifies policyId approverId action role comments w :
  console (processApproval policyId approverId action role comments w).2
  = console w
    ++ match (processApproval policyId approverId action role comments w).1 with
       | Returned row =>
           match Policy.status row with
           | PolicyStatus.pending_manager =>
               [("policy_approved", "Underwriter approved policy");
                ("approval_required", "Manager action required")]
           | PolicyStatus.approved =>
               [("policy_approved", "Policy fully approved")]
           | PolicyStatus.rejected => [("policy_rejected", "Policy rejected")]
           | _ => []
           end
       | Thrown _ => []
       end.
Proof.
  unfold processApproval.
  rewrite (bind_returned _ _ _ _ _ (getPolicy_eq policyId w)).
  destruct (visible_policy w policyId) as [old |] eqn:Hv;
    [| simpl; symmetry; apply app_nil_r].
  pose proof (visible_policy_lookup _ _ _ Hv) as Hl.
  match goal with |- context [bind ?m ?k] => set (decision := m); set (rest := k) end.
  assert (Hrest : forall s, asked action (Policy.status old) role s ->
    console (rest s (sent (SelectPolicy policyId) w)).2
    = console w
      ++ match (rest s (sent (SelectPolicy policyId) w)).1 with
         | Returned row =>
             match Policy.status row with
             | PolicyStatus.pending_manager =>
                 [("policy_approved", "Underwriter approved policy");
                  ("approval_required", "Manager action required")]
             | PolicyStatus.approved =>
                 [("policy_approved", "Policy fully approved")]
             | PolicyStatus.rejected => [("policy_rejected", "Policy rejected")]
             | _ => []
             end
         | Thrown _ => []
         end).
  { intros s Hs. unfold rest.
    destruct (update_status_spec s policyId
                (sent (SelectPolicy policyId) w))
      as [[e H] | (uid & old' & Hu & Hl' & Hus & Hck & _ & H)];
      rewrite (bind_returned _ _ _ _ _ H); cbv beta; unfold unwrap.
    { rewrite bind_throw. simpl. symmetry. apply app_nil_r. }
    rewrite bind_ret.
    match goal with |- context [bind (logApproval ?x1 ?x2 ?x3 ?x4 ?x5 ?x6 ?x7) _ ?W] =>
      destruct (logApproval_spec x1 x2 x3 x4 x5 x6 x7 W)
        as [(e & Hi & H') | [Ha H']]
    end.
    { rewrite (bind_thrown _ _ _ _ _ H'). simpl. symmetry. apply app_nil_r. }
    rewrite (bind_returned _ _ _ _ _ H').
    destruct (asked_cases _ _ _ _ Hs) as [[Ea Es] | [[Ea Es] | [Ea Es]]];
      rewrite Ea, Es in *; simpl; rewrite <- ?app_assoc; reflexivity. }
  unfold decision. destruct action.
  - destruct (bool_decide (Policy.status old = PolicyStatus.pending_underwriter)
              && String.eqb role "underwriter") eqn:H1.
    { apply andb_true_iff in H1 as [H1 H2].
      apply bool_decide_eq_true in H1. apply String.eqb_eq in H2. subst role.
      apply Hrest. rewrite H1. constructor. }
    destruct (bool_decide (Policy.status old = PolicyStatus.pending_manager)
              && String.eqb role "manager") eqn:H2.
    { apply andb_true_iff in H2 as [H2 H3].
      apply bool_decide_eq_true in H2. apply String.eqb_eq in H3. subst role.
      apply Hrest. rewrite H2. constructor. }
    simpl. symmetry. apply app_nil_r.
  - apply Hrest. constructor.
Qed.
